(** * Gas compressibility factor: the correlation-selection and root-finding
      pipeline of [z_corellation_function/value.py]

    The development embeds the module [value.py] (the functions
    [_check_working_Pr_Tr_range], [_get_z_model], [_construct_guess_list_order],
    [_calc_z_explicit_implicit_helper] and [calc_z]) and states its properties.

    - Python floats are IEEE binary64 numbers: Rocq's primitive [float].
    - Python dictionaries are [gmap string _].
    - The correlation functions, [scipy.optimize.newton] and the pseudo-critical
      classes [Piper] and [Sutton] are external collaborators: the code is a
      program tree ([prog]) whose [Call] nodes are the calls made to them, and
      a [handler] supplies their answers (a value or an exception).
    - [list(set(...))] is CPython's: the hash of a float, the insertion into
      the set's slot table and the walk over the table are modelled, and the
      walk is proved to list every distinct element once. *)

From Stdlib Require Import Floats ZArith List Bool Ascii String Lia.
From stdpp Require Import gmap strings list fin_maps.
Import ListNotations.

Set Warnings "-inexact-float".
Local Open Scope Z_scope.
Local Open Scope list_scope.

(* ===================================================================== *)
(** ** Python floats *)
(* ===================================================================== *)

Module PyFloat.

(** [x is y] on float objects, approximated by identity of the bits. *)
Definition py_is (x y : float) : bool := PrimFloat.Leibniz.eqb x y.

(** [x == y] as the containers use it ([PyObject_RichCompareBool]):
    identity first, then IEEE equality. *)
Definition py_eq (x y : float) : bool := py_is x y || PrimFloat.eqb x y.

(** [x < y], [x <= y], [x >= y] on floats. *)
Definition lt (x y : float) : bool := PrimFloat.ltb x y.
Definition le (x y : float) : bool := PrimFloat.leb x y.
Definition ge (x y : float) : bool := PrimFloat.leb y x.

End PyFloat.

(* ===================================================================== *)
(** ** CPython's [set] of floats: hashing, insertion and iteration order *)
(* ===================================================================== *)

(** The set object of CPython 3.7 and later ([Objects/setobject.c]) and the
    hash of a float ([_Py_HashDouble]).  The order in which [list(s)] yields
    the elements of a set is the order of the slots of its table. *)
Module PySet.
Import PyFloat.

(** [sys.hash_info]: modulus [2**61 - 1], [inf = 314159], [nan = 0]. *)
Definition HASH_BITS : Z := 61.
Definition HASH_MODULUS : Z := 2 ^ 61 - 1.
Definition HASH_INF : Z := 314159.
Definition HASH_NAN : Z := 0.

(** [hash(v)] for a float: the value [m * 2**e] reduced modulo
    [HASH_MODULUS] (where [2**61 = 1]), with the sign of [v]; [-1] is
    reserved and replaced by [-2].  (From CPython 3.10 on a NaN is hashed by
    the address of its object instead of [HASH_NAN].) *)
Definition hash_double (v : float) : Z :=
  match Prim2SF v with
  | S754_zero _ => 0
  | S754_infinity s => if s then - HASH_INF else HASH_INF
  | S754_nan => HASH_NAN
  | S754_finite s m e =>
      let x := (Z.pos m * 2 ^ (e mod HASH_BITS)) mod HASH_MODULUS in
      let x := if s then - x else x in
      if x =? -1 then -2 else x
  end.

(** The hash as the table sees it: [(size_t)hash]. *)
Definition as_size_t (h : Z) : Z := h mod 2 ^ 64.

Record setentry := { key : float; hash : Z }.

(** A set object: the slot table ([None] is an unused slot), [mask] is the
    table size minus one, [fill] the number of used slots. *)
Record setobject := {
  table : list (option setentry);
  mask : Z;
  fill : Z
}.

Definition PySet_MINSIZE : Z := 8.
Definition LINEAR_PROBES : Z := 9.
Definition PERTURB_SHIFT : Z := 5.

Definition empty_table (size : Z) : list (option setentry) :=
  replicate (Z.to_nat size) None.

Definition set_new : setobject :=
  {| table := empty_table PySet_MINSIZE; mask := PySet_MINSIZE - 1; fill := 0 |}.

(** Where a probe sequence ends. *)
Inductive slot :=
| Unused (i : nat)      (* an unused slot: the key is absent *)
| Active (i : nat).     (* a slot that already holds an equal key *)

(** The entry [e] holds a key equal to [k], whose hash is [h]. *)
Definition same_key (k : float) (h : Z) (e : setentry) : bool :=
  (hash e =? h) && py_eq (key e) k.

(** The inner loop: the slots [i], [i+1], ..., [i+n-1] are inspected in
    turn, up to the first unused one or the first whose entry [matches]. *)
Fixpoint linear_probe (t : list (option setentry)) (matches : setentry -> bool)
         (i : nat) (n : nat) : option slot :=
  match n with
  | O => None
  | S n' =>
      match t !! i with
      | Some None => Some (Unused i)
      | Some (Some e) =>
          if matches e then Some (Active i) else linear_probe t matches (S i) n'
      | None => None
      end
  end.

(** The outer [while (1)] loop: a run of [LINEAR_PROBES] further slots when
    they fit in the table, then the jump [i = i * 5 + 1 + perturb]. *)
Fixpoint probe (fuel : nat) (t : list (option setentry)) (msk : Z)
         (matches : setentry -> bool) (i perturb : Z) : option slot :=
  match fuel with
  | O => None
  | S fuel' =>
      let probes := if i + LINEAR_PROBES <=? msk then LINEAR_PROBES else 0 in
      match linear_probe t matches (Z.to_nat i) (S (Z.to_nat probes)) with
      | Some s => Some s
      | None =>
          let perturb' := Z.shiftr perturb PERTURB_SHIFT in
          probe fuel' t msk matches (Z.land (i * 5 + 1 + perturb') msk) perturb'
      end
  end.

(** Enough iterations for the perturbation to vanish and the recurrence
    [i = 5 i + 1] to visit the whole table. *)
Definition probe_fuel (msk : Z) : nat := Z.to_nat (msk + 1 + 64).

Definition find_slot (t : list (option setentry)) (msk : Z)
           (matches : setentry -> bool) (h : Z) : option slot :=
  probe (probe_fuel msk) t msk matches (Z.land (as_size_t h) msk) (as_size_t h).

(** [set_insert_clean]: insertion into a table known to hold no equal key;
    no key is compared. *)
Definition set_insert_clean (t : list (option setentry)) (msk : Z) (e : setentry)
  : list (option setentry) :=
  match find_slot t msk (fun _ => false) (hash e) with
  | Some (Unused i) => <[i := Some e]> t
  | _ => t
  end.

(** [set_table_resize]: the smallest power of two above [minused] (at least
    [PySet_MINSIZE]); the old entries are re-inserted in slot order. *)
Definition new_size (minused : Z) : Z :=
  Z.max PySet_MINSIZE (2 ^ (Z.log2 minused + 1)).

Definition set_table_resize (so : setobject) (minused : Z) : setobject :=
  let newsize := new_size minused in
  let newmask := newsize - 1 in
  {| table := fold_left (fun t e => set_insert_clean t newmask e)
                        (omap id (table so)) (empty_table newsize);
     mask := newmask;
     fill := fill so |}.

(** [set_add_entry]. *)
Definition set_add_entry (so : setobject) (k : float) : setobject :=
  let h := hash_double k in
  match find_slot (table so) (mask so) (same_key k h) h with
  | Some (Unused i) =>
      let so' := {| table := <[i := Some {| key := k; hash := h |}]> (table so);
                    mask := mask so;
                    fill := fill so + 1 |} in
      if fill so' * 5 <? mask so' * 3 then so'
      else set_table_resize so'
             (if 50000 <? fill so' then fill so' * 2 else fill so' * 4)
  | _ => so
  end.

(** [set(iterable)] for a list. *)
Definition set_of_list (l : list float) : setobject :=
  fold_left set_add_entry l set_new.

(** Iteration over a set: the keys in slot order. *)
Definition set_iter (so : setobject) : list float :=
  key <$> omap id (table so).

(** [list(set(l))]. *)
Definition list_set (l : list float) : list float := set_iter (set_of_list l).

(** ** What the language guarantees of [list(set(l))] *)

(** No two elements are equal. *)
Fixpoint distinct (r : list float) : bool :=
  match r with
  | [] => true
  | x :: r' => forallb (fun y => negb (py_eq x y) && negb (py_eq y x)) r' && distinct r'
  end.

(** [r] lists the distinct elements of [l]: its elements are objects of
    [l], every object of [l] is equal to one of them, no two are equal. *)
Definition lists_set (l r : list float) : bool :=
  forallb (fun y => existsb (py_is y) l) r
  && forallb (fun x => existsb (fun y => py_eq y x) r) l
  && distinct r.

End PySet.

(* ===================================================================== *)
(** ** Python values, exceptions and the external collaborators *)
(* ===================================================================== *)

(** Values stored in keyword dictionaries and in the property bag. *)
Inductive pyval :=
| PyNone
| PyBool (b : bool)
| PyInt (n : Z)
| PyFloat (x : float)
| PyObj (repr : string).

Definition py_optional (x : option float) : pyval :=
  match x with
  | None => PyNone
  | Some v => PyFloat v
  end.

(** Exceptions.  [CalleeError] is an exception raised inside an external
    collaborator; the other constructors are raised by this module. *)
Inductive exn :=
| KeyError (msg : string)
| RuntimeError (msg : string)
| ValueError (msg : string)
| TypeError (msg : string)
| CalleeError (e : string).

(** The correlation functions imported by the module. *)
Inductive zfunc := DAK | hall_yarborough | londono | kareem.

(** The pseudo-critical classes imported by the module. *)
Inductive pc_class := Piper | Sutton.

(** What [calc_z] reads from a pseudo-critical instance after
    [_initialize_Tr_and_Pr]: the returned pair and the attribute [ps_props]. *)
Record pc_state := {
  pc_Tr : float;
  pc_Pr : float;
  pc_ps_props : gmap string pyval
}.

(** Calls to external collaborators, indexed by the type of their result. *)
Inductive extcall : Type -> Type :=
| ZCorrelation (f : zfunc) (Pr Tr : float) : extcall float
    (* f(Pr=Pr, Tr=Tr) *)
| OptimizeNewton (f : zfunc) (x0 Pr Tr : float) (kw : gmap string pyval) : extcall float
    (* optimize.newton(f, x0, args=(Pr, Tr), ...) with the keywords kw *)
| InitializeTrPr (c : pc_class) (kw : gmap string pyval) : extcall pc_state.
    (* c()._initialize_Tr_and_Pr(...) with the keywords kw *)

(** A call returns a value or raises. *)
Definition outcome (R : Type) : Type := string + R.

(** Programs: return, raise, or call a collaborator and continue. *)
Inductive prog (A : Type) : Type :=
| Ret (a : A)
| Raise (e : exn)
| Call (R : Type) (c : extcall R) (k : outcome R -> prog A).

Arguments Ret {A} a.
Arguments Raise {A} e.
Arguments Call {A R} c k.

Fixpoint bind {A B : Type} (p : prog A) (f : A -> prog B) : prog B :=
  match p with
  | Ret a => f a
  | Raise e => Raise e
  | Call c k => Call c (fun r => bind (k r) f)
  end.

#[global] Instance prog_ret : MRet prog := @Ret.
#[global] Instance prog_bind : MBind prog := fun A B f p => bind p f.

(** A call outside any [try]: an exception of the callee propagates. *)
Definition call {R : Type} (c : extcall R) : prog R :=
  Call c (fun r => match r with
                   | inl e => Raise (CalleeError e)
                   | inr v => Ret v
                   end).

(** The collaborators' behaviour. *)
Definition handler : Type := forall R : Type, extcall R -> outcome R.

(** One event of a run: the call that was made. *)
Inductive event :=
| CalledZCorrelation (f : zfunc) (Pr Tr : float)
| CalledNewton (f : zfunc) (x0 Pr Tr : float) (kw : gmap string pyval)
| CalledInitializeTrPr (c : pc_class) (kw : gmap string pyval).

Definition ev {R : Type} (c : extcall R) : event :=
  match c with
  | ZCorrelation f Pr Tr => CalledZCorrelation f Pr Tr
  | OptimizeNewton f x0 Pr Tr kw => CalledNewton f x0 Pr Tr kw
  | InitializeTrPr c kw => CalledInitializeTrPr c kw
  end.

(** The event is a call to a pseudo-critical model. *)
Definition is_reduction (e : event) : bool :=
  match e with
  | CalledInitializeTrPr _ _ => true
  | _ => false
  end.

(** Running a program: the calls made, in order, and the result. *)
Fixpoint run_log {A : Type} (h : handler) (p : prog A) : list event * (exn + A) :=
  match p with
  | Ret a => ([], inr a)
  | Raise e => ([], inl e)
  | Call c k => let '(evs, r) := run_log h (k (h _ c)) in (ev c :: evs, r)
  end.

Definition run {A : Type} (h : handler) (p : prog A) : exn + A := snd (run_log h p).

Definition calls {A : Type} (h : handler) (p : prog A) : list event := fst (run_log h p).

(* ===================================================================== *)
(** ** numpy comparisons on scalars and arrays *)
(* ===================================================================== *)

Module Numpy.

(** A scalar or the elements of an array. *)
Inductive nd (A : Type) :=
| Scalar (x : A)
| Array (xs : list A).
Arguments Scalar {A} x.
Arguments Array {A} xs.

Definition elements {A : Type} (a : nd A) : list A :=
  match a with
  | Scalar x => [x]
  | Array xs => xs
  end.

(** [a >= c] and [a <= c] against a scalar bound. *)
Definition ge (a : nd float) (c : float) : nd bool :=
  match a with
  | Scalar x => Scalar (PyFloat.ge x c)
  | Array xs => Array (map (fun x => PyFloat.ge x c) xs)
  end.

Definition le (a : nd float) (c : float) : nd bool :=
  match a with
  | Scalar x => Scalar (PyFloat.le x c)
  | Array xs => Array (map (fun x => PyFloat.le x c) xs)
  end.

(** [np.logical_and(a, b)], with a scalar broadcast against an array. *)
Definition logical_and (a b : nd bool) : nd bool :=
  match a, b with
  | Scalar x, Scalar y => Scalar (x && y)
  | Scalar x, Array ys => Array (map (andb x) ys)
  | Array xs, Scalar y => Array (map (fun x => x && y) xs)
  | Array xs, Array ys => Array (zip_with andb xs ys)
  end.

(** [a.all()]. *)
Definition all (a : nd bool) : bool :=
  match a with
  | Scalar x => x
  | Array xs => forallb id xs
  end.

End Numpy.

(* ===================================================================== *)
(** ** The module [value.py] *)
(* ===================================================================== *)

Local Open Scope float_scope.

(** The double quote character, and a quoted name. *)
Definition dquote : string := String "034"%char EmptyString.
Definition quoted (s : string) : string := dquote +:+ s +:+ dquote.

(** [x in l] for a list of strings. *)
Definition py_in (x : string) (l : list string) : bool := existsb (String.eqb x) l.

(** [models]: name to correlation function. *)
Definition models : gmap string zfunc :=
  <["DAK" := DAK]> (<["hall_yarborough" := hall_yarborough]>
    (<["londono" := londono]> (<["kareem" := kareem]> ∅))).

(** One entry of [MODEL_RANGES]: the ['Tr'] and ['Pr'] pairs. *)
Record model_range := {
  range_Tr : float * float;
  range_Pr : float * float
}.

Definition MODEL_RANGES : gmap string model_range :=
  <["DAK" := {| range_Tr := (1, 3); range_Pr := (0.2, 30) |}]>
  (<["hall_yarborough" := {| range_Tr := (1, 3); range_Pr := (0.2, 20.5) |}]>
  (<["londono" := {| range_Tr := (1, 3); range_Pr := (0.2, 30) |}]>
  (<["kareem" := {| range_Tr := (1, 3); range_Pr := (0.2, 15) |}]> ∅))).

(** [_check_working_Pr_Tr_range(Pr, Tr, zmodel_str)].  An unknown name is the
    [KeyError] of the dictionary lookup. *)
Definition _check_working_Pr_Tr_range (Pr Tr : Numpy.nd float) (zmodel_str : string)
  : prog bool :=
  match MODEL_RANGES !! zmodel_str with
  | None => Raise (KeyError zmodel_str)
  | Some rg =>
      let Pr_is_in_range :=
        Numpy.all (Numpy.logical_and (Numpy.ge Pr (fst (range_Pr rg)))
                                     (Numpy.le Pr (snd (range_Pr rg)))) in
      let Tr_is_in_range :=
        Numpy.all (Numpy.logical_and (Numpy.ge Tr (fst (range_Tr rg)))
                                     (Numpy.le Tr (snd (range_Tr rg)))) in
      Ret (Pr_is_in_range && Tr_is_in_range)
  end.

(** What a caller can pass for [Pr] or [Tr]: a float or an ndarray, which
    [_check_working_Pr_Tr_range] above takes, or a Python list, which is
    array-like but no ndarray.  (Python treats a tuple as it treats a list,
    with ['tuple'] in the message below.) *)
Inductive array_like :=
| Numeric (a : Numpy.nd float)
| PyList (xs : list float).

(** The message of the [TypeError] of a comparison that neither operand
    defines: a list against a bound of the type [bound]. *)
Definition not_supported (op bound : string) : string :=
  "'" +:+ op +:+ "' not supported between instances of 'list' and '"
      +:+ bound +:+ "'".

(** [np.logical_and(a >= lo, a <= hi)] for such an operand: numpy's
    comparisons on a float or an ndarray.  On a list the first comparison,
    [a >= lo], raises [TypeError]; [lo_type] is the type of the bound [lo]. *)
Definition between_bounds (a : array_like) (lo hi : float) (lo_type : string)
  : prog (Numpy.nd bool) :=
  match a with
  | Numeric a => Ret (Numpy.logical_and (Numpy.ge a lo) (Numpy.le a hi))
  | PyList _ => Raise (TypeError (not_supported ">=" lo_type))
  end.

(** [_check_working_Pr_Tr_range(Pr, Tr, zmodel_str)] for any such operands.
    In a comparison the bound is looked up before the operands are compared,
    and the line of [Pr] comes before the line of [Tr].  The lower [Pr]
    bound of every range is the float 0.2, the lower [Tr] bound the int 1. *)
Definition check_working_Pr_Tr_range_of (Pr Tr : array_like) (zmodel_str : string)
  : prog bool :=
  match MODEL_RANGES !! zmodel_str with
  | None => Raise (KeyError zmodel_str)
  | Some rg =>
      Pr_in ← between_bounds Pr (fst (range_Pr rg)) (snd (range_Pr rg)) "float";
      let Pr_is_in_range := Numpy.all Pr_in in
      Tr_in ← between_bounds Tr (fst (range_Tr rg)) (snd (range_Tr rg)) "int";
      let Tr_is_in_range := Numpy.all Tr_in in
      Ret (Pr_is_in_range && Tr_is_in_range)
  end.

Definition zmodels_ks : string :=
  "[" +:+ quoted "DAK" +:+ ", " +:+ quoted "hall_yarborough" +:+ ", "
      +:+ quoted "londono" +:+ ", " +:+ quoted "kareem" +:+ "]".

Definition pmodels_ks : string :=
  "[" +:+ quoted "sutton" +:+ ", " +:+ quoted "piper" +:+ "]".

Definition _get_guess_constant : float := 0.900000765321234598723486.

(** The message of [_get_z_model]'s [KeyError]. *)
Definition zmodel_not_implemented (model : string) : string :=
  "Z-factor model " +:+ quoted model
    +:+ " is not implemented. Choose from the list of available models: "
    +:+ zmodels_ks.

(** [_get_z_model(model)]. *)
Definition _get_z_model (model : string) : prog zfunc :=
  match models !! model with
  | None => Raise (KeyError (zmodel_not_implemented model))
  | Some f => Ret f
  end.

(** [min(l, key=key)] started at [best]: a later item replaces the current
    one only when its key is strictly smaller. *)
Fixpoint py_min_from (key : float -> float) (best : float) (l : list float) : float :=
  match l with
  | [] => best
  | x :: l' =>
      if PyFloat.lt (key x) (key best) then py_min_from key x l'
      else py_min_from key best l'
  end.

(** [min(l, key=key)]; [None] is the [ValueError] on an empty list. *)
Definition py_min (key : float -> float) (l : list float) : option float :=
  match l with
  | [] => None
  | x :: l' => Some (py_min_from key x l')
  end.

(** [l.index(v)]; [None] is the [ValueError] of an absent value. *)
Fixpoint py_index (v : float) (l : list float) : option nat :=
  match l with
  | [] => None
  | x :: l' => if PyFloat.py_eq x v then Some O else S <$> py_index v l'
  end.

(** The list [t] of [_construct_guess_list_order]. *)
Definition ladder : list float :=
  [0.1; 0.2; 0.3; 0.4; 0.5; 0.6; 0.7; 0.8; 0.9; 1.0].

(** The lambda [lambda x: abs(x - guess)]. *)
Definition distance (guess x : float) : float := PrimFloat.abs (x - guess).

(** The [while len(t) > 0] loop of [_construct_guess_list_order].  Every
    iteration pops one element of [t], so [length t] iterations are enough;
    [None] stands for a [ValueError] of [min] or [index]. *)
Fixpoint reorder_loop (fuel : nat) (guess : float) (t reordered : list float)
  : option (list float) :=
  match t with
  | [] => Some reordered
  | _ :: _ =>
      match fuel with
      | O => None
      | S fuel' =>
          match_ ← py_min (distance guess) t;
          i ← py_index match_ t;
          reorder_loop fuel' guess (delete i t) (reordered ++ [match_])
      end
  end.

(** The list [reordered] when the loop of [_construct_guess_list_order] ends. *)
Definition reordered_of (guess : float) : option (list float) :=
  reorder_loop (length ladder) guess ladder [guess].

(** [_construct_guess_list_order(guess)]: [list(set(reordered))]. *)
Definition _construct_guess_list_order (guess : float) : option (list float) :=
  reordered ← reordered_of guess;
  Some (PySet.list_set reordered).

(** Lines 94-101 of the helper: the guess when none is given.  (The [int]
    [2] of the source compares, subtracts and hashes as the float 2.0.) *)
Definition default_guess (Pr : float) (guess : option float) : float :=
  match guess with
  | None => if PyFloat.lt Pr 15 then 0.9 else 2
  | Some g => g
  end.

(** Lines 102-103: [smart_guess] when none is given. *)
Definition default_smart_guess (smart_guess : option bool) : bool :=
  match smart_guess with
  | None => true
  | Some b => b
  end.

(** [_construct_guess_list_order] as the helper calls it. *)
Definition construct_guess_list_order (guess : float) : prog (list float) :=
  match _construct_guess_list_order guess with
  | None => Raise (ValueError "min() or list.index() failed")
  | Some l => Ret l
  end.

(** Lines 105-117: the list [guesses]. *)
Definition guesses (Pr Tr : float) (guess : float) (smart_guess : bool)
  : prog (list float) :=
  let smart_guess_model := "kareem" in
  if smart_guess then
    in_range ← _check_working_Pr_Tr_range (Numpy.Scalar Pr) (Numpy.Scalar Tr)
                                          smart_guess_model;
    if (in_range : bool) then
      guess_zmodel_func ← _get_z_model smart_guess_model;
      guess_ ← call (ZCorrelation guess_zmodel_func Pr Tr);
      rest ← construct_guess_list_order guess;
      Ret ([guess_] ++ [guess] ++ rest)
    else
      rest ← construct_guess_list_order guess;
      Ret ([guess] ++ rest)
  else
    construct_guess_list_order guess.

(** Lines 121-128: the call to [optimize.newton] for one candidate.  Without
    [newton_kwargs], or when they have no ['maxiter'], [maxiter=50] is passed. *)
Definition newton_call (zmodel_func : zfunc) (guess_ Pr Tr : float)
           (newton_kwargs : option (gmap string pyval)) : extcall float :=
  let maxiter := PyInt 50 in
  match newton_kwargs with
  | None => OptimizeNewton zmodel_func guess_ Pr Tr {[ "maxiter" := maxiter ]}
  | Some kw =>
      if bool_decide (is_Some (kw !! "maxiter"))
      then OptimizeNewton zmodel_func guess_ Pr Tr kw
      else OptimizeNewton zmodel_func guess_ Pr Tr
             (<["maxiter" := maxiter]> (delete "maxiter" kw))
  end.

(** Lines 119-136: the [for guess_ in guesses] loop with its [try]/[except]
    and the final [raise RuntimeError]. *)
Fixpoint try_guesses (zmodel_func : zfunc) (Pr Tr : float)
         (newton_kwargs : option (gmap string pyval)) (gs : list float) : prog float :=
  match gs with
  | [] => Raise (RuntimeError "Failed to converge")
  | guess_ :: gs' =>
      Call (newton_call zmodel_func guess_ Pr Tr newton_kwargs)
           (fun r => match r with
                     | inr Z => Ret Z
                     | inl _ => try_guesses zmodel_func Pr Tr newton_kwargs gs'
                     end)
  end.

(** [_calc_z_explicit_implicit_helper]. *)
Definition _calc_z_explicit_implicit_helper (Pr Tr : float) (zmodel_func : zfunc)
           (zmodel_str : string) (guess : option float)
           (newton_kwargs : option (gmap string pyval)) (smart_guess : option bool)
  : prog float :=
  if py_in zmodel_str ["kareem"] then
    call (ZCorrelation zmodel_func Pr Tr)
  else
    let guess := default_guess Pr guess in
    let smart_guess := default_smart_guess smart_guess in
    gs ← guesses Pr Tr guess smart_guess;
    try_guesses zmodel_func Pr Tr newton_kwargs gs.

(** The messages of [calc_z]'s [KeyError]s. *)
Definition unexpected_argument (zmodel arg : string) : string :=
  "calc_z(model=" +:+ quoted zmodel +:+ ") got an unexpected argument " +:+ quoted arg.

Definition sutton_no_N2 : string :=
  "pmodel=" +:+ quoted "sutton" +:+ " does not support N2 as input. Set N2=None".

Definition pmodel_not_implemented (pmodel : string) : string :=
  "Pseudo-critical model " +:+ quoted pmodel
    +:+ " is not implemented. Choose from the list of available models: "
    +:+ pmodels_ks.

(** What [calc_z] returns: the bare [Z] or the dictionary [ps_props]. *)
Inductive calc_result :=
| Z_value (Z : float)
| Z_props (d : gmap string pyval).

(** The keywords of [_initialize_Tr_and_Pr] that both classes receive. *)
Definition common_keywords (sg P T Tr Pr H2S CO2 : option float)
           (ignore_conflict : bool) : gmap string pyval :=
  <["sg" := py_optional sg]> (<["P" := py_optional P]> (<["T" := py_optional T]>
  (<["Tr" := py_optional Tr]> (<["Pr" := py_optional Pr]>
  (<["H2S" := py_optional H2S]> (<["CO2" := py_optional CO2]>
  (<["ignore_conflict" := PyBool ignore_conflict]> ∅))))))).

(** Lines 260-266: the parameters an explicit model does not take. *)
Definition check_explicit_arguments (zmodel : string) (guess : option float)
           (newton_kwargs : option (gmap string pyval)) (smart_guess : option bool)
  : prog unit :=
  if py_in zmodel ["kareem"] then
    if guess is Some _ then Raise (KeyError (unexpected_argument zmodel "guess"))
    else if newton_kwargs is Some _
         then Raise (KeyError (unexpected_argument zmodel "newton_kwargs"))
    else if smart_guess is Some _
         then Raise (KeyError (unexpected_argument zmodel "smart_guess"))
    else Ret tt
  else Ret tt.

(** Lines 280-291: the pseudo-critical model reduces the inputs to [Tr], [Pr]. *)
Definition reduce (sg P T H2S CO2 N2 Pr Tr : option float) (pmodel : string)
           (ignore_conflict : bool) (kwargs : gmap string pyval) : prog pc_state :=
  if String.eqb pmodel "piper" then
    call (InitializeTrPr Piper
            ((<["N2" := py_optional N2]>
                (common_keywords sg P T Tr Pr H2S CO2 ignore_conflict))
             ∪ kwargs))
  else if String.eqb pmodel "sutton" then
    if N2 is Some _ then Raise (KeyError sutton_no_N2)
    else call (InitializeTrPr Sutton
                 (common_keywords sg P T Tr Pr H2S CO2 ignore_conflict ∪ kwargs))
  else Raise (KeyError (pmodel_not_implemented pmodel)).

(** [calc_z]. *)
Definition calc_z (sg P T H2S CO2 N2 Pr Tr : option float) (pmodel zmodel : string)
           (guess : option float) (newton_kwargs : option (gmap string pyval))
           (smart_guess : option bool) (ps_props ignore_conflict : bool)
           (kwargs : gmap string pyval) : prog calc_result :=
  check_explicit_arguments zmodel guess newton_kwargs smart_guess;;
  z_model ← _get_z_model zmodel;
  match Pr, Tr with
  | Some Pr, Some Tr =>
      (* Pr and Tr are already provided *)
      Z ← _calc_z_explicit_implicit_helper Pr Tr z_model zmodel guess
                                           newton_kwargs smart_guess;
      if ps_props
      then Ret (Z_props (<["Tr" := PyFloat Tr]> (<["Pr" := PyFloat Pr]>
                          {[ "z" := PyFloat Z ]})))
      else Ret (Z_value Z)
  | _, _ =>
      (* Pr and Tr are NOT provided *)
      pc_instance ← reduce sg P T H2S CO2 N2 Pr Tr pmodel ignore_conflict kwargs;
      let Tr := pc_Tr pc_instance in
      let Pr := pc_Pr pc_instance in
      Z ← _calc_z_explicit_implicit_helper Pr Tr z_model zmodel guess
                                           newton_kwargs smart_guess;
      if ps_props
      then Ret (Z_props (<["Pr" := PyFloat Pr]> (<["Tr" := PyFloat Tr]>
                          (pc_ps_props pc_instance ∪ {[ "z" := PyFloat Z ]}))))
      else Ret (Z_value Z)
  end.

(* ===================================================================== *)
(** ** Notions used to state the properties *)
(* ===================================================================== *)

(** How many elements of [r] are equal to [v]. *)
Definition occurrences (v : float) (r : list float) : nat :=
  length (List.filter (fun y => PyFloat.py_eq y v) r).

(** [x] lies within the inclusive bounds [(lo, hi)]. *)
Definition within (bounds : float * float) (x : float) : Prop :=
  PyFloat.le (fst bounds) x = true /\ PyFloat.le x (snd bounds) = true.

(** Successive elements of [l] are at non-decreasing distance from [guess]. *)
Fixpoint by_proximity (guess : float) (l : list float) : bool :=
  match l with
  | x :: (y :: _) as l' =>
      PyFloat.le (distance guess x) (distance guess y) && by_proximity guess l'
  | _ => true
  end.

(** The property bags of the pseudo-critical models have no key ['z']. *)
Definition bags_without_z (h : handler) : Prop :=
  forall c kw st,
    h pc_state (InitializeTrPr c kw) = inr st -> pc_ps_props st !! "z" = None.

(** The reduced state a call of [calc_z] resolves: the given [Pr] and [Tr]
    when both are given, else what the pseudo-critical model returns. *)
Definition reduced_state (h : handler) (sg P T H2S CO2 N2 Pr Tr : option float)
           (pmodel : string) (ignore_conflict : bool) (kwargs : gmap string pyval)
  : option (float * float) :=
  match Pr, Tr with
  | Some Pr, Some Tr => Some (Pr, Tr)
  | _, _ =>
      match run h (reduce sg P T H2S CO2 N2 Pr Tr pmodel ignore_conflict kwargs) with
      | inr st => Some (pc_Pr st, pc_Tr st)
      | inl _ => None
      end
  end.

(** The event of one Newton attempt. *)
Definition newton_event (f : zfunc) (Pr Tr : float)
           (newton_kwargs : option (gmap string pyval)) (x0 : float) : event :=
  ev (newton_call f x0 Pr Tr newton_kwargs).

(** The attempt from [x0] raises under [h]. *)
Definition attempt_fails (h : handler) (f : zfunc) (Pr Tr : float)
           (newton_kwargs : option (gmap string pyval)) (x0 : float) : Prop :=
  exists e, h float (newton_call f x0 Pr Tr newton_kwargs) = inl e.

(** [s] occurs inside [msg]. *)
Definition mentions (msg s : string) : Prop :=
  exists pre post, msg = pre +:+ s +:+ post.

(** Collaborators used in the examples: [kareem] answers 0.86, Newton
    converges (to its starting point) only from a start below 0.85, and the
    pseudo-critical model reduces every input to [Tr = 1.5], [Pr = 1.4]. *)
Definition sample_handler : handler :=
  fun R c =>
    match c in extcall R return outcome R with
    | ZCorrelation f Pr Tr => inr 0.86
    | OptimizeNewton f x0 Pr Tr kw =>
        if PyFloat.lt x0 0.85 then inr x0 else inl "RuntimeError"
    | InitializeTrPr c kw =>
        inr {| pc_Tr := 1.5; pc_Pr := 1.4;
               pc_ps_props := {[ "Tpc" := PyFloat 371.4 ]} |}
    end.

(* ===================================================================== *)
(** ** Further notions: numbers, attempts, collaborators by their answers *)
(* ===================================================================== *)

(** [x] is a number: not a NaN. *)
Definition is_number (x : float) : Prop := Prim2SF x <> S754_nan.

(** The event is one Newton attempt. *)
Definition is_attempt (e : event) : bool :=
  match e with
  | CalledNewton _ _ _ _ _ => true
  | _ => false
  end.

(** The event is the evaluation of a correlation. *)
Definition is_evaluation (e : event) : bool :=
  match e with
  | CalledZCorrelation _ _ _ => true
  | _ => false
  end.

(** Collaborators given by their answers: that of every correlation
    function, that of a Newton attempt as a function of its start, and that
    of the pseudo-critical models. *)
Definition answering (z : outcome float) (newton : float -> outcome float)
           (pc : outcome pc_state) : handler :=
  fun R c =>
    match c in extcall R return outcome R with
    | ZCorrelation _ _ _ => z
    | OptimizeNewton _ x0 _ _ _ => newton x0
    | InitializeTrPr _ _ => pc
    end.

(* ===================================================================== *)
(** ** Notions used to prove that the table walk lists the set *)
(* ===================================================================== *)

Module SetTable.
Import PyFloat PySet.
Local Open Scope Z_scope.

(** Two specification floats that compare equal. *)
Definition sf_same (x y : spec_float) : Prop :=
  match x, y with
  | S754_zero _, S754_zero _ => True
  | S754_infinity s1, S754_infinity s2 => s1 = s2
  | S754_finite s1 m1 e1, S754_finite s2 m2 e2 => s1 = s2 /\ m1 = m2 /\ e1 = e2
  | _, _ => False
  end.

(** The recurrence [i = (5 i + 1) mod 2^k] of the probe sequence. *)
Definition lcg (k : Z) (i : Z) : Z := (5 * i + 1) mod 2 ^ k.

(** The slots a probe sequence inspects, in order: it depends on the hash
    and on the mask only, not on the table. *)
Fixpoint visited (fuel : nat) (msk i perturb : Z) : list nat :=
  match fuel with
  | O => []
  | S fuel' =>
      let probes := if i + LINEAR_PROBES <=? msk then LINEAR_PROBES else 0 in
      let perturb' := Z.shiftr perturb PERTURB_SHIFT in
      seq (Z.to_nat i) (S (Z.to_nat probes))
          ++ visited fuel' msk (Z.land (i * 5 + 1 + perturb') msk) perturb'
  end.

(** The slot index and the perturbation after [n] jumps. *)
Fixpoint probe_state (n : nat) (msk i perturb : Z) : Z * Z :=
  match n with
  | O => (i, perturb)
  | S n' =>
      let perturb' := Z.shiftr perturb PERTURB_SHIFT in
      probe_state n' msk (Z.land (i * 5 + 1 + perturb') msk) perturb'
  end.

(** The first slot of [l] that is unused or whose entry [matches]. *)
Fixpoint first_hit (t : list (option setentry)) (matches : setentry -> bool)
         (l : list nat) : option slot :=
  match l with
  | [] => None
  | i :: l' =>
      match t !! i with
      | Some None => Some (Unused i)
      | Some (Some e) => if matches e then Some (Active i) else first_hit t matches l'
      | None => first_hit t matches l'
      end
  end.

(** The slots inspected for the hash [h] in a table of mask [msk]. *)
Definition slots (msk h : Z) : list nat :=
  visited (probe_fuel msk) msk (Z.land (as_size_t h) msk) (as_size_t h).

(** The keys of a table, in slot order. *)
Definition keys (t : list (option setentry)) : list float := key <$> omap id t.

(** A well-formed table: a power of two of slots, every entry carries the
    hash of its key and is found by the probe sequence of that key. *)
Record table_ok (t : list (option setentry)) (msk : Z) : Prop := {
  ok_mask : exists k : nat, msk = 2 ^ Z.of_nat k - 1;
  ok_length : length t = Z.to_nat (msk + 1);
  ok_hash : forall i e, t !! i = Some (Some e) -> hash e = hash_double (key e);
  ok_reach : forall i e,
      t !! i = Some (Some e) ->
      first_hit t (same_key (key e) (hash e)) (slots msk (hash e)) = Some (Active i)
}.

(** A well-formed set object. *)
Record set_ok (so : setobject) : Prop := {
  so_table : table_ok (table so) (mask so);
  so_distinct : distinct (keys (table so)) = true;
  so_fill : fill so = Z.of_nat (length (omap id (table so)));
  so_room : fill so * 5 < mask so * 3
}.

End SetTable.

(* ===================================================================== *)
(** ** Float equality *)
(* ===================================================================== *)

Section float_equality.
Import SetTable.

Lemma SFeqb_same x y : SFeqb x y = true <-> sf_same x y.
Proof.
  unfold SFeqb, sf_same, SFcompare.
  destruct x as [[]|[]| |[] m1 e1], y as [[]|[]| |[] m2 e2];
    try (split; [discriminate || tauto | tauto || discriminate || congruence]);
    try (split; [discriminate | intros (? & _); discriminate]).
  - change (Pos.compare_cont Eq m1 m2) with (Pos.compare m1 m2).
    destruct (Z.compare_spec e1 e2) as [->|?|?];
      try (split; [discriminate | intros (_ & _ & ?); lia]).
    destruct (Pos.compare_spec m1 m2) as [->|?|?]; simpl;
      try (split; [discriminate | intros (_ & ? & _); lia]).
    tauto.
  - change (Pos.compare_cont Eq m1 m2) with (Pos.compare m1 m2).
    destruct (Z.compare_spec e1 e2) as [->|?|?];
      try (split; [discriminate | intros (_ & _ & ?); lia]).
    destruct (Pos.compare_spec m1 m2) as [->|?|?]; simpl;
      try (split; [discriminate | intros (_ & ? & _); lia]).
    tauto.
Qed.

Lemma sf_same_sym x y : sf_same x y -> sf_same y x.
Proof. destruct x, y; simpl; intuition congruence. Qed.

Lemma sf_same_trans x y z : sf_same x y -> sf_same y z -> sf_same x z.
Proof. destruct x, y, z; simpl; intuition congruence. Qed.

Lemma py_is_true x y : PyFloat.py_is x y = true <-> x = y.
Proof. apply FloatAxioms.Leibniz.eqb_spec. Qed.

Lemma py_eq_true x y :
  PyFloat.py_eq x y = true <-> x = y \/ sf_same (Prim2SF x) (Prim2SF y).
Proof.
  unfold PyFloat.py_eq. rewrite orb_true_iff, py_is_true, FloatAxioms.eqb_spec.
  by rewrite SFeqb_same.
Qed.

Lemma py_eq_refl x : PyFloat.py_eq x x = true.
Proof. apply py_eq_true. by left. Qed.

Lemma py_eq_sym x y : PyFloat.py_eq x y = true -> PyFloat.py_eq y x = true.
Proof.
  rewrite !py_eq_true. intros [->|H]; [by left | right; by apply sf_same_sym].
Qed.

Lemma py_eq_trans x y z :
  PyFloat.py_eq x y = true -> PyFloat.py_eq y z = true -> PyFloat.py_eq x z = true.
Proof.
  rewrite !py_eq_true. intros [->|H1] [->|H2]; auto.
  right. by eapply sf_same_trans.
Qed.

Lemma py_eq_false_sym x y : PyFloat.py_eq x y = false -> PyFloat.py_eq y x = false.
Proof.
  intros H. destruct (PyFloat.py_eq y x) eqn:E; [|done].
  apply py_eq_sym in E. congruence.
Qed.

End float_equality.

(* ===================================================================== *)
(** ** The hash table of a set *)
(* ===================================================================== *)

Section recurrence.
Import PyFloat PySet SetTable.
Local Open Scope Z_scope.

Lemma odd_factor (j : nat) : forall a m : Z,
  Z.odd m = true -> (2 ^ Z.of_nat j | a * m) -> (2 ^ Z.of_nat j | a).
Proof.
  induction j as [|j IH]; intros a m Hm Hd.
  - apply Z.divide_1_l.
  - rewrite Nat2Z.inj_succ, Z.pow_succ_r in * by lia.
    assert (Ha : Z.even a = true).
    { destruct Hd as [q Hq].
      assert (Z.even (a * m) = true) by (rewrite Hq, Z.even_mul, (Z.even_mul 2); simpl; by rewrite orb_true_r).
      rewrite Z.even_mul in H. destruct (Z.even a); [done|].
      simpl in H. rewrite <- Z.negb_odd, Hm in H. done. }
    apply Z.even_spec in Ha as [a' ->].
    apply Z.mul_divide_mono_l. apply (IH a' m Hm).
    apply (Z.mul_divide_cancel_l _ _ 2); [lia|].
    by rewrite Z.mul_assoc.
Qed.

Lemma pow5_mod4 (d : nat) : 5 ^ Z.of_nat d mod 4 = 1.
Proof.
  induction d as [|d IH]; [done|].
  rewrite Nat2Z.inj_succ, Z.pow_succ_r by lia.
  rewrite <- Z.mul_mod_idemp_r, IH by lia. done.
Qed.

Lemma pow5_odd_mod8 (d : nat) : 5 ^ Z.of_nat (2 * d + 1) mod 8 = 5.
Proof.
  induction d as [|d IH]; [done|].
  replace (Z.of_nat (2 * S d + 1)) with (Z.succ (Z.succ (Z.of_nat (2 * d + 1)))) by lia.
  rewrite !Z.pow_succ_r by lia.
  rewrite Z.mul_assoc, <- Z.mul_mod_idemp_r, IH by lia. done.
Qed.

(** The order of 5 modulo [2^(k+2)] is [2^k]. *)
Lemma pow5_order (k : nat) : forall d : nat,
  (2 ^ (Z.of_nat k + 2) | 5 ^ Z.of_nat d - 1) -> (2 ^ Z.of_nat k | Z.of_nat d).
Proof.
  induction k as [|k IH]; intros d Hd; [apply Z.divide_1_l|].
  destruct (Nat.Even_or_Odd d) as [[d' ->]|[d' ->]].
  - replace (Z.of_nat (2 * d')) with (2 * Z.of_nat d') in * by lia.
    rewrite Nat2Z.inj_succ, Z.pow_succ_r by lia.
    apply Z.mul_divide_mono_l, IH.
    rewrite (Z.mul_comm 2), Z.pow_mul_r, Z.pow_2_r in Hd by lia.
    pose proof (pow5_mod4 d') as H4.
    set (x := 5 ^ Z.of_nat d') in *.
    assert (Hx : exists m, x + 1 = 2 * m /\ Z.odd m = true).
    { exists ((x + 1) / 2).
      rewrite (Z.div_mod x 4) by lia. rewrite H4.
      replace (4 * (x / 4) + 1 + 1) with ((2 * (x / 4) + 1) * 2) by lia.
      rewrite Z.div_mul by lia. split; [lia|].
      by rewrite Z.add_comm, Z.odd_add_mul_2. }
    destruct Hx as (m & Hm & Hodd).
    replace (Z.of_nat k + 2) with (Z.of_nat (k + 2)) by lia.
    apply (odd_factor _ _ m Hodd).
    replace (Z.of_nat (S k) + 2) with (Z.succ (Z.of_nat (k + 2))) in Hd by lia.
    rewrite Z.pow_succ_r in Hd by lia.
    apply (Z.mul_divide_cancel_l _ _ 2); [lia|].
    replace (2 * ((x - 1) * m)) with (x * x - 1) by nia. done.
  - exfalso. pose proof (pow5_odd_mod8 d') as H8.
    assert (H : (8 | 5 ^ Z.of_nat (2 * d' + 1) - 1)).
    { eapply Z.divide_trans; [|exact Hd].
      exists (2 ^ Z.of_nat k).
      replace (Z.of_nat (S k) + 2) with (Z.of_nat k + 3) by lia.
      rewrite Z.pow_add_r by lia. lia. }
    apply Z.mod_divide in H; [|lia].
    rewrite <- Zminus_mod_idemp_l, H8 in H. done.
Qed.

Lemma iter_lcg (k : nat) (d : nat) (j : Z) :
  (4 * Nat.iter d (lcg (Z.of_nat k)) j + 1) mod 2 ^ (Z.of_nat k + 2)
  = (5 ^ Z.of_nat d * (4 * j + 1)) mod 2 ^ (Z.of_nat k + 2).
Proof.
  induction d as [|d IH]; [by rewrite Z.mul_1_l|].
  rewrite Nat2Z.inj_succ, Z.pow_succ_r by lia. rewrite Nat.iter_succ.
  set (x := Nat.iter d (lcg (Z.of_nat k)) j) in *. unfold lcg.
  assert (HM : 2 ^ (Z.of_nat k + 2) = 4 * 2 ^ Z.of_nat k).
  { rewrite Z.pow_add_r by lia. change (2 ^ 2) with 4. lia. }
  assert (Hpos : 0 < 2 ^ Z.of_nat k) by (apply Z.pow_pos_nonneg; lia).
  transitivity ((5 * (4 * x + 1)) mod 2 ^ (Z.of_nat k + 2)).
  - assert (H4 : 4 * ((5 * x + 1) mod 2 ^ Z.of_nat k)
                 = (4 * (5 * x + 1)) mod 2 ^ (Z.of_nat k + 2)).
    { rewrite HM, Z.mul_mod_distr_l by lia. done. }
    rewrite H4, Z.add_mod_idemp_l by lia. f_equal. lia.
  - rewrite <- Z.mul_mod_idemp_r, IH, Z.mul_mod_idemp_r by lia. f_equal. lia.
Qed.

Lemma lcg_range k i : 0 <= k -> 0 <= lcg k i < 2 ^ k.
Proof. intros. unfold lcg. apply Z.mod_pos_bound. lia. Qed.

(** The recurrence does not come back to its start in less than [2^k] steps. *)
Lemma lcg_no_short_cycle (k d : nat) (j : Z) :
  (0 < d)%nat -> Z.of_nat d < 2 ^ Z.of_nat k ->
  0 <= j < 2 ^ Z.of_nat k ->
  Nat.iter d (lcg (Z.of_nat k)) j <> j.
Proof.
  intros Hd Hlt Hj E. pose proof (iter_lcg k d j) as H. rewrite E in H.
  assert (Hdiv : (2 ^ (Z.of_nat k + 2) | (5 ^ Z.of_nat d - 1) * (4 * j + 1))).
  { apply Z.mod_divide; [lia|].
    replace ((5 ^ Z.of_nat d - 1) * (4 * j + 1))
      with (5 ^ Z.of_nat d * (4 * j + 1) - (4 * j + 1)) by lia.
    rewrite Zminus_mod, <- H, Z.sub_diag. done. }
  replace (Z.of_nat k + 2) with (Z.of_nat (k + 2)) in Hdiv by lia.
  apply odd_factor in Hdiv;
    [|replace (4 * j + 1) with (1 + 2 * (2 * j)) by lia; by rewrite Z.odd_add_mul_2].
  replace (Z.of_nat (k + 2)) with (Z.of_nat k + 2) in Hdiv by lia.
  apply pow5_order in Hdiv. apply Z.divide_pos_le in Hdiv; lia.
Qed.

End recurrence.

Section probe_sequence.
Import PyFloat PySet SetTable.
Local Open Scope Z_scope.

Lemma lcg_orbit_covers (k : nat) (i s : Z) :
  0 <= i < 2 ^ Z.of_nat k -> 0 <= s < 2 ^ Z.of_nat k ->
  exists n : nat, Z.of_nat n < 2 ^ Z.of_nat k /\ Nat.iter n (lcg (Z.of_nat k)) i = s.
Proof.
  intros Hi Hs. set (f := lcg (Z.of_nat k)). set (N := Z.to_nat (2 ^ Z.of_nat k)).
  assert (HN : Z.of_nat N = 2 ^ Z.of_nat k) by (unfold N; lia).
  assert (Hrange : forall n, 0 <= Nat.iter n f i < 2 ^ Z.of_nat k).
  { intros [|n]; [done|]. rewrite Nat.iter_succ. apply lcg_range. lia. }
  assert (Hinj : forall n m, (n < m < N)%nat -> Nat.iter n f i <> Nat.iter m f i).
  { intros n m Hnm E. replace m with ((m - n) + n)%nat in E by lia.
    rewrite Nat.iter_add in E. symmetry in E. revert E.
    apply lcg_no_short_cycle; [lia | lia | apply Hrange]. }
  set (l := (fun n => Z.to_nat (Nat.iter n f i)) <$> seq 0 N).
  assert (Hnd : NoDup l).
  { apply NoDup_fmap_2_strong; [|apply NoDup_seq].
    intros n m Hn Hm E. apply elem_of_seq in Hn, Hm.
    pose proof (Hrange n). pose proof (Hrange m).
    apply Z2Nat.inj in E; [|lia|lia].
    destruct (Nat.lt_trichotomy n m) as [?|[?|?]]; [|done|].
    - exfalso. apply (Hinj n m); [lia|done].
    - exfalso. apply (Hinj m n); [lia|done]. }
  assert (Hincl : incl l (seq 0 N)).
  { intros x Hx. apply list_elem_of_In in Hx. apply list_elem_of_fmap in Hx as (n & -> & _).
    apply in_seq. pose proof (Hrange n). lia. }
  assert (Hback : incl (seq 0 N) l).
  { apply NoDup_ListNoDup in Hnd. apply (NoDup_length_incl Hnd); [|exact Hincl].
    unfold l. rewrite length_fmap. lia. }
  assert (Hs' : In (Z.to_nat s) (seq 0 N)) by (apply in_seq; lia).
  apply Hback, list_elem_of_In, list_elem_of_fmap in Hs' as (n & E & Hn).
  apply elem_of_seq in Hn. exists n. split; [lia|].
  pose proof (Hrange n). apply Z2Nat.inj in E; [done|lia|lia].
Qed.

Lemma land_mask (k : nat) x : Z.land x (2 ^ Z.of_nat k - 1) = x mod 2 ^ Z.of_nat k.
Proof. rewrite <- Z.land_ones by lia. f_equal. rewrite Z.ones_equiv. lia. Qed.

Lemma land_mask_range (k : nat) x : 0 <= Z.land x (2 ^ Z.of_nat k - 1) <= 2 ^ Z.of_nat k - 1.
Proof.
  rewrite land_mask. pose proof (Z.mod_pos_bound x (2 ^ Z.of_nat k)). lia.
Qed.

Lemma visited_app a b msk i p :
  visited (a + b) msk i p
  = visited a msk i p
      ++ visited b msk (fst (probe_state a msk i p)) (snd (probe_state a msk i p)).
Proof.
  revert i p. induction a as [|a IH]; intros i p; [done|].
  cbn [visited Nat.add probe_state]. by rewrite IH, <- app_assoc.
Qed.

Lemma probe_state_perturb a msk i p :
  snd (probe_state a msk i p) = Z.shiftr p (PERTURB_SHIFT * Z.of_nat a).
Proof.
  revert i p. induction a as [|a IH]; intros i p.
  - by rewrite Z.mul_0_r, Z.shiftr_0_r.
  - cbn [probe_state]. rewrite IH, Z.shiftr_shiftr by (unfold PERTURB_SHIFT; lia).
    f_equal. lia.
Qed.

Lemma probe_state_range a (k : nat) i p :
  0 <= i <= 2 ^ Z.of_nat k - 1 ->
  0 <= fst (probe_state a (2 ^ Z.of_nat k - 1) i p) <= 2 ^ Z.of_nat k - 1.
Proof.
  revert i p. induction a as [|a IH]; intros i p Hi; [done|].
  cbn [probe_state]. apply IH, land_mask_range.
Qed.

(** Once the perturbation has vanished the jumps follow the recurrence. *)
Lemma visited_orbit (k : nat) (n m : nat) i :
  (m < n)%nat -> 0 <= i ->
  In (Z.to_nat (Nat.iter m (lcg (Z.of_nat k)) i))
     (visited n (2 ^ Z.of_nat k - 1) i 0).
Proof.
  revert m i. induction n as [|n IH]; intros m i Hm Hi; [lia|].
  cbn [visited]. apply in_or_app. destruct m as [|m].
  - left. apply in_seq. simpl. lia.
  - right. rewrite Nat.iter_succ_r. rewrite Z.shiftr_0_l, Z.add_0_r, land_mask.
    replace (i * 5 + 1) with (5 * i + 1) by lia.
    apply IH; [lia|]. apply Z.mod_pos_bound. lia.
Qed.

(** Every slot of the table is inspected. *)
Lemma visited_covers (k : nat) (h : Z) (s : nat) :
  0 <= h < 2 ^ 64 -> Z.of_nat s < 2 ^ Z.of_nat k ->
  In s (visited (probe_fuel (2 ^ Z.of_nat k - 1)) (2 ^ Z.of_nat k - 1)
                (Z.land h (2 ^ Z.of_nat k - 1)) h).
Proof.
  intros Hh Hs. set (msk := 2 ^ Z.of_nat k - 1).
  assert (Hpos : 0 < 2 ^ Z.of_nat k) by (apply Z.pow_pos_nonneg; lia).
  replace (probe_fuel msk) with (13 + Z.to_nat (msk + 52))%nat
    by (unfold probe_fuel; lia).
  rewrite visited_app. apply in_or_app. right.
  rewrite probe_state_perturb.
  replace (Z.shiftr h (PERTURB_SHIFT * Z.of_nat 13)) with 0.
  2: { symmetry. rewrite Z.shiftr_div_pow2 by (unfold PERTURB_SHIFT; lia).
       apply Z.div_small. unfold PERTURB_SHIFT. simpl. lia. }
  pose proof (probe_state_range 13 k (Z.land h msk) h (land_mask_range k h)) as Hi.
  fold msk in Hi. set (i := fst (probe_state 13 msk (Z.land h msk) h)) in *.
  destruct (lcg_orbit_covers k i (Z.of_nat s)) as (n & Hn & E); [lia|lia|].
  rewrite <- (Nat2Z.id s), <- E. apply visited_orbit; lia.
Qed.

End probe_sequence.

Section first_hit.
Import PyFloat PySet SetTable.
Local Open Scope Z_scope.
Context (t : list (option setentry)).

Lemma first_hit_app m l1 l2 :
  first_hit t m (l1 ++ l2) =
  match first_hit t m l1 with
  | Some s => Some s
  | None => first_hit t m l2
  end.
Proof.
  induction l1 as [|i l1 IH]; [done|]. simpl.
  destruct (t !! i) as [[e|]|]; [|done|done]. by destruct (m e).
Qed.

Lemma linear_probe_first_hit m i n :
  (i + n <= length t)%nat -> linear_probe t m i n = first_hit t m (seq i n).
Proof.
  revert i. induction n as [|n IH]; intros i Hi; [done|]. simpl.
  destruct (t !! i) as [[e|]|] eqn:E; [|done|].
  - destruct (m e); [done|]. apply IH. lia.
  - apply lookup_ge_None in E. lia.
Qed.

Lemma probe_first_hit (k : nat) m fuel i p :
  length t = Z.to_nat (2 ^ Z.of_nat k) ->
  0 <= i <= 2 ^ Z.of_nat k - 1 ->
  probe fuel t (2 ^ Z.of_nat k - 1) m i p
  = first_hit t m (visited fuel (2 ^ Z.of_nat k - 1) i p).
Proof.
  intros Hlen. revert i p. induction fuel as [|fuel IH]; intros i p Hi; [done|].
  cbn [probe visited]. rewrite first_hit_app, linear_probe_first_hit.
  - destruct (first_hit t m (seq _ _)); [done|]. apply IH, land_mask_range.
  - rewrite Hlen. unfold LINEAR_PROBES.
    destruct (Z.leb_spec (i + 9) (2 ^ Z.of_nat k - 1)); lia.
Qed.

Lemma find_slot_first_hit (k : nat) m h :
  length t = Z.to_nat (2 ^ Z.of_nat k) ->
  find_slot t (2 ^ Z.of_nat k - 1) m h = first_hit t m (slots (2 ^ Z.of_nat k - 1) h).
Proof. intros Hlen. apply probe_first_hit; [done | apply land_mask_range]. Qed.

Lemma first_hit_unused m l u :
  first_hit t m l = Some (Unused u) -> t !! u = Some None.
Proof.
  induction l as [|i l IH]; [done|]. simpl.
  destruct (t !! i) as [[e|]|] eqn:E; [|by intros [= <-]|done].
  by destruct (m e).
Qed.

Lemma first_hit_active m l s :
  first_hit t m l = Some (Active s) ->
  exists e, t !! s = Some (Some e) /\ m e = true.
Proof.
  induction l as [|i l IH]; [done|]. simpl.
  destruct (t !! i) as [[e|]|] eqn:E; [|done|done].
  destruct (m e) eqn:Em; [|done]. intros [= <-]. eauto.
Qed.

Lemma first_hit_found m l u :
  In u l -> t !! u = Some None -> is_Some (first_hit t m l).
Proof.
  induction l as [|i l IH]; [done|]. intros [->|Hu] Hnone; simpl.
  - by rewrite Hnone.
  - destruct (t !! i) as [[e|]|]; [|done|by apply IH].
    destruct (m e); [done | by apply IH].
Qed.

Lemma first_hit_ext m m' l :
  (forall i e, t !! i = Some (Some e) -> m e = m' e) ->
  first_hit t m l = first_hit t m' l.
Proof.
  intros H. induction l as [|i l IH]; [done|]. simpl.
  destruct (t !! i) as [[e|]|] eqn:E; [|done|done].
  by rewrite (H i e E), IH.
Qed.

(** Filling an unused slot does not change where a present key is found. *)
Lemma first_hit_insert_active m l u e s :
  t !! u = Some None ->
  first_hit t m l = Some (Active s) ->
  first_hit (<[u := Some e]> t) m l = Some (Active s).
Proof.
  intros Hu. induction l as [|i l IH]; [done|]. simpl.
  destruct (t !! i) as [[e'|]|] eqn:E; [|done|].
  - assert (i <> u) by (intros ->; congruence).
    rewrite list_lookup_insert_ne, E by done.
    by destruct (m e').
  - intros H. assert (i <> u) by (intros ->; congruence).
    rewrite list_lookup_insert_ne, E by done. by apply IH.
Qed.

(** A key put in the unused slot its probe sequence ends at is found there. *)
Lemma first_hit_insert_new m l u e :
  first_hit t m l = Some (Unused u) ->
  m e = true ->
  first_hit (<[u := Some e]> t) m l = Some (Active u).
Proof.
  intros H Hm. pose proof (first_hit_unused _ _ _ H) as Hu.
  induction l as [|i l IH]; [done|]. simpl in *.
  destruct (t !! i) as [[e'|]|] eqn:E.
  - assert (i <> u) by (intros ->; congruence).
    rewrite list_lookup_insert_ne, E by done.
    destruct (m e'); [done | by apply IH].
  - injection H as ->.
    rewrite list_lookup_insert_eq by (by eapply lookup_lt_Some). by rewrite Hm.
  - assert (i <> u) by (intros ->; congruence).
    rewrite list_lookup_insert_ne, E by done. by apply IH.
Qed.

End first_hit.

Section tables.
Import PyFloat PySet SetTable.
Local Open Scope Z_scope.

Lemma hash_double_py_eq x y : py_eq x y = true -> hash_double x = hash_double y.
Proof.
  intros H. apply py_eq_true in H as [->|H]; [done|].
  unfold hash_double. destruct (Prim2SF x), (Prim2SF y); simpl in H; try done.
  - by subst.
  - by destruct H as (-> & -> & ->).
Qed.

Lemma as_size_t_range h : 0 <= as_size_t h < 2 ^ 64.
Proof. unfold as_size_t. apply Z.mod_pos_bound. lia. Qed.

Lemma distinct_cons x r :
  distinct (x :: r) = true <->
  (forall y, In y r -> py_eq x y = false /\ py_eq y x = false) /\ distinct r = true.
Proof.
  simpl. rewrite andb_true_iff, forallb_forall.
  split; intros [H1 H2]; split; auto; intros y Hy.
  - specialize (H1 y Hy). apply andb_true_iff in H1 as [Ha Hb].
    by rewrite negb_true_iff in Ha, Hb.
  - destruct (H1 y Hy) as [-> ->]. done.
Qed.

Lemma distinct_Permutation r r' : r ≡ₚ r' -> distinct r = true -> distinct r' = true.
Proof.
  induction 1 as [|x r r' Hp IH|x y r|r1 r2 r3 _ IH1 _ IH2]; [done| | |by auto].
  - rewrite !distinct_cons. intros [Hx Hd]. split; [|by apply IH].
    intros z Hz. apply Hx. apply list_elem_of_In. rewrite Hp. by apply list_elem_of_In.
  - rewrite !distinct_cons. intros (Hy & Hx & Hd).
    split; [|split; [|done]].
    + intros z [<-|Hz]; [|by apply Hx].
      destruct (Hy x) as [? ?]; [by left | done].
    + intros z Hz. apply Hy. by right.
Qed.

(** Two keys that are equal select the same entries. *)
Lemma same_key_py_eq k k' h e :
  py_eq k k' = true -> same_key k h e = same_key k' h e.
Proof.
  intros H. unfold same_key. f_equal.
  destruct (py_eq (key e) k) eqn:E1, (py_eq (key e) k') eqn:E2; try done.
  - rewrite (py_eq_trans _ _ _ E1 H) in E2. done.
  - rewrite (py_eq_trans _ _ _ E2 (py_eq_sym _ _ H)) in E1. done.
Qed.

(** When the probe sequence of a key ends at an unused slot, no entry of
    the table holds an equal key. *)
Lemma unused_no_equal t msk k u :
  table_ok t msk ->
  first_hit t (same_key k (hash_double k)) (slots msk (hash_double k)) = Some (Unused u) ->
  forall i e, t !! i = Some (Some e) -> py_eq (key e) k = false.
Proof.
  intros Hok Hu i e Hi. destruct (py_eq (key e) k) eqn:E; [|done].
  pose proof (ok_reach _ _ Hok i e Hi) as Hr.
  rewrite (ok_hash _ _ Hok i e Hi) in Hr.
  rewrite (hash_double_py_eq _ _ E) in Hr.
  rewrite (first_hit_ext t _ (same_key k (hash_double k))) in Hr; [congruence|].
  intros j e' _. by apply same_key_py_eq.
Qed.

Lemma keys_insert t u e :
  t !! u = Some None -> keys (<[u := Some e]> t) ≡ₚ key e :: keys t.
Proof.
  intros Hu. unfold keys.
  rewrite <- (take_drop_middle t u None Hu) at 2.
  rewrite insert_take_drop by (by eapply lookup_lt_Some).
  rewrite !omap_app, !fmap_app. simpl.
  by rewrite <- Permutation_middle.
Qed.

Lemma keys_elem t y :
  In y (keys t) <-> exists i e, t !! i = Some (Some e) /\ key e = y.
Proof.
  unfold keys. rewrite <- list_elem_of_In, list_elem_of_fmap. split.
  - intros (e & -> & He). apply list_elem_of_omap in He as (o & Ho & E).
    destruct o as [e'|]; [|done]. simpl in E. injection E as ->.
    apply list_elem_of_lookup in Ho as [i Hi]. eauto.
  - intros (i & e & Hi & <-). exists e. split; [done|].
    apply list_elem_of_omap. exists (Some e). split; [|done].
    by eapply list_elem_of_lookup_2.
Qed.

(** The unused slots of a table that is not full. *)
Lemma unused_exists (t : list (option setentry)) :
  (length (omap id t) < length t)%nat -> exists u, t !! u = Some None.
Proof.
  induction t as [|[e|] t IH]; [simpl; lia| |by exists O].
  change (omap id (Some e :: t)) with (e :: omap id t). simpl length.
  intros H. destruct IH as [u Hu]; [lia|]. by exists (S u).
Qed.

Lemma length_keys_insert (t : list (option setentry)) u e :
  t !! u = Some None ->
  length (omap id (<[u := Some e]> t)) = S (length (omap id t)).
Proof.
  intros Hu. pose proof (keys_insert t u e Hu) as H.
  apply Permutation_length in H. unfold keys in H. simpl in H.
  by rewrite !length_fmap in H.
Qed.

(** Putting a new key in the unused slot its probe sequence ends at keeps
    the table well formed. *)
Lemma table_ok_insert t msk e u m :
  table_ok t msk ->
  hash e = hash_double (key e) ->
  first_hit t m (slots msk (hash e)) = Some (Unused u) ->
  (forall i e', t !! i = Some (Some e') -> m e' = false) ->
  (forall i e', t !! i = Some (Some e') -> py_eq (key e') (key e) = false) ->
  table_ok (<[u := Some e]> t) msk.
Proof.
  intros Hok Hh Hu Hm Hne. pose proof (first_hit_unused _ _ _ _ Hu) as Hnone.
  assert (Hlt : (u < length t)%nat) by (by eapply lookup_lt_Some).
  constructor.
  - apply Hok.
  - rewrite length_insert. apply Hok.
  - intros i e' Hi. destruct (decide (i = u)) as [->|Hiu].
    + rewrite list_lookup_insert_eq in Hi by done. by injection Hi as <-.
    + rewrite list_lookup_insert_ne in Hi by done. by eapply ok_hash.
  - intros i e' Hi. destruct (decide (i = u)) as [->|Hiu].
    + rewrite list_lookup_insert_eq in Hi by done. injection Hi as <-.
      apply first_hit_insert_new.
      * rewrite <- Hu. apply first_hit_ext. intros j e' Hj.
        rewrite (Hm j e' Hj). unfold same_key.
        by rewrite (Hne j e' Hj), andb_false_r.
      * unfold same_key. by rewrite Z.eqb_refl, py_eq_refl.
    + rewrite list_lookup_insert_ne in Hi by done.
      apply first_hit_insert_active; [done|]. by eapply ok_reach.
Qed.

(** In a well-formed table that is not full every probe sequence ends. *)
Lemma first_hit_ends t msk m h :
  table_ok t msk -> (length (omap id t) < length t)%nat ->
  is_Some (first_hit t m (slots msk h)).
Proof.
  intros Hok Hfree. destruct (unused_exists t Hfree) as [u Hu].
  destruct (ok_mask _ _ Hok) as [k ->].
  apply (first_hit_found _ _ _ u); [|done].
  apply visited_covers; [apply as_size_t_range|].
  apply lookup_lt_Some in Hu. rewrite (ok_length _ _ Hok) in Hu.
  assert (0 < 2 ^ Z.of_nat k) by (apply Z.pow_pos_nonneg; lia). lia.
Qed.

Lemma find_slot_slots t msk m h :
  table_ok t msk -> find_slot t msk m h = first_hit t m (slots msk h).
Proof.
  intros Hok. destruct (ok_mask _ _ Hok) as [k Hk]. subst msk.
  apply find_slot_first_hit. rewrite (ok_length _ _ Hok). f_equal. lia.
Qed.

Lemma table_ok_empty (k : nat) : table_ok (empty_table (2 ^ Z.of_nat k)) (2 ^ Z.of_nat k - 1).
Proof.
  unfold empty_table. constructor.
  - by exists k.
  - rewrite length_replicate. f_equal. lia.
  - intros i e Hi. by apply lookup_replicate in Hi as [? _].
  - intros i e Hi. by apply lookup_replicate in Hi as [? _].
Qed.

Lemma keys_empty size : keys (empty_table size) = [].
Proof.
  unfold keys, empty_table. induction (Z.to_nat size) as [|n IH]; [done|]. exact IH.
Qed.

End tables.

Section sets.
Import PyFloat PySet SetTable.
Local Open Scope Z_scope.

Lemma distinct_middle l1 x l2 :
  distinct (l1 ++ x :: l2) = true ->
  forall y, In y l1 -> py_eq y x = false.
Proof.
  intros Hd y Hy.
  apply (distinct_Permutation _ (x :: l1 ++ l2)) in Hd;
    [|by rewrite <- Permutation_middle].
  apply distinct_cons in Hd as [Hx _]. apply Hx, in_or_app. by left.
Qed.

Lemma find_slot_clean t msk h s :
  first_hit t (fun _ => false) (slots msk h) = Some s -> exists u, s = Unused u.
Proof.
  destruct s as [u|i]; [by eauto|].
  intros H. by apply first_hit_active in H as (e & _ & ?).
Qed.

(** Re-insertion of distinct entries in a table with enough room. *)
Lemma insert_clean_fold (k : nat) es : forall t,
  table_ok t (2 ^ Z.of_nat k - 1) ->
  distinct (keys t ++ (key <$> es)) = true ->
  (forall e, In e es -> hash e = hash_double (key e)) ->
  (length (omap id t) + length es < length t)%nat ->
  table_ok (fold_left (fun t e => set_insert_clean t (2 ^ Z.of_nat k - 1) e) es t)
           (2 ^ Z.of_nat k - 1)
  /\ keys (fold_left (fun t e => set_insert_clean t (2 ^ Z.of_nat k - 1) e) es t)
     ≡ₚ keys t ++ (key <$> es).
Proof.
  induction es as [|e es IH]; intros t Hok Hd Hh Hroom.
  - simpl. by rewrite app_nil_r.
  - cbn [fold_left]. unfold set_insert_clean at 2 4.
    rewrite (find_slot_slots _ _ _ _ Hok).
    destruct (first_hit_ends t _ (fun _ => false) (hash e) Hok) as [s Hs];
      [simpl in Hroom; lia|].
    rewrite Hs. destruct (find_slot_clean _ _ _ _ Hs) as [u ->].
    pose proof (first_hit_unused _ _ _ _ Hs) as Hu.
    assert (Hne : forall i e', t !! i = Some (Some e') -> py_eq (key e') (key e) = false).
    { intros i e' Hi. apply (distinct_middle _ _ _ Hd).
      apply keys_elem. eauto. }
    assert (Hok' : table_ok (<[u := Some e]> t) (2 ^ Z.of_nat k - 1)).
    { apply (table_ok_insert _ _ _ _ (fun _ => false)); auto. apply Hh. by left. }
    pose proof (keys_insert t u e Hu) as Hkeys.
    destruct (IH (<[u := Some e]> t)) as [Hok'' Hk''].
    + done.
    + eapply distinct_Permutation; [|exact Hd].
      rewrite Hkeys. simpl. by rewrite <- Permutation_middle.
    + intros e' He'. apply Hh. by right.
    + rewrite length_keys_insert, length_insert by done. simpl in Hroom. lia.
    + split; [done|]. rewrite Hk'', Hkeys. simpl. by rewrite <- Permutation_middle.
Qed.

Lemma new_size_power minused :
  1 <= minused ->
  exists k : nat, new_size minused = 2 ^ Z.of_nat k /\ minused < new_size minused
                  /\ 8 <= new_size minused.
Proof.
  intros H. unfold new_size, PySet_MINSIZE.
  pose proof (Z.log2_nonneg minused).
  pose proof (Z.log2_spec minused ltac:(lia)) as [_ Hlt].
  rewrite <- Z.add_1_r in Hlt.
  destruct (Z.max_spec 8 (2 ^ (Z.log2 minused + 1))) as [[? ->]|[? ->]].
  - exists (Z.to_nat (Z.log2 minused + 1)). rewrite Z2Nat.id by lia. lia.
  - exists 3%nat. split; [done|]. lia.
Qed.

Lemma set_table_resize_ok so minused :
  table_ok (table so) (mask so) ->
  distinct (keys (table so)) = true ->
  fill so = Z.of_nat (length (omap id (table so))) ->
  1 <= minused -> 2 * fill so <= minused ->
  set_ok (set_table_resize so minused)
  /\ keys (table (set_table_resize so minused)) ≡ₚ keys (table so).
Proof.
  intros Hok Hd Hfill Hmin Hbig.
  destruct (new_size_power minused Hmin) as (k & Hk & Hlt & H8).
  unfold set_table_resize. rewrite Hk. cbn [table mask fill].
  destruct (insert_clean_fold k (omap id (table so)) (empty_table (2 ^ Z.of_nat k)))
    as [Hok' Hkeys].
  - apply table_ok_empty.
  - by rewrite keys_empty.
  - intros e He. apply list_elem_of_In, list_elem_of_omap in He as ([e'|] & Ho & E); [|done].
    simpl in E. injection E as ->. apply list_elem_of_lookup in Ho as [i Hi].
    by eapply ok_hash.
  - pose proof (keys_empty (2 ^ Z.of_nat k)) as Hke. unfold keys in Hke.
    apply fmap_nil_inv in Hke. rewrite Hke. unfold empty_table.
    rewrite length_replicate. simpl. lia.
  - rewrite keys_empty in Hkeys. simpl in Hkeys. split; [|done].
    constructor; cbn [table mask fill].
    + done.
    + eapply distinct_Permutation; [symmetry; exact Hkeys | done].
    + rewrite Hfill. f_equal. apply Permutation_length in Hkeys.
      unfold keys in Hkeys. by rewrite !length_fmap in Hkeys.
    + lia.
Qed.

(** Adding a key keeps the set well formed; the key is either equal to one
    that is present, and nothing changes, or it joins the keys. *)
Lemma set_add_entry_ok so k :
  set_ok so ->
  set_ok (set_add_entry so k)
  /\ ((exists y, In y (keys (table so)) /\ py_eq y k = true)
      /\ keys (table (set_add_entry so k)) = keys (table so)
      \/ keys (table (set_add_entry so k)) ≡ₚ k :: keys (table so)).
Proof.
  intros [Hok Hd Hfill Hroom]. unfold set_add_entry.
  rewrite (find_slot_slots _ _ _ _ Hok).
  assert (Hfree : (length (omap id (table so)) < length (table so))%nat).
  { rewrite (ok_length _ _ Hok). lia. }
  destruct (first_hit_ends _ _ (same_key k (hash_double k)) (hash_double k) Hok Hfree)
    as [[u|i] Hs]; rewrite Hs.
  - pose proof (first_hit_unused _ _ _ _ Hs) as Hu.
    pose proof (unused_no_equal _ _ _ _ Hok Hs) as Hne.
    set (e := {| key := k; hash := hash_double k |}).
    assert (Hok' : table_ok (<[u := Some e]> (table so)) (mask so)).
    { apply (table_ok_insert _ _ _ _ (same_key k (hash_double k))); auto.
      intros i e' Hi. unfold same_key. by rewrite (Hne i e' Hi), andb_false_r. }
    pose proof (keys_insert (table so) u e Hu) as Hkeys.
    assert (Hd' : distinct (keys (<[u := Some e]> (table so))) = true).
    { eapply distinct_Permutation; [symmetry; exact Hkeys|].
      apply distinct_cons. split; [|done].
      intros y Hy. apply keys_elem in Hy as (i & e' & Hi & <-).
      pose proof (Hne i e' Hi). split; [by apply py_eq_false_sym | done]. }
    assert (Hfill' : fill so + 1 = Z.of_nat (length (omap id (<[u := Some e]> (table so))))).
    { rewrite length_keys_insert by done. lia. }
    cbn [fill mask table].
    destruct (Z.ltb_spec ((fill so + 1) * 5) (mask so * 3)).
    + split; [by constructor | by right].
    + match goal with
      | |- context [set_table_resize ?s ?m] =>
          destruct (set_table_resize_ok s m) as [Hok2 Hk2]; cbn [fill mask table];
            try done
      end.
      * destruct (50000 <? fill so + 1); lia.
      * destruct (50000 <? fill so + 1); lia.
      * split; [done|]. right. by rewrite Hk2.
  - split; [by constructor|]. left. split; [|done].
    apply first_hit_active in Hs as (e & Hi & Hm).
    exists (key e). split; [apply keys_elem; eauto|].
    unfold same_key in Hm. by apply andb_true_iff in Hm as [_ ?].
Qed.

Lemma set_new_ok : set_ok set_new.
Proof.
  constructor; cbn [table mask fill set_new].
  - apply (table_ok_empty 3).
  - by rewrite keys_empty.
  - by vm_compute.
  - by vm_compute.
Qed.

Lemma set_of_list_fold l : forall so,
  set_ok so ->
  set_ok (fold_left set_add_entry l so)
  /\ (forall y, In y (keys (table (fold_left set_add_entry l so))) ->
                In y (keys (table so)) \/ In y l)
  /\ (forall x, In x (keys (table so)) \/ In x l ->
                exists y, In y (keys (table (fold_left set_add_entry l so)))
                          /\ py_eq y x = true).
Proof.
  induction l as [|k l IH]; intros so Hso.
  - split; [done|]. split; [by left|].
    intros x [Hx|[]]. exists x. split; [done | apply py_eq_refl].
  - cbn [fold_left].
    destruct (set_add_entry_ok so k Hso) as [Hso' Hcase].
    destruct (IH _ Hso') as (H1 & H2 & H3). split; [done|].
    assert (Hin : forall y, In y (keys (table (set_add_entry so k))) ->
                            In y (keys (table so)) \/ y = k).
    { intros y Hy. destruct Hcase as [[_ E]|Hp].
      - left. by rewrite <- E.
      - apply list_elem_of_In in Hy. rewrite Hp in Hy.
        apply elem_of_cons in Hy as [->|Hy]; [by right | left; by apply list_elem_of_In]. }
    assert (Hout : forall x, In x (keys (table so)) \/ x = k ->
                   exists y, In y (keys (table (set_add_entry so k))) /\ py_eq y x = true).
    { intros x Hx. destruct Hcase as [[(y & Hy & E) Ek]|Hp].
      - rewrite Ek. destruct Hx as [Hx| ->]; [|eauto].
        exists x. split; [done | apply py_eq_refl].
      - exists x. split; [|apply py_eq_refl].
        apply list_elem_of_In. rewrite Hp.
        destruct Hx as [Hx| ->]; [right; by apply list_elem_of_In | by left]. }
    split.
    + intros y Hy. destruct (H2 y Hy) as [Hy'|Hy']; [|right; by right].
      destruct (Hin y Hy') as [?| ->]; [by left | right; by left].
    + intros x Hx.
      assert (Hx' : (In x (keys (table so)) \/ x = k) \/ In x l) by (simpl in Hx; intuition).
      destruct Hx' as [Hx'|Hx']; [|apply H3; by right].
      destruct (Hout x Hx') as (y0 & Hy0 & E0).
      destruct (H3 y0) as (y & Hy & E); [by left|].
      exists y. split; [done|]. by eapply py_eq_trans.
Qed.

(** [list(set(l))] lists the distinct elements of [l]. *)
Lemma list_set_lists l : lists_set l (list_set l) = true.
Proof.
  destruct (set_of_list_fold l set_new set_new_ok) as ([_ Hd _ _] & H2 & H3).
  unfold lists_set, list_set, set_iter. fold (keys (table (set_of_list l))).
  unfold set_of_list in *.
  rewrite !andb_true_iff, !forallb_forall. split; [split|exact Hd].
  - intros y Hy. apply existsb_exists. exists y. split; [|by apply py_is_true].
    destruct (H2 y Hy) as [Hy'|Hy']; [|done].
    change (table set_new) with (empty_table PySet_MINSIZE) in Hy'.
    rewrite keys_empty in Hy'. done.
  - intros x Hx. apply existsb_exists. apply H3. by right.
Qed.

End sets.

(* ===================================================================== *)
(** ** [list(set(l))] lists the distinct elements of [l] *)
(* ===================================================================== *)

Section set_listing.
Import PyFloat PySet SetTable.

Lemma lists_set_true l r :
  lists_set l r = true <->
  (forall y, In y r -> In y l)
  /\ (forall x, In x l -> exists y, In y r /\ py_eq y x = true)
  /\ distinct r = true.
Proof.
  unfold lists_set. rewrite !andb_true_iff, !forallb_forall.
  split.
  - intros [[H1 H2] H3]. split; [|split; [|done]].
    + intros y Hy. apply H1, existsb_exists in Hy as (x & Hx & E).
      apply py_is_true in E. by subst.
    + intros x Hx. by apply H2, existsb_exists in Hx.
  - intros (H1 & H2 & H3). split; [split|done].
    + intros y Hy. apply existsb_exists. exists y.
      split; [by apply H1 | by apply py_is_true].
    + intros x Hx. apply existsb_exists. by apply H2.
Qed.

Lemma list_set_from l y : In y (list_set l) -> In y l.
Proof. pose proof (list_set_lists l) as H. apply lists_set_true in H. apply H. Qed.

Lemma list_set_holds l x :
  In x l -> exists y, In y (list_set l) /\ py_eq y x = true.
Proof. pose proof (list_set_lists l) as H. apply lists_set_true in H. apply H. Qed.

Lemma list_set_distinct l : distinct (list_set l) = true.
Proof. pose proof (list_set_lists l) as H. apply lists_set_true in H. apply H. Qed.

Lemma occurrences_cons v x r :
  occurrences v (x :: r) = (if py_eq x v then S (occurrences v r) else occurrences v r).
Proof. unfold occurrences. simpl. by destruct (py_eq x v). Qed.

Lemma occurrences_zero v r :
  (forall y, In y r -> py_eq y v = false) -> occurrences v r = O.
Proof.
  induction r as [|x r IH]; intros H; [done|].
  rewrite occurrences_cons, (H x) by (by left).
  apply IH. intros y Hy. apply H. by right.
Qed.

Lemma occurrences_pos v r y :
  In y r -> py_eq y v = true -> (1 <= occurrences v r)%nat.
Proof.
  induction r as [|x r IH]; intros Hy E; [done|].
  rewrite occurrences_cons. destruct Hy as [->|Hy].
  - rewrite E. lia.
  - specialize (IH Hy E). destruct (py_eq x v); lia.
Qed.

Lemma distinct_occurrences v r : distinct r = true -> (occurrences v r <= 1)%nat.
Proof.
  induction r as [|x r IH]; intros Hd; [unfold occurrences; simpl; lia|].
  apply distinct_cons in Hd as [Hx Hd]. rewrite occurrences_cons.
  destruct (py_eq x v) eqn:E; [|by apply IH].
  rewrite occurrences_zero; [lia|].
  intros y Hy. destruct (py_eq y v) eqn:Ey; [|done].
  destruct (Hx y Hy) as [Hxy _].
  assert (py_eq x y = true) by (eapply py_eq_trans; [exact E | by apply py_eq_sym]).
  congruence.
Qed.

(** Every element of [l] occurs exactly once in [list(set(l))]. *)
Lemma list_set_once l x : In x l -> occurrences x (list_set l) = 1%nat.
Proof.
  intros Hx. destruct (list_set_holds l x Hx) as (y & Hy & E).
  pose proof (occurrences_pos x _ y Hy E).
  pose proof (distinct_occurrences x _ (list_set_distinct l)). lia.
Qed.

(** A list without two equal elements is no longer than a list that holds
    an equal of each of its elements. *)
Lemma distinct_length_le (A B : list float) :
  distinct A = true ->
  (forall a, In a A -> exists b, In b B /\ py_eq a b = true) ->
  (length A <= length B)%nat.
Proof.
  revert B. induction A as [|a A IH]; intros B Hd Hmap; [simpl; lia|].
  apply distinct_cons in Hd as [Ha Hd].
  destruct (Hmap a) as (b & Hb & Eab); [by left|].
  apply in_split in Hb as (B1 & B2 & ->).
  rewrite length_app. simpl.
  enough (length A <= length (B1 ++ B2))%nat by (rewrite length_app in *; lia).
  apply IH; [done|]. intros a' Ha'.
  destruct (Hmap a') as (b' & Hb' & E'); [by right|].
  exists b'. split; [|done].
  apply in_app_or in Hb' as [Hb'|[<-|Hb']]; apply in_or_app; [by left| |by right].
  destruct (Ha a' Ha') as [Haa' _].
  assert (py_eq a a' = true)
    by (eapply py_eq_trans; [exact Eab | by apply py_eq_sym]).
  congruence.
Qed.

End set_listing.

(* ===================================================================== *)
(** ** [_construct_guess_list_order] *)
(* ===================================================================== *)

Section guess_list_order.
Import PyFloat PySet.

Lemma py_min_from_in key best l :
  py_min_from key best l = best \/ In (py_min_from key best l) l.
Proof.
  revert best. induction l as [|x l IH]; intros best; simpl; [by left|].
  destruct (lt (key x) (key best)).
  - destruct (IH x) as [->|H]; right; [by left | by right].
  - destruct (IH best) as [->|H]; [by left | right; by right].
Qed.

Lemma py_min_in key l m : py_min key l = Some m -> In m l.
Proof.
  destruct l as [|x l]; simpl; [done|]. intros [= <-].
  destruct (py_min_from_in key x l) as [->|H]; [by left | by right].
Qed.

(** In a list of distinct values, [index] finds the very element looked for. *)
Lemma py_index_distinct t m :
  distinct t = true -> In m t ->
  exists i, py_index m t = Some i /\ t !! i = Some m.
Proof.
  induction t as [|x t IH]; intros Hd Hm; [done|].
  apply distinct_cons in Hd as [Hx Hd]. simpl.
  destruct (py_eq x m) eqn:E.
  - exists O. split; [done|]. destruct Hm as [->|Hm]; [done|].
    destruct (Hx m Hm). congruence.
  - destruct Hm as [->|Hm]; [by rewrite py_eq_refl in E|].
    destruct (IH Hd Hm) as (i & -> & Hi). by exists (S i).
Qed.

Lemma distinct_delete i t : distinct t = true -> distinct (delete i t) = true.
Proof.
  revert i. induction t as [|x t IH]; intros i Hd; [by destruct i|].
  apply distinct_cons in Hd as [Hx Hd]. destruct i as [|i]; [done|].
  change (delete (S i) (x :: t)) with (x :: delete i t).
  apply distinct_cons. split; [|by apply IH].
  intros y Hy. apply Hx. apply list_elem_of_In.
  apply list_elem_of_In in Hy. by eapply list_elem_of_delete_inv.
Qed.

(** The loop ends, and appends a permutation of [t] to [reordered]. *)
Lemma reorder_loop_permutation fuel guess t reordered :
  distinct t = true -> (length t <= fuel)%nat ->
  exists r, reorder_loop fuel guess t reordered = Some (reordered ++ r) /\ r ≡ₚ t.
Proof.
  revert t reordered. induction fuel as [|fuel IH]; intros t acc Hd Hlen.
  - destruct t; [|simpl in Hlen; lia]. exists []. by rewrite app_nil_r.
  - destruct t as [|x t]; [exists []; by rewrite app_nil_r|].
    cbn [reorder_loop].
    destruct (py_min (distance guess) (x :: t)) as [m|] eqn:Em; [|done].
    apply py_min_in in Em.
    destruct (py_index_distinct _ _ Hd Em) as (i & Ei & Hi).
    cbn [mbind option_bind]. rewrite Ei. cbn [mbind option_bind].
    destruct (IH (delete i (x :: t)) (acc ++ [m])) as (r & Er & Hr).
    + by apply distinct_delete.
    + pose proof (lookup_lt_Some _ _ _ Hi) as Hlt.
      rewrite length_delete by eauto. simpl in *. lia.
    + exists (m :: r). split.
      * rewrite Er. f_equal. by rewrite <- app_assoc.
      * rewrite Hr. symmetry. by apply delete_Permutation.
Qed.

Lemma ladder_distinct : distinct ladder = true.
Proof. vm_compute. reflexivity. Qed.

(** The loop of [_construct_guess_list_order] returns: [reordered] is
    [guess] followed by the ten ladder values in some order. *)
Lemma reordered_of_permutation guess :
  exists r, reordered_of guess = Some (guess :: r) /\ r ≡ₚ ladder.
Proof.
  destruct (reorder_loop_permutation (length ladder) guess ladder [guess]
              ladder_distinct) as (r & E & Hr); [done|].
  by exists r.
Qed.

(** [_construct_guess_list_order] returns for every guess; the list holds
    only the guess and ladder values, each of them exactly once. *)
Lemma construct_guess_list_order_block guess :
  exists block,
    _construct_guess_list_order guess = Some block
    /\ (forall y, In y block -> y = guess \/ In y ladder)
    /\ (forall v, v = guess \/ In v ladder -> occurrences v block = 1%nat).
Proof.
  destruct (reordered_of_permutation guess) as (r & E & Hr).
  exists (list_set (guess :: r)). unfold _construct_guess_list_order.
  rewrite E. split; [done|]. split.
  - intros y Hy. apply list_set_from in Hy as [->|Hy]; [by left|].
    right. apply list_elem_of_In. rewrite <- Hr. by apply list_elem_of_In.
  - intros v Hv. apply list_set_once. destruct Hv as [->|Hv]; [by left|].
    right. apply list_elem_of_In. rewrite Hr. by apply list_elem_of_In.
Qed.

End guess_list_order.

(* ===================================================================== *)
(** ** Running programs *)
(* ===================================================================== *)

Section running.
Context (h : handler).

Lemma run_log_bind {A B} (p : prog A) (f : A -> prog B) :
  run_log h (bind p f) =
  match run_log h p with
  | (evs, inr a) => let '(evs', r) := run_log h (f a) in (evs ++ evs', r)
  | (evs, inl e) => (evs, inl e)
  end.
Proof.
  induction p as [a|e|R c k IH]; simpl.
  - by destruct (run_log h (f a)).
  - done.
  - rewrite IH. destruct (run_log h (k (h R c))) as [evs [e|a]]; [done|].
    by destruct (run_log h (f a)).
Qed.

Lemma run_bind {A B} (p : prog A) (f : A -> prog B) :
  run h (bind p f) =
  match run h p with
  | inr a => run h (f a)
  | inl e => inl e
  end.
Proof.
  unfold run. rewrite run_log_bind.
  destruct (run_log h p) as [evs [e|a]]; simpl; [done|].
  by destruct (run_log h (f a)).
Qed.

Lemma run_call {R} (c : extcall R) :
  run h (call c) = match h R c with
                   | inl e => inl (CalleeError e)
                   | inr v => inr v
                   end.
Proof. unfold run. simpl. by destruct (h R c). Qed.

End running.

(* ===================================================================== *)
(** ** The registries *)
(* ===================================================================== *)

Section registries.

(** Case analysis on the first name a dictionary literal is compared with. *)
Ltac lookup_by_name name :=
  match goal with
  | |- context [String.eqb name ?k] =>
      destruct (String.eqb_spec name k) as [->|?];
      [vm_compute; reflexivity | rewrite lookup_insert_ne by done]
  end.

Lemma models_lookup name :
  models !! name =
  if String.eqb name "DAK" then Some DAK
  else if String.eqb name "hall_yarborough" then Some hall_yarborough
  else if String.eqb name "londono" then Some londono
  else if String.eqb name "kareem" then Some kareem
  else None.
Proof.
  unfold models.
  repeat lookup_by_name name.
  apply lookup_empty.
Qed.

Lemma MODEL_RANGES_lookup name :
  MODEL_RANGES !! name =
  if String.eqb name "DAK"
  then Some {| range_Tr := (1, 3); range_Pr := (0.2, 30) |}
  else if String.eqb name "hall_yarborough"
  then Some {| range_Tr := (1, 3); range_Pr := (0.2, 20.5) |}
  else if String.eqb name "londono"
  then Some {| range_Tr := (1, 3); range_Pr := (0.2, 30) |}
  else if String.eqb name "kareem"
  then Some {| range_Tr := (1, 3); range_Pr := (0.2, 15) |}
  else None.
Proof.
  unfold MODEL_RANGES.
  repeat lookup_by_name name.
  apply lookup_empty.
Qed.

Lemma not_in_names name :
  name ∉ ["DAK"; "hall_yarborough"; "londono"; "kareem"] ->
  String.eqb name "DAK" = false /\ String.eqb name "hall_yarborough" = false
  /\ String.eqb name "londono" = false /\ String.eqb name "kareem" = false.
Proof.
  intros H. repeat split; apply String.eqb_neq; intros ->; apply H;
    repeat ((by left) || right).
Qed.

Lemma append_assoc (s1 s2 s3 : string) : (s1 +:+ s2) +:+ s3 = s1 +:+ (s2 +:+ s3).
Proof.
  induction s1 as [|a s1 IH]; [done|].
  change (String a ((s1 +:+ s2) +:+ s3) = String a (s1 +:+ (s2 +:+ s3))).
  by rewrite IH.
Qed.

End registries.

(* ===================================================================== *)
(** ** The range validator *)
(* ===================================================================== *)

Section range_validator.

Lemma all_within (a : Numpy.nd float) (lo hi : float) :
  Numpy.all (Numpy.logical_and (Numpy.ge a lo) (Numpy.le a hi)) = true <->
  forall x, x ∈ Numpy.elements a -> within (lo, hi) x.
Proof.
  unfold within, PyFloat.ge, PyFloat.le. destruct a as [x|xs]; simpl.
  - rewrite andb_true_iff. split.
    + intros H y Hy. apply list_elem_of_singleton in Hy. by subst.
    + intros H. apply H. by left.
  - induction xs as [|x xs IH]; simpl.
    + split; [|done]. intros _ y Hy. by apply elem_of_nil in Hy.
    + unfold id at 1. rewrite !andb_true_iff, IH. split.
      * intros [Hx Hxs] y Hy. apply elem_of_cons in Hy as [->|Hy]; auto.
      * intros H. split; [apply H; by left|].
        intros y Hy. apply H. by right.
Qed.

Lemma check_working_Pr_Tr_range_of_numeric Pr Tr name :
  check_working_Pr_Tr_range_of (Numeric Pr) (Numeric Tr) name
  = _check_working_Pr_Tr_range Pr Tr name.
Proof.
  unfold check_working_Pr_Tr_range_of, _check_working_Pr_Tr_range.
  by destruct (MODEL_RANGES !! name).
Qed.

Lemma check_working_Pr_Tr_range_of_list name rg :
  MODEL_RANGES !! name = Some rg ->
  (forall xs Tr,
      check_working_Pr_Tr_range_of (PyList xs) Tr name
      = Raise (TypeError (not_supported ">=" "float")))
  /\ (forall Pr ys,
         check_working_Pr_Tr_range_of (Numeric Pr) (PyList ys) name
         = Raise (TypeError (not_supported ">=" "int"))).
Proof.
  intros Hrg. unfold check_working_Pr_Tr_range_of. rewrite Hrg. by split.
Qed.

(** C4 (as amended). [_check_working_Pr_Tr_range] (inRange) on operands
    that are each a float or a NumPy array: for a supported model name it
    returns true exactly when every element of [Pr] lies within the model's
    [Pr] bounds and every element of [Tr] within its [Tr] bounds, bounds
    included; the supported names are the four models; a value equal to a
    bound is in range, one element out of range makes the result false,
    [inRange(1.5, 1.5, "DAK")] is true and [inRange(35, 1.5, "DAK")] is
    false, the upper [Pr] bound of DAK being 30.  On these operands the
    function is [check_working_Pr_Tr_range_of]; on a Python list, for [Pr]
    or for [Tr], that one raises [TypeError] for every supported name. *)
Theorem check_working_Pr_Tr_range_iff :
  (forall (Pr Tr : Numpy.nd float) (name : string),
      match MODEL_RANGES !! name with
      | Some rg =>
          exists b : bool,
            _check_working_Pr_Tr_range Pr Tr name = Ret b
            /\ (b = true <->
                (forall x, x ∈ Numpy.elements Pr -> within (range_Pr rg) x)
                /\ (forall y, y ∈ Numpy.elements Tr -> within (range_Tr rg) y))
      | None => _check_working_Pr_Tr_range Pr Tr name = Raise (KeyError name)
      end)
  /\ (forall name,
         name ∈ ["DAK"; "hall_yarborough"; "londono"; "kareem"]
         <-> is_Some (MODEL_RANGES !! name))
  /\ (forall name rg,
         MODEL_RANGES !! name = Some rg ->
         _check_working_Pr_Tr_range (Numpy.Scalar (fst (range_Pr rg)))
                                    (Numpy.Scalar (fst (range_Tr rg))) name = Ret true
         /\ _check_working_Pr_Tr_range (Numpy.Scalar (snd (range_Pr rg)))
                                       (Numpy.Scalar (snd (range_Tr rg))) name = Ret true)
  /\ MODEL_RANGES !! "DAK" = Some {| range_Tr := (1, 3); range_Pr := (0.2, 30) |}
  /\ _check_working_Pr_Tr_range (Numpy.Scalar 1.5) (Numpy.Scalar 1.5) "DAK" = Ret true
  /\ _check_working_Pr_Tr_range (Numpy.Scalar 35) (Numpy.Scalar 1.5) "DAK" = Ret false
  /\ _check_working_Pr_Tr_range (Numpy.Array [1.5; 35; 2]) (Numpy.Array [1.5; 2])
                                "DAK" = Ret false
  /\ (forall (Pr Tr : Numpy.nd float) (name : string),
         check_working_Pr_Tr_range_of (Numeric Pr) (Numeric Tr) name
         = _check_working_Pr_Tr_range Pr Tr name)
  /\ (forall name rg,
         MODEL_RANGES !! name = Some rg ->
         (forall xs Tr,
             check_working_Pr_Tr_range_of (PyList xs) Tr name
             = Raise (TypeError (not_supported ">=" "float")))
         /\ (forall Pr ys,
                check_working_Pr_Tr_range_of (Numeric Pr) (PyList ys) name
                = Raise (TypeError (not_supported ">=" "int")))).
Proof.
  split; [|split; [|split; [|do 4 (split; [by vm_compute|])]]].
  4: split; [apply check_working_Pr_Tr_range_of_numeric
            | apply check_working_Pr_Tr_range_of_list].
  - intros Pr Tr name. unfold _check_working_Pr_Tr_range.
    destruct (MODEL_RANGES !! name) as [[[tlo thi] [plo phi]]|]; [|done].
    eexists. split; [reflexivity|]. cbn [range_Pr range_Tr fst snd].
    by rewrite andb_true_iff, !all_within.
  - intros name. rewrite MODEL_RANGES_lookup. split.
    + intros H. repeat (apply elem_of_cons in H as [->|H]; [by eexists|]).
      by apply elem_of_nil in H.
    + intros [rg H].
      repeat (match type of H with
              | context [String.eqb name ?k] =>
                  destruct (String.eqb_spec name k) as [->|?]
              end; [repeat ((by left) || right)|]).
      done.
  - intros name rg. rewrite MODEL_RANGES_lookup.
    repeat (match goal with
            | |- context [String.eqb name ?k] =>
                destruct (String.eqb_spec name k) as [->|?]
            end; [intros [= <-]; by vm_compute|]).
    done.
Qed.

(** C4 (as stated) fails on an array-like operand that is no NumPy array:
    for the list [[1.5, 2]] as [Pr], every element of which is within the
    [Pr] bounds of DAK, and [Tr = 1.5], the call does not return true; the
    comparison of the list with the lower bound raises [TypeError].  The
    array of the same elements is in range. *)
Lemma check_working_Pr_Tr_range_rejects_lists :
  check_working_Pr_Tr_range_of (PyList [1.5; 2]) (Numeric (Numpy.Scalar 1.5)) "DAK"
  = Raise (TypeError "'>=' not supported between instances of 'list' and 'float'")
  /\ MODEL_RANGES !! "DAK" = Some {| range_Tr := (1, 3); range_Pr := (0.2, 30) |}
  /\ within (0.2, 30) 1.5 /\ within (0.2, 30) 2 /\ within (1, 3) 1.5
  /\ _check_working_Pr_Tr_range (Numpy.Array [1.5; 2]) (Numpy.Scalar 1.5) "DAK"
     = Ret true.
Proof. repeat split; by vm_compute. Qed.

End range_validator.

(* ===================================================================== *)
(** ** The root-finding loop *)
(* ===================================================================== *)

Section root_finding.
Context (h : handler) (f : zfunc) (Pr Tr : float)
        (newton_kwargs : option (gmap string pyval)).

Local Abbreviation attempts := (try_guesses f Pr Tr newton_kwargs).
Local Abbreviation fails := (attempt_fails h f Pr Tr newton_kwargs).
Local Abbreviation answer x0 := (h float (newton_call f x0 Pr Tr newton_kwargs)).
Local Abbreviation event_of := (newton_event f Pr Tr newton_kwargs).

Lemma try_guesses_cons_fail x0 gs :
  fails x0 ->
  run_log h (attempts (x0 :: gs)) =
  (event_of x0 :: fst (run_log h (attempts gs)), snd (run_log h (attempts gs))).
Proof.
  intros [e He]. cbn [try_guesses run_log]. rewrite He.
  by destruct (run_log h (attempts gs)).
Qed.

Lemma try_guesses_cons_success x0 gs Z :
  answer x0 = inr Z ->
  run_log h (attempts (x0 :: gs)) = ([event_of x0], inr Z).
Proof. intros He. cbn [try_guesses run_log]. by rewrite He. Qed.

(** The first candidate that converges gives the result, and no later
    candidate is attempted. *)
Lemma try_guesses_first_success pre x0 post Z :
  Forall fails pre -> answer x0 = inr Z ->
  run_log h (attempts (pre ++ x0 :: post)) = (event_of <$> (pre ++ [x0]), inr Z).
Proof.
  intros Hpre Hx. induction Hpre as [|y pre Hy _ IH]; simpl app.
  - by apply try_guesses_cons_success.
  - rewrite try_guesses_cons_fail by done. by rewrite IH.
Qed.

(** When every candidate fails, all were attempted and the loop raises. *)
Lemma try_guesses_all_fail gs :
  Forall fails gs ->
  run_log h (attempts gs) = (event_of <$> gs, inl (RuntimeError "Failed to converge")).
Proof.
  induction 1 as [|y gs Hy _ IH]; [done|].
  rewrite try_guesses_cons_fail by done. by rewrite IH.
Qed.

(** Every run of the loop is of one of the two kinds. *)
Lemma try_guesses_cases gs :
  (exists pre x0 post Z,
      gs = pre ++ x0 :: post /\ Forall fails pre /\ answer x0 = inr Z)
  \/ Forall fails gs.
Proof.
  induction gs as [|y gs IH]; [by right|].
  destruct (answer y) as [e|Z] eqn:Ey.
  - destruct IH as [(pre & x0 & post & Z & -> & Hpre & Hx)|Hall].
    + left. exists (y :: pre), x0, post, Z. split; [done|]. split; [|done].
      constructor; [by exists e | done].
    + right. constructor; [by exists e | done].
  - left. by exists [], y, gs, Z.
Qed.

Lemma try_guesses_error gs e :
  run h (attempts gs) = inl e <->
  e = RuntimeError "Failed to converge" /\ Forall fails gs.
Proof.
  unfold run. split.
  - destruct (try_guesses_cases gs) as [(pre & x0 & post & Z & -> & Hpre & Hx)|Hall].
    + by rewrite (try_guesses_first_success _ _ _ _ Hpre Hx).
    + rewrite (try_guesses_all_fail _ Hall). by intros [= <-].
  - intros [-> Hall]. by rewrite (try_guesses_all_fail _ Hall).
Qed.

Lemma try_guesses_value gs Z :
  run h (attempts gs) = inr Z ->
  exists pre x0 post,
    gs = pre ++ x0 :: post /\ Forall fails pre /\ answer x0 = inr Z.
Proof.
  unfold run.
  destruct (try_guesses_cases gs) as [(pre & x0 & post & Z' & -> & Hpre & Hx)|Hall].
  - rewrite (try_guesses_first_success _ _ _ _ Hpre Hx). intros [= <-]. eauto 6.
  - by rewrite (try_guesses_all_fail _ Hall).
Qed.

End root_finding.

(** The helper of an implicit model builds the candidates and runs the loop
    over them. *)
Lemma helper_implicit Pr Tr f name guess newton_kwargs smart_guess :
  py_in name ["kareem"] = false ->
  _calc_z_explicit_implicit_helper Pr Tr f name guess newton_kwargs smart_guess =
  bind (guesses Pr Tr (default_guess Pr guess) (default_smart_guess smart_guess))
       (try_guesses f Pr Tr newton_kwargs).
Proof. intros H. unfold _calc_z_explicit_implicit_helper. by rewrite H. Qed.

(** C5. The loop over the candidates of an implicit model: candidates are
    tried in sequence order; an attempt that raises only moves the loop to
    the next candidate; the first candidate whose attempt returns gives the
    result and no later candidate is attempted; the loop fails with
    [RuntimeError("Failed to converge")] if and only if every attempt raises.
    Each attempt is [optimize.newton] with [maxiter=50] unless the caller's
    [newton_kwargs] give a ['maxiter'] of their own. *)
Theorem try_guesses_first_converged :
  forall (h : handler) (f : zfunc) (Pr Tr : float)
         (newton_kwargs : option (gmap string pyval)) (gs : list float),
    (forall pre x0 post Z,
        gs = pre ++ x0 :: post ->
        Forall (attempt_fails h f Pr Tr newton_kwargs) pre ->
        h float (newton_call f x0 Pr Tr newton_kwargs) = inr Z ->
        run_log h (try_guesses f Pr Tr newton_kwargs gs) =
        (newton_event f Pr Tr newton_kwargs <$> (pre ++ [x0]), inr Z))
    /\ (Forall (attempt_fails h f Pr Tr newton_kwargs) gs ->
        run_log h (try_guesses f Pr Tr newton_kwargs gs) =
        (newton_event f Pr Tr newton_kwargs <$> gs,
         inl (RuntimeError "Failed to converge")))
    /\ (forall e,
           run h (try_guesses f Pr Tr newton_kwargs gs) = inl e <->
           e = RuntimeError "Failed to converge"
           /\ Forall (attempt_fails h f Pr Tr newton_kwargs) gs)
    /\ (forall name guess smart_guess,
           py_in name ["kareem"] = false ->
           run h (guesses Pr Tr (default_guess Pr guess)
                          (default_smart_guess smart_guess)) = inr gs ->
           run h (_calc_z_explicit_implicit_helper Pr Tr f name guess
                                                   newton_kwargs smart_guess)
           = run h (try_guesses f Pr Tr newton_kwargs gs))
    /\ (forall x0,
           newton_call f x0 Pr Tr None
           = OptimizeNewton f x0 Pr Tr {[ "maxiter" := PyInt 50 ]})
    /\ (forall x0 kw v,
           kw !! "maxiter" = Some v ->
           newton_call f x0 Pr Tr (Some kw) = OptimizeNewton f x0 Pr Tr kw)
    /\ (forall x0 kw,
           kw !! "maxiter" = None ->
           newton_call f x0 Pr Tr (Some kw)
           = OptimizeNewton f x0 Pr Tr (<["maxiter" := PyInt 50]> kw)).
Proof.
  intros h f Pr Tr newton_kwargs gs.
  split; [|split; [|split; [|split; [|split; [|split]]]]].
  - intros pre x0 post Z -> Hpre Hx. by apply try_guesses_first_success.
  - apply try_guesses_all_fail.
  - intros e. apply try_guesses_error.
  - intros name guess smart_guess Hname Hgs.
    rewrite helper_implicit, run_bind, Hgs by done. done.
  - done.
  - intros x0 kw v Hv. unfold newton_call.
    rewrite bool_decide_eq_true_2 by (by eexists). done.
  - intros x0 kw Hv. unfold newton_call.
    rewrite bool_decide_eq_false_2 by (rewrite Hv; by intros [? ?]).
    by rewrite delete_id.
Qed.

(* ===================================================================== *)
(** ** The candidate sequence *)
(* ===================================================================== *)

Section candidate_sequence.

Lemma kareem_range Pr Tr :
  exists b, _check_working_Pr_Tr_range (Numpy.Scalar Pr) (Numpy.Scalar Tr) "kareem" = Ret b.
Proof. eexists. by vm_compute. Qed.

Lemma kareem_registered : _get_z_model "kareem" = Ret kareem.
Proof. by vm_compute. Qed.

Lemma construct_guess_list_order_returns guess block :
  _construct_guess_list_order guess = Some block ->
  construct_guess_list_order guess = Ret block.
Proof. unfold construct_guess_list_order. by intros ->. Qed.

(** The list [guesses], case by case: the calls made and the result. *)
Lemma guesses_run_log h Pr Tr guess block :
  _construct_guess_list_order guess = Some block ->
  run_log h (guesses Pr Tr guess false) = ([], inr block)
  /\ (_check_working_Pr_Tr_range (Numpy.Scalar Pr) (Numpy.Scalar Tr) "kareem" = Ret false ->
      run_log h (guesses Pr Tr guess true) = ([], inr (guess :: block)))
  /\ (_check_working_Pr_Tr_range (Numpy.Scalar Pr) (Numpy.Scalar Tr) "kareem" = Ret true ->
      run_log h (guesses Pr Tr guess true) =
      ([ev (ZCorrelation kareem Pr Tr)],
       match h float (ZCorrelation kareem Pr Tr) with
       | inl e => inl (CalleeError e)
       | inr guess_ => inr (guess_ :: guess :: block)
       end)).
Proof.
  intros Hb. apply construct_guess_list_order_returns in Hb.
  unfold guesses, mbind, prog_bind, call.
  split; [by rewrite Hb|]. split; intros ->; cbn [bind].
  - by rewrite Hb.
  - rewrite kareem_registered. cbn [bind run_log].
    destruct (h float _) as [e|s]; cbn [bind run_log]; [done|].
    by rewrite Hb.
Qed.

(** C2 (as amended). The candidate sequence of an implicit-model solve is:
    the smart-guess candidate (only when smart guess is enabled and
    [(Pr, Tr)] is within the range of [kareem]), then the provided or
    defaulted guess (only when smart guess is enabled), then a block that
    holds exactly the guess and the ten ladder values, each of them once.
    With smart guess enabled the guess therefore occurs twice, and the
    smart-guess candidate and the guess come before the block. *)
Theorem guesses_sequence :
  forall (h : handler) (Pr Tr : float) (guess : option float)
         (smart_guess : option bool),
  exists block,
    _construct_guess_list_order (default_guess Pr guess) = Some block
    /\ (forall y, In y block -> y = default_guess Pr guess \/ In y ladder)
    /\ (forall v, v = default_guess Pr guess \/ In v ladder ->
                  occurrences v block = 1%nat)
    /\ (default_smart_guess smart_guess = false ->
        run h (guesses Pr Tr (default_guess Pr guess)
                       (default_smart_guess smart_guess)) = inr block)
    /\ (default_smart_guess smart_guess = true ->
        _check_working_Pr_Tr_range (Numpy.Scalar Pr) (Numpy.Scalar Tr) "kareem"
        = Ret false ->
        run h (guesses Pr Tr (default_guess Pr guess)
                       (default_smart_guess smart_guess))
        = inr (default_guess Pr guess :: block)
        /\ occurrences (default_guess Pr guess) (default_guess Pr guess :: block)
           = 2%nat)
    /\ (default_smart_guess smart_guess = true ->
        _check_working_Pr_Tr_range (Numpy.Scalar Pr) (Numpy.Scalar Tr) "kareem"
        = Ret true ->
        forall guess_,
          h float (ZCorrelation kareem Pr Tr) = inr guess_ ->
          run h (guesses Pr Tr (default_guess Pr guess)
                         (default_smart_guess smart_guess))
          = inr (guess_ :: default_guess Pr guess :: block)
          /\ (2 <= occurrences (default_guess Pr guess)
                              (guess_ :: default_guess Pr guess :: block))%nat).
Proof.
  intros h Pr Tr guess smart_guess.
  destruct (construct_guess_list_order_block (default_guess Pr guess))
    as (block & Hb & Hfrom & Honce).
  destruct (guesses_run_log h Pr Tr _ _ Hb) as (Hoff & Hout & Hin).
  exists block. split; [done|]. split; [done|]. split; [done|].
  unfold run. split; [|split].
  - intros ->. by rewrite Hoff.
  - intros -> Hr. rewrite (Hout Hr). split; [done|].
    rewrite occurrences_cons, py_eq_refl, Honce by (by left). done.
  - intros -> Hr s Hs. rewrite (Hin Hr), Hs. split; [done|].
    rewrite !occurrences_cons, py_eq_refl, Honce by (by left).
    destruct (PyFloat.py_eq s _); lia.
Qed.

(** C2 (as stated) fails on the default call: with [Pr = Tr = 1.5], no guess
    given and smart guess left at its default, the sequence holds the
    default guess 0.9 twice. *)
Lemma guesses_hold_the_guess_twice :
  run sample_handler (guesses 1.5 1.5 (default_guess 1.5 None)
                              (default_smart_guess None))
  = inr [0.86; 0.9; 0.9; 0.8; 0.6; 1; 0.7; 0.5; 0.4; 0.3; 0.2; 0.1]
  /\ occurrences 0.9 [0.86; 0.9; 0.9; 0.8; 0.6; 1; 0.7; 0.5; 0.4; 0.3; 0.2; 0.1]
     = 2%nat
  /\ PySet.distinct [0.86; 0.9; 0.9; 0.8; 0.6; 1; 0.7; 0.5; 0.4; 0.3; 0.2; 0.1]
     = false.
Proof. by vm_compute. Qed.

(** With smart guess disabled and the guess 2.0, the guess is not the first
    candidate: two ladder values come before it. *)
Lemma guesses_ladder_before_the_guess :
  run sample_handler (guesses 20 1.5 (default_guess 20 None)
                              (default_smart_guess (Some false)))
  = inr [0.9; 1; 2; 0.8; 0.7; 0.6; 0.5; 0.4; 0.3; 0.2; 0.1].
Proof. by vm_compute. Qed.

(** C3. [_construct_guess_list_order(0.1)]: the loop builds [reordered] by
    proximity to the guess, but the returned [list(set(reordered))] is in
    the set's iteration order, where 0.4 and 0.3 come before 0.2.  Every
    ladder value does occur exactly once, for every guess. *)
Theorem construct_guess_list_order_not_by_proximity :
  reordered_of 0.1 = Some [0.1; 0.1; 0.2; 0.3; 0.4; 0.5; 0.6; 0.7; 0.8; 0.9; 1]
  /\ by_proximity 0.1 [0.1; 0.1; 0.2; 0.3; 0.4; 0.5; 0.6; 0.7; 0.8; 0.9; 1] = true
  /\ PySet.list_set [0.1; 0.1; 0.2; 0.3; 0.4; 0.5; 0.6; 0.7; 0.8; 0.9; 1]
     = [0.1; 0.4; 0.3; 0.2; 0.5; 0.6; 0.7; 0.8; 0.9; 1]
  /\ _construct_guess_list_order 0.1
     = Some [0.1; 0.4; 0.3; 0.2; 0.5; 0.6; 0.7; 0.8; 0.9; 1]
  /\ by_proximity 0.1 [0.1; 0.4; 0.3; 0.2; 0.5; 0.6; 0.7; 0.8; 0.9; 1] = false
  /\ (forall guess, exists block,
         _construct_guess_list_order guess = Some block
         /\ forall v, In v ladder -> occurrences v block = 1%nat).
Proof.
  repeat (split; [by vm_compute|]).
  intros guess.
  destruct (construct_guess_list_order_block guess) as (block & Hb & _ & Honce).
  exists block. split; [done|]. intros v Hv. apply Honce. by right.
Qed.

End candidate_sequence.

(* ===================================================================== *)
(** ** The helper: explicit and implicit models *)
(* ===================================================================== *)

Section helper.
Context (h : handler).

Lemma guesses_error Pr Tr guess smart_guess e :
  run h (guesses Pr Tr guess smart_guess) = inl e -> exists s, e = CalleeError s.
Proof.
  destruct (construct_guess_list_order_block guess) as (block & Hb & _).
  destruct (guesses_run_log h Pr Tr _ _ Hb) as (Hoff & Hout & Hin).
  unfold run. destruct smart_guess.
  - destruct (kareem_range Pr Tr) as [[] Hr].
    + rewrite (Hin Hr). simpl. destruct (h float _) as [s|?]; [|done].
      intros [= <-]. by exists s.
    + by rewrite (Hout Hr).
  - by rewrite Hoff.
Qed.

Lemma helper_explicit Pr Tr f guess newton_kwargs smart_guess :
  run_log h (_calc_z_explicit_implicit_helper Pr Tr f "kareem" guess
                                              newton_kwargs smart_guess)
  = ([ev (ZCorrelation f Pr Tr)],
     match h float (ZCorrelation f Pr Tr) with
     | inl e => inl (CalleeError e)
     | inr Z => inr Z
     end).
Proof.
  unfold _calc_z_explicit_implicit_helper. simpl.
  by destruct (h float _).
Qed.

(** The value of an implicit solve is what one Newton attempt returned. *)
Lemma helper_implicit_value Pr Tr f name guess newton_kwargs smart_guess Z :
  py_in name ["kareem"] = false ->
  run h (_calc_z_explicit_implicit_helper Pr Tr f name guess newton_kwargs smart_guess)
  = inr Z ->
  exists x0, h float (newton_call f x0 Pr Tr newton_kwargs) = inr Z.
Proof.
  intros Hname. rewrite helper_implicit, run_bind by done.
  destruct (run h (guesses _ _ _ _)) as [e|gs]; [done|].
  intros HZ. apply try_guesses_value in HZ as (pre & x0 & post & _ & _ & Hx).
  by exists x0.
Qed.

(** The helper raises nothing but a collaborator's exception or the
    convergence failure. *)
Lemma helper_error Pr Tr f name guess newton_kwargs smart_guess e :
  run h (_calc_z_explicit_implicit_helper Pr Tr f name guess newton_kwargs smart_guess)
  = inl e ->
  (exists s, e = CalleeError s) \/ e = RuntimeError "Failed to converge".
Proof.
  unfold _calc_z_explicit_implicit_helper.
  destruct (py_in name ["kareem"]).
  - rewrite run_call. destruct (h float _) as [s|?]; [|done].
    intros [= <-]. left. by exists s.
  - unfold mbind, prog_bind. rewrite run_bind.
    destruct (run h (guesses _ _ _ _)) as [e'|gs] eqn:Eg.
    + intros [= <-]. left. by eapply guesses_error.
    + intros He. apply try_guesses_error in He as [-> _]. by right.
Qed.

Lemma construct_guess_list_order_at_least_ten guess block :
  _construct_guess_list_order guess = Some block -> (10 <= length block)%nat.
Proof.
  destruct (reordered_of_permutation guess) as (r & E & Hr).
  unfold _construct_guess_list_order. rewrite E. intros [= <-].
  change 10%nat with (length ladder).
  apply distinct_length_le; [apply ladder_distinct|].
  intros a Ha.
  destruct (list_set_holds (guess :: r) a) as (y & Hy & Ey).
  { right. apply list_elem_of_In. rewrite Hr. by apply list_elem_of_In. }
  exists y. split; [done | by apply py_eq_sym].
Qed.

(** Building the candidates either fails with the exception of the
    smart-guess evaluation, or gives at least ten candidates. *)
Lemma guesses_outcome Pr Tr guess smart_guess :
  (exists s,
      h float (ZCorrelation kareem Pr Tr) = inl s
      /\ run_log h (guesses Pr Tr guess smart_guess)
         = ([CalledZCorrelation kareem Pr Tr], inl (CalleeError s)))
  \/ (exists evs gs,
         run_log h (guesses Pr Tr guess smart_guess) = (evs, inr gs)
         /\ (10 <= length gs)%nat).
Proof.
  destruct (construct_guess_list_order_block guess) as (block & Hb & _).
  pose proof (construct_guess_list_order_at_least_ten _ _ Hb) as Hten.
  destruct (guesses_run_log h Pr Tr _ _ Hb) as (Hoff & Hout & Hin).
  destruct smart_guess.
  - destruct (kareem_range Pr Tr) as [[] Hr].
    + rewrite (Hin Hr). destruct (h float _) as [s|s]; [left; by exists s|].
      right. do 2 eexists. split; [done|]. simpl. lia.
    + right. rewrite (Hout Hr). do 2 eexists. split; [done|]. simpl. lia.
  - right. rewrite Hoff. do 2 eexists. split; [done|]. lia.
Qed.

(** A run of the loop: the attempts made and the result. *)
Lemma try_guesses_runs f Pr Tr newton_kwargs gs :
  (exists pre x0 post Z,
      gs = pre ++ x0 :: post
      /\ Forall (attempt_fails h f Pr Tr newton_kwargs) pre
      /\ h float (newton_call f x0 Pr Tr newton_kwargs) = inr Z
      /\ run_log h (try_guesses f Pr Tr newton_kwargs gs)
         = (newton_event f Pr Tr newton_kwargs <$> (pre ++ [x0]), inr Z))
  \/ (Forall (attempt_fails h f Pr Tr newton_kwargs) gs
      /\ run_log h (try_guesses f Pr Tr newton_kwargs gs)
         = (newton_event f Pr Tr newton_kwargs <$> gs,
            inl (RuntimeError "Failed to converge"))).
Proof.
  destruct (try_guesses_cases h f Pr Tr newton_kwargs gs)
    as [(pre & x0 & post & Z & -> & Hpre & Hx)|Hall].
  - left. exists pre, x0, post, Z. split; [done|]. split; [done|]. split; [done|].
    by apply try_guesses_first_success.
  - right. split; [done|]. by apply try_guesses_all_fail.
Qed.

(** The runs of the helper of an implicit model. *)
Lemma helper_implicit_runs Pr Tr f name guess newton_kwargs smart_guess :
  py_in name ["kareem"] = false ->
  (exists s,
      h float (ZCorrelation kareem Pr Tr) = inl s
      /\ run_log h (_calc_z_explicit_implicit_helper Pr Tr f name guess newton_kwargs
                                                     smart_guess)
         = ([CalledZCorrelation kareem Pr Tr], inl (CalleeError s)))
  \/ (exists gs,
         run h (guesses Pr Tr (default_guess Pr guess) (default_smart_guess smart_guess))
         = inr gs
         /\ (10 <= length gs)%nat
         /\ ((exists pre x0 post Z,
                 gs = pre ++ x0 :: post
                 /\ Forall (attempt_fails h f Pr Tr newton_kwargs) pre
                 /\ h float (newton_call f x0 Pr Tr newton_kwargs) = inr Z
                 /\ run_log h (_calc_z_explicit_implicit_helper Pr Tr f name guess
                                                                newton_kwargs smart_guess)
                    = (calls h (guesses Pr Tr (default_guess Pr guess)
                                        (default_smart_guess smart_guess))
                         ++ (newton_event f Pr Tr newton_kwargs <$> (pre ++ [x0])),
                       inr Z))
             \/ (Forall (attempt_fails h f Pr Tr newton_kwargs) gs
                 /\ run_log h (_calc_z_explicit_implicit_helper Pr Tr f name guess
                                                                newton_kwargs smart_guess)
                    = (calls h (guesses Pr Tr (default_guess Pr guess)
                                        (default_smart_guess smart_guess))
                         ++ (newton_event f Pr Tr newton_kwargs <$> gs),
                       inl (RuntimeError "Failed to converge"))))).
Proof.
  intros Hname. rewrite helper_implicit, run_log_bind by done.
  unfold run, calls.
  destruct (guesses_outcome Pr Tr (default_guess Pr guess)
                            (default_smart_guess smart_guess))
    as [(s & Hs & ->)|(evs & gs & -> & Hten)].
  - left. by exists s.
  - right. exists gs. split; [done|]. split; [done|]. cbn [fst snd].
    destruct (try_guesses_runs f Pr Tr newton_kwargs gs)
      as [(pre & x0 & post & Z & -> & Hpre & Hx & ->)|[Hall ->]].
    + left. by exists pre, x0, post, Z.
    + by right.
Qed.

(** Unless the smart-guess evaluation raises, the helper of an implicit
    model makes a Newton attempt. *)
Lemma helper_implicit_attempts Pr Tr f name guess newton_kwargs smart_guess :
  py_in name ["kareem"] = false ->
  (forall s, h float (ZCorrelation kareem Pr Tr) <> inl s) ->
  exists x0,
    In (newton_event f Pr Tr newton_kwargs x0)
       (calls h (_calc_z_explicit_implicit_helper Pr Tr f name guess newton_kwargs
                                                  smart_guess)).
Proof.
  intros Hname Hk.
  destruct (helper_implicit_runs Pr Tr f name guess newton_kwargs smart_guess Hname)
    as [(s & Hs & _)|(gs & _ & Hten & [(pre & x0 & post & Z & _ & _ & _ & E)|[_ E]])].
  - by destruct (Hk s).
  - exists x0. unfold calls at 1. rewrite E. cbn [fst].
    apply in_or_app. right. apply list_elem_of_In, list_elem_of_fmap_2.
    apply elem_of_app. right. by left.
  - destruct gs as [|x0 gs]; [simpl in Hten; lia|].
    exists x0. unfold calls at 1. rewrite E. cbn [fst].
    apply in_or_app. right. by left.
Qed.

End helper.

Section model_lookup.

(** A substring of a closed message, by position. *)
Ltac mentioned_at n m :=
  match goal with
  | |- mentions ?msg ?s =>
      exists (String.substring 0 n msg), (String.substring m (String.length msg) msg);
      vm_compute; reflexivity
  end.

Lemma zmodels_ks_mentions :
  Forall (mentions zmodels_ks) ["DAK"; "hall_yarborough"; "londono"; "kareem"].
Proof.
  repeat constructor.
  - mentioned_at 2%nat 5%nat.
  - mentioned_at 9%nat 24%nat.
  - mentioned_at 28%nat 35%nat.
  - mentioned_at 39%nat 45%nat.
Qed.

Lemma zmodel_not_implemented_lists model :
  exists pre, zmodel_not_implemented model = pre +:+ zmodels_ks.
Proof.
  unfold zmodel_not_implemented.
  exists ("Z-factor model " +:+ quoted model
            +:+ " is not implemented. Choose from the list of available models: ").
  by rewrite !append_assoc.
Qed.

Lemma get_z_model_unknown name :
  name ∉ ["DAK"; "hall_yarborough"; "londono"; "kareem"] ->
  _get_z_model name = Raise (KeyError (zmodel_not_implemented name)).
Proof.
  intros H. apply not_in_names in H as (H1 & H2 & H3 & H4).
  unfold _get_z_model. by rewrite models_lookup, H1, H2, H3, H4.
Qed.

(** C7. Model lookup succeeds for each of the four names.  ['kareem'] is
    the explicit model: the helper evaluates the correlation once and makes
    no other call, so no Newton attempt.  The other three are implicit and
    solved by Newton iterations: the helper builds at least ten candidates
    and runs the Newton loop over them; unless the evaluation of the smart
    guess raises, it makes a Newton attempt with the model's function from
    every candidate up to the first that converges, whose value it returns,
    and raises [RuntimeError("Failed to converge")] when every attempt
    fails; with the sample collaborators a solve with ['DAK'] takes four
    attempts.  For any other name the lookup, and with it [calc_z], raises
    the [KeyError] whose message ends with the list of the four valid
    names. *)
Theorem get_z_model_kinds :
  (_get_z_model "DAK" = Ret DAK
   /\ _get_z_model "hall_yarborough" = Ret hall_yarborough
   /\ _get_z_model "londono" = Ret londono
   /\ _get_z_model "kareem" = Ret kareem)
  /\ (forall h Pr Tr f guess newton_kwargs smart_guess,
         run_log h (_calc_z_explicit_implicit_helper Pr Tr f "kareem" guess
                                                     newton_kwargs smart_guess)
         = ([ev (ZCorrelation f Pr Tr)],
            match h float (ZCorrelation f Pr Tr) with
            | inl e => inl (CalleeError e)
            | inr Z => inr Z
            end))
  /\ (forall name,
         name ∈ ["DAK"; "hall_yarborough"; "londono"] ->
         forall h Pr Tr f guess newton_kwargs smart_guess,
           _calc_z_explicit_implicit_helper Pr Tr f name guess newton_kwargs smart_guess
           = bind (guesses Pr Tr (default_guess Pr guess)
                           (default_smart_guess smart_guess))
                  (try_guesses f Pr Tr newton_kwargs)
           /\ (forall Z,
                  run h (_calc_z_explicit_implicit_helper Pr Tr f name guess
                                                          newton_kwargs smart_guess)
                  = inr Z ->
                  exists x0, h float (newton_call f x0 Pr Tr newton_kwargs) = inr Z)
           /\ ((exists s,
                   h float (ZCorrelation kareem Pr Tr) = inl s
                   /\ run_log h (_calc_z_explicit_implicit_helper Pr Tr f name guess
                                                                  newton_kwargs smart_guess)
                      = ([CalledZCorrelation kareem Pr Tr], inl (CalleeError s)))
               \/ (exists gs,
                      run h (guesses Pr Tr (default_guess Pr guess)
                                     (default_smart_guess smart_guess)) = inr gs
                      /\ (10 <= length gs)%nat
                      /\ ((exists pre x0 post Z,
                              gs = pre ++ x0 :: post
                              /\ Forall (attempt_fails h f Pr Tr newton_kwargs) pre
                              /\ h float (newton_call f x0 Pr Tr newton_kwargs) = inr Z
                              /\ run_log h (_calc_z_explicit_implicit_helper
                                              Pr Tr f name guess newton_kwargs smart_guess)
                                 = (calls h (guesses Pr Tr (default_guess Pr guess)
                                                     (default_smart_guess smart_guess))
                                      ++ (newton_event f Pr Tr newton_kwargs
                                            <$> (pre ++ [x0])),
                                    inr Z))
                          \/ (Forall (attempt_fails h f Pr Tr newton_kwargs) gs
                              /\ run_log h (_calc_z_explicit_implicit_helper
                                              Pr Tr f name guess newton_kwargs smart_guess)
                                 = (calls h (guesses Pr Tr (default_guess Pr guess)
                                                     (default_smart_guess smart_guess))
                                      ++ (newton_event f Pr Tr newton_kwargs <$> gs),
                                    inl (RuntimeError "Failed to converge"))))))
           /\ ((forall s, h float (ZCorrelation kareem Pr Tr) <> inl s) ->
               exists x0,
                 In (newton_event f Pr Tr newton_kwargs x0)
                    (calls h (_calc_z_explicit_implicit_helper Pr Tr f name guess
                                                               newton_kwargs smart_guess))))
  /\ run_log sample_handler
             (_calc_z_explicit_implicit_helper 1.4 1.5 DAK "DAK" None None None)
     = ([CalledZCorrelation kareem 1.4 1.5;
         CalledNewton DAK 0.86 1.4 1.5 {[ "maxiter" := PyInt 50 ]};
         CalledNewton DAK 0.9 1.4 1.5 {[ "maxiter" := PyInt 50 ]};
         CalledNewton DAK 0.9 1.4 1.5 {[ "maxiter" := PyInt 50 ]};
         CalledNewton DAK 0.8 1.4 1.5 {[ "maxiter" := PyInt 50 ]}],
        inr 0.8)
  /\ run_log sample_handler
             (_calc_z_explicit_implicit_helper 1.4 1.5 kareem "kareem" None None None)
     = ([CalledZCorrelation kareem 1.4 1.5], inr 0.86)
  /\ (forall name,
         name ∉ ["DAK"; "hall_yarborough"; "londono"; "kareem"] ->
         _get_z_model name = Raise (KeyError (zmodel_not_implemented name))
         /\ (exists pre, zmodel_not_implemented name = pre +:+ zmodels_ks)
         /\ forall sg P T H2S CO2 N2 Pr Tr pmodel guess newton_kwargs smart_guess
                   ps_props ignore_conflict kwargs,
             calc_z sg P T H2S CO2 N2 Pr Tr pmodel name guess newton_kwargs
                    smart_guess ps_props ignore_conflict kwargs
             = Raise (KeyError (zmodel_not_implemented name)))
  /\ Forall (mentions zmodels_ks) ["DAK"; "hall_yarborough"; "londono"; "kareem"].
Proof.
  split; [by vm_compute|]. split; [apply helper_explicit|].
  split; [|split; [by vm_compute|split; [by vm_compute|]]].
  2: split; [|apply zmodels_ks_mentions].
  - intros name Hname h Pr Tr f guess newton_kwargs smart_guess.
    assert (Hk : py_in name ["kareem"] = false).
    { repeat (apply elem_of_cons in Hname as [->|Hname]; [done|]).
      by apply elem_of_nil in Hname. }
    split; [by apply helper_implicit|].
    split; [intros Z; by apply helper_implicit_value|].
    split; [by apply helper_implicit_runs | by apply helper_implicit_attempts].
  - intros name Hname. pose proof (get_z_model_unknown name Hname) as Hg.
    split; [done|]. split; [apply zmodel_not_implemented_lists|].
    intros. unfold calc_z, check_explicit_arguments, py_in. simpl existsb.
    apply not_in_names in Hname as (_ & _ & _ & ->). simpl.
    unfold mbind, prog_bind. cbn [bind]. by rewrite Hg.
Qed.

End model_lookup.

(* ===================================================================== *)
(** ** [calc_z] *)
(* ===================================================================== *)

Section dispatcher.

(** C1. With the explicit model ['kareem'], a call of [calc_z] that
    supplies [guess], [newton_kwargs] or [smart_guess] is the immediate
    [raise KeyError('calc_z(model="kareem") got an unexpected argument ...')]:
    the program is that [Raise] itself, so the failure comes before the model
    lookup, before any pseudo-critical reduction and before any call to a
    collaborator, whatever the other arguments are; so does
    [calc_z(zmodel="kareem", guess=0.5, ...)]. *)
Theorem calc_z_explicit_rejects_solver_arguments :
  forall (sg P T H2S CO2 N2 Pr Tr : option float) (pmodel : string)
         (guess : option float) (newton_kwargs : option (gmap string pyval))
         (smart_guess : option bool) (ps_props ignore_conflict : bool)
         (kwargs : gmap string pyval),
    (forall g,
        calc_z sg P T H2S CO2 N2 Pr Tr pmodel "kareem" (Some g) newton_kwargs
               smart_guess ps_props ignore_conflict kwargs
        = Raise (KeyError (unexpected_argument "kareem" "guess")))
    /\ (forall kw,
           calc_z sg P T H2S CO2 N2 Pr Tr pmodel "kareem" None (Some kw)
                  smart_guess ps_props ignore_conflict kwargs
           = Raise (KeyError (unexpected_argument "kareem" "newton_kwargs")))
    /\ (forall b,
           calc_z sg P T H2S CO2 N2 Pr Tr pmodel "kareem" None None
                  (Some b) ps_props ignore_conflict kwargs
           = Raise (KeyError (unexpected_argument "kareem" "smart_guess")))
    /\ (forall h : handler,
           guess <> None \/ newton_kwargs <> None \/ smart_guess <> None ->
           exists arg,
             arg ∈ ["guess"; "newton_kwargs"; "smart_guess"]
             /\ run_log h (calc_z sg P T H2S CO2 N2 Pr Tr pmodel "kareem" guess
                                  newton_kwargs smart_guess ps_props
                                  ignore_conflict kwargs)
                = ([], inl (KeyError (unexpected_argument "kareem" arg))))
    /\ calc_z sg P T H2S CO2 N2 Pr Tr pmodel "kareem" (Some 0.5) newton_kwargs
              smart_guess ps_props ignore_conflict kwargs
       = Raise (KeyError (unexpected_argument "kareem" "guess")).
Proof.
  intros. split; [done|]. split; [done|]. split; [done|]. split; [|done].
  intros h Hsome. destruct guess as [g|].
  { exists "guess". split; [by left | done]. }
  destruct newton_kwargs as [kw|].
  { exists "newton_kwargs". split; [right; by left | done]. }
  destruct smart_guess as [b|].
  { exists "smart_guess". split; [right; right; by left | done]. }
  by destruct Hsome as [?|[?|?]].
Qed.

(** C6. Without a guess, an implicit solve starts from 0.9 when [Pr < 15]
    and from 2.0 otherwise ([Pr] equal to 15 or above it): the helper, and
    [calc_z] with [Pr] and [Tr] given, behave as when that guess is passed.
    The Newton attempts of three solves without a guess show the default
    among the starting points: 2.0 for [Pr = 20] and [Pr = 16], 0.9 for
    [Pr = 1.5]. *)
Theorem helper_default_guess :
  forall (Pr Tr : float) (f : zfunc) (name : string)
         (newton_kwargs : option (gmap string pyval)) (smart_guess : option bool),
    _calc_z_explicit_implicit_helper Pr Tr f name None newton_kwargs smart_guess
    = _calc_z_explicit_implicit_helper Pr Tr f name
        (Some (if PyFloat.lt Pr 15 then 0.9 else 2)) newton_kwargs smart_guess
    /\ default_guess Pr None = (if PyFloat.lt Pr 15 then 0.9 else 2)
    /\ (forall g, default_guess Pr (Some g) = g)
    /\ default_guess 14.9 None = 0.9
    /\ default_guess 15 None = 2
    /\ default_guess 30 None = 2
    /\ calls sample_handler
             (_calc_z_explicit_implicit_helper 20 1.5 DAK "DAK" None None None)
       = newton_event DAK 20 1.5 None <$> [2; 0.9; 1; 2; 0.8]
    /\ calls sample_handler
             (_calc_z_explicit_implicit_helper 16 4 DAK "DAK" None None (Some false))
       = newton_event DAK 16 4 None <$> [0.9; 1; 2; 0.8]
    /\ calls sample_handler
             (_calc_z_explicit_implicit_helper 1.5 4 DAK "DAK" None None None)
       = newton_event DAK 1.5 4 None <$> [0.9; 0.9; 0.8]
    /\ (forall sg P T H2S CO2 N2 pmodel ps_props ignore_conflict kwargs,
           name ∈ ["DAK"; "hall_yarborough"; "londono"] ->
           calc_z sg P T H2S CO2 N2 (Some Pr) (Some Tr) pmodel name None
                  newton_kwargs smart_guess ps_props ignore_conflict kwargs
           = calc_z sg P T H2S CO2 N2 (Some Pr) (Some Tr) pmodel name
                    (Some (if PyFloat.lt Pr 15 then 0.9 else 2))
                    newton_kwargs smart_guess ps_props ignore_conflict kwargs).
Proof.
  intros. split; [done|]. split; [done|]. split; [done|].
  split; [by vm_compute|]. split; [by vm_compute|]. split; [by vm_compute|].
  split; [by vm_compute|]. split; [by vm_compute|]. split; [by vm_compute|].
  intros sg P T H2S CO2 N2 pmodel ps_props ignore_conflict kwargs Hname.
  repeat (apply elem_of_cons in Hname as [->|Hname]; [done|]).
  by apply elem_of_nil in Hname.
Qed.

Lemma check_explicit_arguments_cases zmodel guess newton_kwargs smart_guess :
  check_explicit_arguments zmodel guess newton_kwargs smart_guess = Ret tt
  \/ exists arg,
      check_explicit_arguments zmodel guess newton_kwargs smart_guess
      = Raise (KeyError (unexpected_argument zmodel arg)).
Proof.
  unfold check_explicit_arguments.
  destruct (py_in zmodel ["kareem"]); [|by left].
  destruct guess; [right; by eexists|].
  destruct newton_kwargs; [right; by eexists|].
  destruct smart_guess; [right; by eexists|]. by left.
Qed.

Lemma get_z_model_cases zmodel :
  (exists f, models !! zmodel = Some f /\ _get_z_model zmodel = Ret f)
  \/ _get_z_model zmodel = Raise (KeyError (zmodel_not_implemented zmodel)).
Proof.
  unfold _get_z_model. destruct (models !! zmodel) as [f|]; [left; by exists f | by right].
Qed.

Lemma try_guesses_calls h f Pr Tr newton_kwargs gs :
  Forall (fun e => is_reduction e = false)
         (calls h (try_guesses f Pr Tr newton_kwargs gs)).
Proof.
  unfold calls. induction gs as [|x0 gs IH]; [by constructor|].
  cbn [try_guesses run_log].
  assert (Hev : is_reduction (ev (newton_call f x0 Pr Tr newton_kwargs)) = false).
  { unfold newton_call. destruct newton_kwargs as [kw|]; [|done].
    by destruct (bool_decide _). }
  destruct (h float _) as [e|Z].
  - destruct (run_log h (try_guesses f Pr Tr newton_kwargs gs)) as [evs r].
    by constructor.
  - by repeat constructor.
Qed.

Lemma guesses_calls h Pr Tr guess smart_guess :
  Forall (fun e => is_reduction e = false) (calls h (guesses Pr Tr guess smart_guess)).
Proof.
  destruct (construct_guess_list_order_block guess) as (block & Hb & _).
  destruct (guesses_run_log h Pr Tr _ _ Hb) as (Hoff & Hout & Hin).
  unfold calls. destruct smart_guess.
  - destruct (kareem_range Pr Tr) as [[] Hr].
    + rewrite (Hin Hr). by repeat constructor.
    + rewrite (Hout Hr). by constructor.
  - rewrite Hoff. by constructor.
Qed.

(** The helper calls no pseudo-critical model. *)
Lemma helper_calls h Pr Tr f name guess newton_kwargs smart_guess :
  Forall (fun e => is_reduction e = false)
         (calls h (_calc_z_explicit_implicit_helper Pr Tr f name guess
                                                    newton_kwargs smart_guess)).
Proof.
  unfold _calc_z_explicit_implicit_helper. destruct (py_in name ["kareem"]).
  - unfold calls. simpl. destruct (h float _); by repeat constructor.
  - unfold mbind, prog_bind, calls. rewrite run_log_bind.
    pose proof (guesses_calls h Pr Tr (default_guess Pr guess)
                              (default_smart_guess smart_guess)) as Hg.
    unfold calls in Hg.
    destruct (run_log h (guesses _ _ _ _)) as [evs [e|gs]]; [done|].
    pose proof (try_guesses_calls h f Pr Tr newton_kwargs gs) as Ht.
    unfold calls in Ht.
    destruct (run_log h (try_guesses _ _ _ _ gs)) as [evs' r].
    apply Forall_app. by split.
Qed.

(** [calc_z] when [Pr] and [Tr] are both given: the checks, the lookup, the
    helper and the packaging of the result. *)
Lemma calc_z_given sg P T H2S CO2 N2 Pr Tr pmodel zmodel guess newton_kwargs
      smart_guess ps_props ignore_conflict kwargs :
  calc_z sg P T H2S CO2 N2 (Some Pr) (Some Tr) pmodel zmodel guess newton_kwargs
         smart_guess ps_props ignore_conflict kwargs
  = bind (check_explicit_arguments zmodel guess newton_kwargs smart_guess)
      (fun _ =>
         bind (_get_z_model zmodel)
           (fun z_model =>
              bind (_calc_z_explicit_implicit_helper Pr Tr z_model zmodel guess
                                                     newton_kwargs smart_guess)
                (fun Z =>
                   if ps_props
                   then Ret (Z_props (<["Tr" := PyFloat Tr]> (<["Pr" := PyFloat Pr]>
                                       {[ "z" := PyFloat Z ]})))
                   else Ret (Z_value Z)))).
Proof. reflexivity. Qed.

Lemma sutton_no_N2_not_unexpected zmodel arg :
  KeyError (unexpected_argument zmodel arg) <> KeyError sutton_no_N2.
Proof. intros E. vm_compute in E. discriminate. Qed.

Lemma sutton_no_N2_not_zmodel zmodel :
  KeyError (zmodel_not_implemented zmodel) <> KeyError sutton_no_N2.
Proof. intros E. vm_compute in E. discriminate. Qed.

(** C10. When [Pr] and [Tr] are both given, [calc_z] is the same program
    whatever [sg], [P], [T], [H2S], [CO2], [N2], [pmodel] and
    [ignore_conflict] are: two calls that differ only in them make the same
    calls and give the same result or the same exception.  No
    pseudo-critical model is called, and the [KeyError] of
    [pmodel='sutton'] with [N2] is never raised: with [pmodel='sutton'] and
    an [N2] the call returns, while the same call without [Pr] raises. *)
Theorem calc_z_given_reduced_state :
  forall (sg P T H2S CO2 N2 : option float) (pmodel : string) (ignore_conflict : bool)
         (sg' P' T' H2S' CO2' N2' : option float) (pmodel' : string)
         (ignore_conflict' : bool)
         (Pr Tr : float) (zmodel : string) (guess : option float)
         (newton_kwargs : option (gmap string pyval)) (smart_guess : option bool)
         (ps_props : bool) (kwargs : gmap string pyval),
    calc_z sg P T H2S CO2 N2 (Some Pr) (Some Tr) pmodel zmodel guess newton_kwargs
           smart_guess ps_props ignore_conflict kwargs
    = calc_z sg' P' T' H2S' CO2' N2' (Some Pr) (Some Tr) pmodel' zmodel guess
             newton_kwargs smart_guess ps_props ignore_conflict' kwargs
    /\ (forall h : handler,
           Forall (fun e => is_reduction e = false)
                  (calls h (calc_z sg P T H2S CO2 N2 (Some Pr) (Some Tr) pmodel zmodel
                                   guess newton_kwargs smart_guess ps_props
                                   ignore_conflict kwargs)))
    /\ (forall h : handler,
           run h (calc_z sg P T H2S CO2 N2 (Some Pr) (Some Tr) pmodel zmodel
                         guess newton_kwargs smart_guess ps_props
                         ignore_conflict kwargs)
           <> inl (KeyError sutton_no_N2))
    /\ run sample_handler
           (calc_z (Some 0.7) (Some 2010) (Some 75) None None (Some 0.05)
                   (Some 1.5) (Some 1.5) "sutton" "DAK" None None None false false ∅)
       = inr (Z_value 0.8)
    /\ calc_z (Some 0.7) (Some 2010) (Some 75) None None (Some 0.05)
              None (Some 1.5) "sutton" "DAK" None None None false false ∅
       = Raise (KeyError sutton_no_N2).
Proof.
  intros. split; [reflexivity|]. split; [|split; [|split; by vm_compute]].
  - intros h. rewrite calc_z_given. unfold calls. rewrite run_log_bind.
    destruct (check_explicit_arguments_cases zmodel guess newton_kwargs smart_guess)
      as [->|[arg ->]]; [|by constructor].
    cbn [run_log]. rewrite run_log_bind.
    destruct (get_z_model_cases zmodel) as [(f & _ & ->)| ->]; [|by constructor].
    cbn [run_log]. rewrite run_log_bind.
    pose proof (helper_calls h Pr Tr f zmodel guess newton_kwargs smart_guess) as Hh.
    unfold calls in Hh.
    destruct (run_log h (_calc_z_explicit_implicit_helper _ _ _ _ _ _ _))
      as [evs [e|Z]]; [done|].
    destruct ps_props; cbn [run_log]; by rewrite !app_nil_r.
  - intros h. rewrite calc_z_given, run_bind.
    destruct (check_explicit_arguments_cases zmodel guess newton_kwargs smart_guess)
      as [->|[arg ->]].
    2: { unfold run. simpl. intros E.
         apply (sutton_no_N2_not_unexpected zmodel arg). congruence. }
    unfold run at 1. cbn [run_log snd]. rewrite run_bind.
    destruct (get_z_model_cases zmodel) as [(f & _ & ->)| ->].
    2: { unfold run. simpl. intros E.
         apply (sutton_no_N2_not_zmodel zmodel). congruence. }
    unfold run at 1. cbn [run_log snd]. rewrite run_bind.
    destruct (run h (_calc_z_explicit_implicit_helper _ _ _ _ _ _ _)) as [e|Z] eqn:Eh.
    + apply helper_error in Eh as [[s ->]| ->]; discriminate.
    + by destruct ps_props.
Qed.

(** [calc_z] when [Pr] or [Tr] is missing. *)
Lemma calc_z_reduced sg P T H2S CO2 N2 Pr Tr pmodel zmodel guess newton_kwargs
      smart_guess ps_props ignore_conflict kwargs :
  Pr = None \/ Tr = None ->
  calc_z sg P T H2S CO2 N2 Pr Tr pmodel zmodel guess newton_kwargs
         smart_guess ps_props ignore_conflict kwargs
  = bind (check_explicit_arguments zmodel guess newton_kwargs smart_guess)
      (fun _ =>
         bind (_get_z_model zmodel)
           (fun z_model =>
              bind (reduce sg P T H2S CO2 N2 Pr Tr pmodel ignore_conflict kwargs)
                (fun pc_instance =>
                   bind (_calc_z_explicit_implicit_helper
                           (pc_Pr pc_instance) (pc_Tr pc_instance) z_model zmodel
                           guess newton_kwargs smart_guess)
                     (fun Z =>
                        if ps_props
                        then Ret (Z_props
                                    (<["Pr" := PyFloat (pc_Pr pc_instance)]>
                                       (<["Tr" := PyFloat (pc_Tr pc_instance)]>
                                          (pc_ps_props pc_instance
                                             ∪ {[ "z" := PyFloat Z ]}))))
                        else Ret (Z_value Z))))).
Proof. intros [-> | ->]; [|destruct Pr]; reflexivity. Qed.

Lemma reduce_unknown sg P T H2S CO2 N2 Pr Tr pmodel ignore_conflict kwargs :
  pmodel ∉ ["piper"; "sutton"] ->
  reduce sg P T H2S CO2 N2 Pr Tr pmodel ignore_conflict kwargs
  = Raise (KeyError (pmodel_not_implemented pmodel)).
Proof.
  intros H. unfold reduce.
  destruct (String.eqb_spec pmodel "piper") as [->|_]; [destruct H; by left|].
  destruct (String.eqb_spec pmodel "sutton") as [->|_]; [destruct H; right; by left|].
  done.
Qed.

Lemma reduce_sutton_N2 sg P T H2S CO2 n2 Pr Tr ignore_conflict kwargs :
  reduce sg P T H2S CO2 (Some n2) Pr Tr "sutton" ignore_conflict kwargs
  = Raise (KeyError sutton_no_N2).
Proof. reflexivity. Qed.

Lemma check_explicit_arguments_passes zmodel guess newton_kwargs smart_guess :
  (zmodel = "kareem" -> guess = None /\ newton_kwargs = None /\ smart_guess = None) ->
  check_explicit_arguments zmodel guess newton_kwargs smart_guess = Ret tt.
Proof.
  intros H. unfold check_explicit_arguments, py_in. simpl existsb.
  destruct (String.eqb_spec zmodel "kareem") as [E|_]; [|done].
  by destruct (H E) as (-> & -> & ->).
Qed.

Lemma get_z_model_known zmodel :
  zmodel ∈ ["DAK"; "hall_yarborough"; "londono"; "kareem"] ->
  exists f, _get_z_model zmodel = Ret f.
Proof.
  intros H. repeat (apply elem_of_cons in H as [->|H]; [by eexists|]).
  by apply elem_of_nil in H.
Qed.

(** C8 (as amended). In a call of [calc_z] where [Pr] and [Tr] are not
    both given, whose z-model name is one of the four and whose arguments
    pass the explicit-model check: a [pmodel] that is neither ['piper'] nor
    ['sutton'] raises the [KeyError] of the unknown pseudo-critical model,
    and [pmodel='sutton'] with an [N2] raises the [KeyError] of the
    unsupported [N2]; both before any call to a collaborator. *)
Theorem calc_z_pseudo_critical_errors :
  forall (sg P T H2S CO2 N2 Pr Tr : option float) (pmodel zmodel : string)
         (guess : option float) (newton_kwargs : option (gmap string pyval))
         (smart_guess : option bool) (ps_props ignore_conflict : bool)
         (kwargs : gmap string pyval),
    Pr = None \/ Tr = None ->
    zmodel ∈ ["DAK"; "hall_yarborough"; "londono"; "kareem"] ->
    (zmodel = "kareem" -> guess = None /\ newton_kwargs = None /\ smart_guess = None) ->
    (pmodel ∉ ["piper"; "sutton"] ->
     calc_z sg P T H2S CO2 N2 Pr Tr pmodel zmodel guess newton_kwargs smart_guess
            ps_props ignore_conflict kwargs
     = Raise (KeyError (pmodel_not_implemented pmodel)))
    /\ (pmodel = "sutton" -> N2 <> None ->
        calc_z sg P T H2S CO2 N2 Pr Tr pmodel zmodel guess newton_kwargs smart_guess
               ps_props ignore_conflict kwargs
        = Raise (KeyError sutton_no_N2)).
Proof.
  intros * Hmissing Hzmodel Hcheck.
  rewrite calc_z_reduced by done.
  rewrite (check_explicit_arguments_passes _ _ _ _ Hcheck).
  destruct (get_z_model_known zmodel Hzmodel) as [f ->]. cbn [bind].
  split.
  - intros Hp. by rewrite reduce_unknown.
  - intros -> HN2. destruct N2 as [n2|]; [|done]. by rewrite reduce_sutton_N2.
Qed.

Lemma calc_z_pseudo_critical_errors_witness :
  calc_z (Some 0.7) (Some 2010) (Some 75) None None (Some 0.05) None None
         "nonesuch" "DAK" None None None false false ∅
  = Raise (KeyError (pmodel_not_implemented "nonesuch"))
  /\ calc_z (Some 0.7) (Some 2010) (Some 75) None None (Some 0.05) None None
            "sutton" "kareem" None None None false false ∅
     = Raise (KeyError sutton_no_N2).
Proof.
  split.
  - apply (calc_z_pseudo_critical_errors
             (Some 0.7) (Some 2010) (Some 75) None None (Some 0.05) None None
             "nonesuch" "DAK" None None None false false ∅).
    + left. reflexivity.
    + apply elem_of_cons. left. reflexivity.
    + intros E. discriminate E.
    + intros E. apply elem_of_cons in E as [E|E]; [discriminate E|].
      apply elem_of_cons in E as [E|E]; [discriminate E|].
      apply elem_of_nil in E. exact E.
  - apply (calc_z_pseudo_critical_errors
             (Some 0.7) (Some 2010) (Some 75) None None (Some 0.05) None None
             "sutton" "kareem" None None None false false ∅).
    + left. reflexivity.
    + do 3 (apply elem_of_cons; right). apply elem_of_cons. left. reflexivity.
    + intros _. repeat split.
    + reflexivity.
    + intros E. discriminate E.
Defined.

(** C8 (as stated) fails when an earlier check fails first: with an
    unknown z-model the [KeyError] is the one of the z-model lookup, not the
    one of the unknown pseudo-critical model; and with ['kareem'] and a
    guess the [KeyError] is the one of the unexpected argument, not the one
    of [sutton] with [N2]. *)
Lemma calc_z_earlier_errors_come_first :
  calc_z None None None None None None None None
         "nonesuch" "nonexistent" None None None false false ∅
  = Raise (KeyError (zmodel_not_implemented "nonexistent"))
  /\ ("nonesuch" ∉ ["piper"; "sutton"])
  /\ KeyError (zmodel_not_implemented "nonexistent")
     <> KeyError (pmodel_not_implemented "nonesuch")
  /\ calc_z (Some 0.7) (Some 2010) (Some 75) None None (Some 0.05) None None
            "sutton" "kareem" (Some 0.5) None None false false ∅
     = Raise (KeyError (unexpected_argument "kareem" "guess"))
  /\ KeyError (unexpected_argument "kareem" "guess") <> KeyError sutton_no_N2.
Proof.
  split; [by vm_compute|]. split; [|split; [|split; [by vm_compute|]]].
  - intros E. repeat (apply elem_of_cons in E as [E|E]; [discriminate E|]).
    by apply elem_of_nil in E.
  - intros E. vm_compute in E. discriminate E.
  - apply sutton_no_N2_not_unexpected.
Qed.

Lemma run_ret {A} (h : handler) (a : A) : run h (Ret a) = inr a.
Proof. reflexivity. Qed.

Lemma run_raise {A} (h : handler) (e : exn) : run h (Raise e : prog A) = inl e.
Proof. reflexivity. Qed.

(** A reduced state comes from a pseudo-critical model. *)
Lemma reduce_value h sg P T H2S CO2 N2 Pr Tr pmodel ignore_conflict kwargs st :
  run h (reduce sg P T H2S CO2 N2 Pr Tr pmodel ignore_conflict kwargs) = inr st ->
  exists c kw, h pc_state (InitializeTrPr c kw) = inr st.
Proof.
  unfold reduce. destruct (String.eqb pmodel "piper").
  - rewrite run_call. destruct (h pc_state _) as [e|st'] eqn:E; [done|].
    intros [= <-]. eauto.
  - destruct (String.eqb pmodel "sutton"); [|done]. destruct N2; [done|].
    rewrite run_call. destruct (h pc_state _) as [e|st'] eqn:E; [done|].
    intros [= <-]. eauto.
Qed.

(** The two calls of [calc_z] that differ in [ps_props] only: they raise
    the same exception, or the one returns the bare [Z] and the other the
    dictionary that holds it. *)
Lemma calc_z_ps_props_outcomes :
  forall (h : handler) (sg P T H2S CO2 N2 Pr Tr : option float)
         (pmodel zmodel : string) (guess : option float)
         (newton_kwargs : option (gmap string pyval)) (smart_guess : option bool)
         (ignore_conflict : bool) (kwargs : gmap string pyval),
    bags_without_z h ->
    match run h (calc_z sg P T H2S CO2 N2 Pr Tr pmodel zmodel guess newton_kwargs
                        smart_guess false ignore_conflict kwargs) with
    | inl e =>
        run h (calc_z sg P T H2S CO2 N2 Pr Tr pmodel zmodel guess newton_kwargs
                      smart_guess true ignore_conflict kwargs) = inl e
    | inr r =>
        exists Z d Pr' Tr' z_model,
          r = Z_value Z
          /\ run h (calc_z sg P T H2S CO2 N2 Pr Tr pmodel zmodel guess newton_kwargs
                          smart_guess true ignore_conflict kwargs) = inr (Z_props d)
          /\ d !! "z" = Some (PyFloat Z)
          /\ d !! "Tr" = Some (PyFloat Tr')
          /\ d !! "Pr" = Some (PyFloat Pr')
          /\ reduced_state h sg P T H2S CO2 N2 Pr Tr pmodel ignore_conflict kwargs
             = Some (Pr', Tr')
          /\ _get_z_model zmodel = Ret z_model
          /\ run h (_calc_z_explicit_implicit_helper Pr' Tr' z_model zmodel guess
                                                     newton_kwargs smart_guess)
             = inr Z
    end.
Proof.
  intros * Hbags.
  assert (Hcases : (exists pr tr, Pr = Some pr /\ Tr = Some tr) \/ (Pr = None \/ Tr = None)).
  { destruct Pr, Tr; eauto. }
  destruct Hcases as [(pr & tr & -> & ->)|Hmissing].
  - rewrite !calc_z_given, !run_bind.
    destruct (check_explicit_arguments_cases zmodel guess newton_kwargs smart_guess)
      as [->|[arg ->]]; [|done].
    rewrite !run_ret; cbv beta iota. rewrite ?run_bind.
    destruct (get_z_model_cases zmodel) as [(f & _ & Hf)|Hf]; rewrite ?Hf; [|done].
    rewrite ?run_ret; cbv beta iota; rewrite ?run_bind.
    destruct (run h (_calc_z_explicit_implicit_helper _ _ _ _ _ _ _)) as [e|Z] eqn:EZ;
      [done|].
    cbv beta iota. rewrite ?run_ret. exists Z. eexists. exists pr, tr, f.
    split; [done|]. split; [done|].
    split; [|split; [|split; [|split; [|split]]]].
    + rewrite !lookup_insert_ne by done. by rewrite lookup_singleton_eq.
    + by rewrite lookup_insert_eq.
    + rewrite lookup_insert_ne by done. by rewrite lookup_insert_eq.
    + reflexivity.
    + reflexivity.
    + exact EZ.
  - rewrite !calc_z_reduced, !run_bind by done.
    destruct (check_explicit_arguments_cases zmodel guess newton_kwargs smart_guess)
      as [->|[arg ->]]; [|done].
    rewrite ?run_ret; cbv beta iota; rewrite ?run_bind.
    destruct (get_z_model_cases zmodel) as [(f & _ & Hf)|Hf]; rewrite ?Hf; [|done].
    rewrite ?run_ret; cbv beta iota; rewrite ?run_bind.
    destruct (run h (reduce _ _ _ _ _ _ _ _ _ _ _)) as [e|st] eqn:Est; [done|].
    cbv beta iota. rewrite ?run_bind.
    destruct (run h (_calc_z_explicit_implicit_helper _ _ _ _ _ _ _)) as [e|Z] eqn:EZ;
      [done|].
    cbv beta iota. rewrite ?run_ret. exists Z. eexists. exists (pc_Pr st), (pc_Tr st), f.
    split; [done|]. split; [done|].
    destruct (reduce_value _ _ _ _ _ _ _ _ _ _ _ _ _ Est) as (c & kw & Hc).
    pose proof (Hbags c kw st Hc) as Hz.
    split; [|split; [|split; [|split; [|split]]]].
    + rewrite !lookup_insert_ne by done.
      rewrite lookup_union_r by exact Hz. by rewrite lookup_singleton_eq.
    + rewrite lookup_insert_ne by done. by rewrite lookup_insert_eq.
    + by rewrite lookup_insert_eq.
    + unfold reduced_state. rewrite Est.
      destruct Hmissing as [-> | ->]; [reflexivity|]. destruct Pr; reflexivity.
    + reflexivity.
    + exact EZ.
Qed.

Lemma sample_bags_without_z : bags_without_z sample_handler.
Proof. intros c kw st E. injection E as <-. reflexivity. Qed.

Lemma reduced_state_given h sg P T H2S CO2 N2 (pr tr : float) pmodel ignore_conflict kwargs :
  reduced_state h sg P T H2S CO2 N2 (Some pr) (Some tr) pmodel ignore_conflict kwargs
  = Some (pr, tr).
Proof. reflexivity. Qed.

Lemma reduced_state_reduced h sg P T H2S CO2 N2 Pr Tr pmodel ignore_conflict kwargs :
  Pr = None \/ Tr = None ->
  reduced_state h sg P T H2S CO2 N2 Pr Tr pmodel ignore_conflict kwargs
  = match run h (reduce sg P T H2S CO2 N2 Pr Tr pmodel ignore_conflict kwargs) with
    | inr st => Some (pc_Pr st, pc_Tr st)
    | inl _ => None
    end.
Proof. intros [-> | ->]; [|destruct Pr]; reflexivity. Qed.

(** When the checks pass, the reduced state is resolved and the helper
    returns [Z] at it, [calc_z] returns: the bare [Z], or the dictionary. *)
Lemma calc_z_returns h sg P T H2S CO2 N2 Pr Tr pmodel zmodel guess newton_kwargs
      smart_guess ignore_conflict kwargs f Pr' Tr' Z :
  bags_without_z h ->
  check_explicit_arguments zmodel guess newton_kwargs smart_guess = Ret tt ->
  _get_z_model zmodel = Ret f ->
  reduced_state h sg P T H2S CO2 N2 Pr Tr pmodel ignore_conflict kwargs
  = Some (Pr', Tr') ->
  run h (_calc_z_explicit_implicit_helper Pr' Tr' f zmodel guess newton_kwargs smart_guess)
  = inr Z ->
  run h (calc_z sg P T H2S CO2 N2 Pr Tr pmodel zmodel guess newton_kwargs
                smart_guess false ignore_conflict kwargs) = inr (Z_value Z)
  /\ exists d,
      run h (calc_z sg P T H2S CO2 N2 Pr Tr pmodel zmodel guess newton_kwargs
                    smart_guess true ignore_conflict kwargs) = inr (Z_props d)
      /\ d !! "z" = Some (PyFloat Z)
      /\ d !! "Tr" = Some (PyFloat Tr')
      /\ d !! "Pr" = Some (PyFloat Pr').
Proof.
  intros Hbags Hcheck Hget Hstate HZ.
  assert (Hcases : (exists pr tr, Pr = Some pr /\ Tr = Some tr) \/ (Pr = None \/ Tr = None)).
  { destruct Pr, Tr; eauto. }
  destruct Hcases as [(pr & tr & -> & ->)|Hmissing].
  - rewrite reduced_state_given in Hstate. injection Hstate as -> ->.
    rewrite !calc_z_given, !run_bind, Hcheck, !run_ret. cbv beta iota.
    rewrite ?run_bind, Hget, ?run_ret. cbv beta iota.
    rewrite ?run_bind, HZ. cbv beta iota. rewrite ?run_ret.
    split; [done|]. eexists. split; [done|]. split; [|split].
    + rewrite !lookup_insert_ne by done. by rewrite lookup_singleton_eq.
    + by rewrite lookup_insert_eq.
    + rewrite lookup_insert_ne by done. by rewrite lookup_insert_eq.
  - rewrite reduced_state_reduced in Hstate by done.
    destruct (run h (reduce _ _ _ _ _ _ _ _ _ _ _)) as [e|st] eqn:Est; [done|].
    injection Hstate as <- <-.
    rewrite !calc_z_reduced, !run_bind, Hcheck, !run_ret by done. cbv beta iota.
    rewrite ?run_bind, Hget, ?run_ret. cbv beta iota.
    rewrite ?run_bind, Est. cbv beta iota.
    rewrite ?run_bind, HZ. cbv beta iota. rewrite ?run_ret.
    split; [done|]. eexists. split; [done|].
    destruct (reduce_value _ _ _ _ _ _ _ _ _ _ _ _ _ Est) as (c & kw & Hc).
    pose proof (Hbags c kw st Hc) as Hz.
    split; [|split].
    + rewrite !lookup_insert_ne by done.
      rewrite lookup_union_r by exact Hz. by rewrite lookup_singleton_eq.
    + rewrite lookup_insert_ne by done. by rewrite lookup_insert_eq.
    + by rewrite lookup_insert_eq.
Qed.

(** C9. With [ps_props=True], [calc_z] returns a dictionary whose ['z'] is
    the bare [Z] that the same call returns with [ps_props=False], and whose
    ['Tr'] and ['Pr'] are the reduced state the call resolved and passed to
    the helper that computed [Z]; with [ps_props=False] the bare [Z] is
    returned.  Both calls do return whenever the arguments pass the
    explicit-model check, the z-model is registered, the reduced state is
    resolved and the helper returns at it; a call that returns was of that
    kind; and the two calls raise the same exceptions.  The property bags
    of the pseudo-critical models are taken to have no key ['z'] of their
    own. *)
Theorem calc_z_ps_props :
  forall (h : handler) (sg P T H2S CO2 N2 Pr Tr : option float)
         (pmodel zmodel : string) (guess : option float)
         (newton_kwargs : option (gmap string pyval)) (smart_guess : option bool)
         (ignore_conflict : bool) (kwargs : gmap string pyval),
    bags_without_z h ->
    (forall (f : zfunc) (Pr' Tr' Z : float),
        check_explicit_arguments zmodel guess newton_kwargs smart_guess = Ret tt ->
        _get_z_model zmodel = Ret f ->
        reduced_state h sg P T H2S CO2 N2 Pr Tr pmodel ignore_conflict kwargs
        = Some (Pr', Tr') ->
        run h (_calc_z_explicit_implicit_helper Pr' Tr' f zmodel guess newton_kwargs
                                                smart_guess) = inr Z ->
        run h (calc_z sg P T H2S CO2 N2 Pr Tr pmodel zmodel guess newton_kwargs
                      smart_guess false ignore_conflict kwargs) = inr (Z_value Z)
        /\ exists d,
            run h (calc_z sg P T H2S CO2 N2 Pr Tr pmodel zmodel guess newton_kwargs
                          smart_guess true ignore_conflict kwargs) = inr (Z_props d)
            /\ d !! "z" = Some (PyFloat Z)
            /\ d !! "Tr" = Some (PyFloat Tr')
            /\ d !! "Pr" = Some (PyFloat Pr'))
    /\ (forall r,
           run h (calc_z sg P T H2S CO2 N2 Pr Tr pmodel zmodel guess newton_kwargs
                         smart_guess true ignore_conflict kwargs) = inr r ->
           exists d Z Pr' Tr' f,
             r = Z_props d
             /\ run h (calc_z sg P T H2S CO2 N2 Pr Tr pmodel zmodel guess newton_kwargs
                              smart_guess false ignore_conflict kwargs)
                = inr (Z_value Z)
             /\ d !! "z" = Some (PyFloat Z)
             /\ d !! "Tr" = Some (PyFloat Tr')
             /\ d !! "Pr" = Some (PyFloat Pr')
             /\ reduced_state h sg P T H2S CO2 N2 Pr Tr pmodel ignore_conflict kwargs
                = Some (Pr', Tr')
             /\ _get_z_model zmodel = Ret f
             /\ run h (_calc_z_explicit_implicit_helper Pr' Tr' f zmodel guess
                                                        newton_kwargs smart_guess)
                = inr Z)
    /\ (forall r,
           run h (calc_z sg P T H2S CO2 N2 Pr Tr pmodel zmodel guess newton_kwargs
                         smart_guess false ignore_conflict kwargs) = inr r ->
           exists Z Pr' Tr' f,
             r = Z_value Z
             /\ reduced_state h sg P T H2S CO2 N2 Pr Tr pmodel ignore_conflict kwargs
                = Some (Pr', Tr')
             /\ _get_z_model zmodel = Ret f
             /\ run h (_calc_z_explicit_implicit_helper Pr' Tr' f zmodel guess
                                                        newton_kwargs smart_guess)
                = inr Z)
    /\ (forall e,
           run h (calc_z sg P T H2S CO2 N2 Pr Tr pmodel zmodel guess newton_kwargs
                         smart_guess false ignore_conflict kwargs) = inl e
           <-> run h (calc_z sg P T H2S CO2 N2 Pr Tr pmodel zmodel guess newton_kwargs
                             smart_guess true ignore_conflict kwargs) = inl e).
Proof.
  intros * Hbags.
  split; [intros f Pr' Tr' Z; by apply calc_z_returns|].
  pose proof (calc_z_ps_props_outcomes h sg P T H2S CO2 N2 Pr Tr pmodel zmodel guess
                newton_kwargs smart_guess ignore_conflict kwargs Hbags) as Hout.
  destruct (run h (calc_z sg P T H2S CO2 N2 Pr Tr pmodel zmodel guess newton_kwargs
                          smart_guess false ignore_conflict kwargs)) as [e0|r0].
  - split; [|split].
    + intros r Hr. rewrite Hout in Hr. discriminate Hr.
    + intros r Hr. discriminate Hr.
    + intros e. rewrite Hout. split; by intros [= <-].
  - destruct Hout as (Z & d & Pr' & Tr' & f & -> & Htrue & Hz & HTr & HPr & Hst & Hf & HZ).
    split; [|split].
    + intros r Hr. rewrite Htrue in Hr. injection Hr as <-.
      exists d, Z, Pr', Tr', f. repeat (split; [done|]). done.
    + intros r [= <-]. exists Z, Pr', Tr', f. repeat (split; [done|]). done.
    + intros e. rewrite Htrue. split; intros He; discriminate He.
Qed.

Lemma calc_z_ps_props_witness :
  bags_without_z sample_handler
  /\ run sample_handler
         (calc_z (Some 0.7) (Some 2010) (Some 75) None None None None None
                 "piper" "DAK" None None None false false ∅)
     = inr (Z_value 0.8)
  /\ exists d,
      run sample_handler
          (calc_z (Some 0.7) (Some 2010) (Some 75) None None None None None
                  "piper" "DAK" None None None true false ∅)
      = inr (Z_props d)
      /\ d !! "z" = Some (PyFloat 0.8)
      /\ d !! "Tr" = Some (PyFloat 1.5)
      /\ d !! "Pr" = Some (PyFloat 1.4).
Proof.
  pose proof (calc_z_ps_props sample_handler (Some 0.7) (Some 2010) (Some 75)
                              None None None None None "piper" "DAK" None None None
                              false ∅ sample_bags_without_z) as H.
  destruct H as [Hreturns _].
  assert (H1 : check_explicit_arguments "DAK" None None None = Ret tt) by reflexivity.
  assert (H2 : _get_z_model "DAK" = Ret DAK) by (vm_compute; reflexivity).
  assert (H3 : reduced_state sample_handler (Some 0.7) (Some 2010) (Some 75) None None
                             None None None "piper" false ∅ = Some (1.4, 1.5))
    by (vm_compute; reflexivity).
  assert (H4 : run sample_handler
                   (_calc_z_explicit_implicit_helper 1.4 1.5 DAK "DAK" None None None)
               = inr 0.8) by (vm_compute; reflexivity).
  pose proof (Hreturns DAK 1.4 1.5 0.8 H1 H2 H3 H4) as H.
  split; [exact sample_bags_without_z | exact H].
Defined.

End dispatcher.

(* ===================================================================== *)
(** ** The order of floats *)
(* ===================================================================== *)

Section float_order.

Ltac compare_cases :=
  repeat match goal with
         | |- context [Z.compare ?a ?b] => destruct (Z.compare_spec a b)
         | |- context [Pos.compare_cont Eq ?a ?b] =>
             change (Pos.compare_cont Eq a b) with (Pos.compare a b);
             destruct (Pos.compare_spec a b)
         end.

Lemma SFleb_trans a b c :
  SFleb a b = true -> SFleb b c = true -> SFleb a c = true.
Proof.
  unfold SFleb, SFcompare.
  destruct a as [[]|[]| |[] m1 e1], b as [[]|[]| |[] m2 e2], c as [[]|[]| |[] m3 e3];
    try done; compare_cases; simpl; try done; try lia.
Qed.

Lemma SFleb_total a b :
  a <> S754_nan -> b <> S754_nan -> SFltb a b = false -> SFleb b a = true.
Proof.
  unfold SFleb, SFltb, SFcompare.
  destruct a as [[]|[]| |[] m1 e1], b as [[]|[]| |[] m2 e2];
    try done; compare_cases; simpl; try done; try lia.
Qed.

Lemma float_le_trans x y z :
  PyFloat.le x y = true -> PyFloat.le y z = true -> PyFloat.le x z = true.
Proof. unfold PyFloat.le. rewrite !FloatAxioms.leb_spec. apply SFleb_trans. Qed.

Lemma float_le_total x y :
  is_number x -> is_number y -> PyFloat.lt x y = false -> PyFloat.le y x = true.
Proof.
  unfold PyFloat.le, PyFloat.lt, is_number.
  rewrite FloatAxioms.leb_spec, FloatAxioms.ltb_spec. apply SFleb_total.
Qed.

Lemma float_lt_le x y : PyFloat.lt x y = true -> PyFloat.le x y = true.
Proof.
  unfold PyFloat.le, PyFloat.lt. rewrite FloatAxioms.leb_spec, FloatAxioms.ltb_spec.
  unfold SFleb, SFltb. by destruct (SFcompare _ _) as [[]|].
Qed.

Lemma float_le_refl x : is_number x -> PyFloat.le x x = true.
Proof.
  unfold PyFloat.le, is_number. rewrite FloatAxioms.leb_spec.
  unfold SFleb, SFcompare. destruct (Prim2SF x) as [[]|[]| |[] m e]; try done;
    intros _; rewrite Z.compare_refl;
    change (Pos.compare_cont Eq m m) with (Pos.compare m m);
    by rewrite Pos.compare_refl.
Qed.

(** Only numbers are compared as smaller or equal. *)
Lemma float_le_number x y : PyFloat.le x y = true -> is_number x /\ is_number y.
Proof.
  unfold PyFloat.le, is_number. rewrite FloatAxioms.leb_spec. unfold SFleb, SFcompare.
  destruct (Prim2SF x) as [[]|[]| |[] m e], (Prim2SF y) as [[]|[]| |[] m' e']; done.
Qed.

Lemma nan_is_no_number : ~ is_number nan.
Proof. intros H. apply H. reflexivity. Qed.

End float_order.

(* ===================================================================== *)
(** ** The loop of [_construct_guess_list_order] and the size of its result *)
(* ===================================================================== *)

Section proximity_order.
Import PyFloat PySet.

(** [min(l, key=key)] returns an element whose key is least, when the keys
    are numbers. *)
Lemma py_min_from_least key best l :
  (forall x, In x (best :: l) -> is_number (key x)) ->
  forall x, In x (best :: l) -> le (key (py_min_from key best l)) (key x) = true.
Proof.
  revert best. induction l as [|y l IH]; intros best Hnum x Hx.
  - destruct Hx as [<-|[]]. apply float_le_refl, Hnum. by left.
  - cbn [py_min_from]. destruct (lt (key y) (key best)) eqn:E.
    + assert (Hy : forall z, In z (y :: l) -> is_number (key z)).
      { intros z Hz. apply Hnum. by right. }
      destruct Hx as [<-|Hx].
      * eapply float_le_trans; [apply (IH y Hy y); by left | by apply float_lt_le].
      * by apply IH.
    + assert (Hb : forall z, In z (best :: l) -> is_number (key z)).
      { intros z [<-|Hz]; apply Hnum; [by left | by right; right]. }
      destruct Hx as [<-|[<-|Hx]].
      * apply IH; [done | by left].
      * eapply float_le_trans; [apply (IH best Hb best); by left|].
        apply float_le_total; [| |done]; apply Hnum; [by right; left | by left].
      * apply IH; [done | by right].
Qed.

Lemma by_proximity_cons guess m r :
  (forall y, In y r -> le (distance guess m) (distance guess y) = true) ->
  by_proximity guess r = true -> by_proximity guess (m :: r) = true.
Proof.
  intros Hm Hr. destruct r as [|y r]; [done|].
  cbn [by_proximity]. rewrite Hm by (by left). done.
Qed.

(** The loop appends the elements of [t] by non-decreasing distance. *)
Lemma reorder_loop_by_proximity fuel guess : forall t reordered,
  distinct t = true -> (length t <= fuel)%nat ->
  (forall x, In x t -> is_number (distance guess x)) ->
  exists r, reorder_loop fuel guess t reordered = Some (reordered ++ r)
            /\ r ≡ₚ t /\ by_proximity guess r = true.
Proof.
  induction fuel as [|fuel IH]; intros t acc Hd Hlen Hnum.
  - destruct t; [|simpl in Hlen; lia]. exists []. by rewrite app_nil_r.
  - destruct t as [|x t]; [exists []; by rewrite app_nil_r|].
    cbn [reorder_loop py_min mbind option_bind].
    set (m := py_min_from (distance guess) x t).
    assert (Hm : In m (x :: t)).
    { destruct (py_min_from_in (distance guess) x t) as [E|E]; [left|right]; done. }
    destruct (py_index_distinct _ _ Hd Hm) as (i & Ei & Hi).
    rewrite Ei. cbn [mbind option_bind].
    pose proof (delete_Permutation _ _ _ Hi) as Hp.
    destruct (IH (delete i (x :: t)) (acc ++ [m])) as (r & Er & Hr & Hs).
    + by apply distinct_delete.
    + pose proof (lookup_lt_Some _ _ _ Hi) as Hlt.
      rewrite length_delete by eauto. simpl in *. lia.
    + intros y Hy. apply Hnum. apply list_elem_of_In.
      eapply list_elem_of_delete_inv. by apply list_elem_of_In.
    + exists (m :: r). split; [|split].
      * rewrite Er. f_equal. by rewrite <- app_assoc.
      * rewrite Hr. by symmetry.
      * apply by_proximity_cons; [|done]. intros y Hy.
        apply py_min_from_least; [done|].
        apply list_elem_of_In. rewrite Hp. right. rewrite <- Hr.
        by apply list_elem_of_In.
Qed.

(** X2. The [while] loop of [_construct_guess_list_order] does what the
    docstring says: when the distances of the ladder values from the guess
    are numbers, the list [reordered] it builds is the guess followed by the
    ten ladder values, each once, at non-decreasing distance from the
    guess.  (The function then returns [list(set(reordered))], which does
    not keep that order.) *)
Theorem reordered_by_proximity :
  forall guess : float,
    (forall x, In x ladder -> is_number (distance guess x)) ->
    exists r, reordered_of guess = Some (guess :: r)
              /\ r ≡ₚ ladder /\ by_proximity guess r = true.
Proof.
  intros guess Hnum.
  destruct (reorder_loop_by_proximity (length ladder) guess ladder [guess]
              ladder_distinct) as (r & E & Hr & Hs); [done|done|].
  by exists r.
Qed.

Lemma reordered_by_proximity_witness :
  (forall x, In x ladder -> is_number (distance 0.33 x))
  /\ exists r, reordered_of 0.33 = Some (0.33 :: r)
               /\ r ≡ₚ ladder /\ by_proximity 0.33 r = true.
Proof.
  assert (H : forall x, In x ladder -> is_number (distance 0.33 x)).
  { intros x Hx. unfold ladder in Hx. simpl in Hx.
    repeat (destruct Hx as [<-|Hx]; [vm_compute; discriminate|]). destruct Hx. }
  split; [exact H|]. exact (reordered_by_proximity 0.33 H).
Defined.

Lemma existsb_py_eq_false guess l :
  existsb (fun v => py_eq v guess) l = false <->
  forall v, In v l -> py_eq v guess = false.
Proof.
  induction l as [|x l IH]; simpl; [done|].
  rewrite orb_false_iff, IH. split.
  - intros [Hx Hl] v [<-|Hv]; auto.
  - intros H. split; [apply H; by left|]. intros v Hv. apply H. by right.
Qed.

(** [list(set([guess] + r))] for a list [r] of the ladder values has ten
    elements when the guess equals a ladder value and eleven when it does
    not. *)
Lemma list_set_ladder_length guess r :
  r ≡ₚ ladder ->
  length (list_set (guess :: r))
  = (if existsb (fun v => py_eq v guess) ladder then 10 else 11)%nat.
Proof.
  intros Hr.
  assert (Hin : forall y, In y r <-> In y ladder).
  { intros y. rewrite <- !list_elem_of_In. by rewrite Hr. }
  set (B := if existsb (fun v => py_eq v guess) ladder then ladder else guess :: ladder).
  assert (HB : distinct B = true).
  { subst B. destruct (existsb _ ladder) eqn:Ex; [apply ladder_distinct|].
    apply distinct_cons. split; [|apply ladder_distinct].
    intros y Hy. pose proof (proj1 (existsb_py_eq_false _ _) Ex y Hy) as Hf.
    split; [by apply py_eq_false_sym | done]. }
  assert (HlenB : length B
                  = (if existsb (fun v => py_eq v guess) ladder then 10 else 11)%nat).
  { subst B. by destruct (existsb _ ladder). }
  rewrite <- HlenB. apply Nat.le_antisymm.
  - apply distinct_length_le; [apply list_set_distinct|].
    intros y Hy. apply list_set_from in Hy.
    assert (Hl : In y ladder -> exists b, In b B /\ py_eq y b = true).
    { intros Hl. exists y. split; [|apply py_eq_refl].
      subst B. destruct (existsb _ ladder); [done | by right]. }
    destruct Hy as [<-|Hy]; [|by apply Hl, Hin].
    subst B. destruct (existsb _ ladder) eqn:Ex.
    + apply existsb_exists in Ex as (v & Hv & Ev). exists v.
      split; [done | by apply py_eq_sym].
    + exists guess. split; [by left | apply py_eq_refl].
  - apply distinct_length_le; [done|].
    intros b Hb.
    assert (Hb' : In b (guess :: r)).
    { subst B. destruct (existsb _ ladder).
      - right. by apply Hin.
      - destruct Hb as [<-|Hb]; [by left | right; by apply Hin]. }
    destruct (list_set_holds _ _ Hb') as (y & Hy & Ey).
    exists y. split; [done | by apply py_eq_sym].
Qed.

(** X1. [_construct_guess_list_order] returns for every guess, NaN and
    the infinities included (neither [min] nor [index] raises); no two
    elements of the returned list are equal, and the list has ten elements
    when the guess equals one of the ladder values 0.1, ..., 1.0 and eleven
    when it does not. *)
Theorem construct_guess_list_order_length :
  forall guess : float,
  exists block,
    _construct_guess_list_order guess = Some block
    /\ distinct block = true
    /\ length block
       = (if existsb (fun v => py_eq v guess) ladder then 10 else 11)%nat.
Proof.
  intros guess.
  destruct (reordered_of_permutation guess) as (r & E & Hr).
  exists (list_set (guess :: r)). unfold _construct_guess_list_order.
  rewrite E. split; [done|]. split.
  - apply list_set_distinct.
  - by apply list_set_ladder_length.
Qed.

End proximity_order.

(* ===================================================================== *)
(** ** How many calls a solve makes *)
(* ===================================================================== *)

Section attempts.
Import PyFloat PySet.
Context (h : handler).

Lemma attempt_no_evaluation e : is_attempt e = true -> is_evaluation e = false.
Proof. by destruct e. Qed.

Lemma try_guesses_attempts f Pr Tr newton_kwargs gs :
  (length (calls h (try_guesses f Pr Tr newton_kwargs gs)) <= length gs)%nat
  /\ Forall (fun e => is_attempt e = true)
            (calls h (try_guesses f Pr Tr newton_kwargs gs)).
Proof.
  unfold calls. induction gs as [|x0 gs [IHl IHa]]; [by split; [|constructor]|].
  cbn [try_guesses run_log].
  assert (Hev : is_attempt (ev (newton_call f x0 Pr Tr newton_kwargs)) = true).
  { unfold newton_call. destruct newton_kwargs as [kw|]; [|done].
    by destruct (bool_decide _). }
  destruct (h float _) as [e|Z].
  - destruct (run_log h (try_guesses f Pr Tr newton_kwargs gs)) as [evs r].
    simpl in *. split; [lia | by constructor].
  - simpl. split; [lia | by repeat constructor].
Qed.

(** The list [guesses] has at most thirteen candidates, and building it
    makes at most one call, which is no Newton attempt. *)
Lemma guesses_size Pr Tr guess smart_guess :
  (length (calls h (guesses Pr Tr guess smart_guess)) <= 1)%nat
  /\ Forall (fun e => is_attempt e = false) (calls h (guesses Pr Tr guess smart_guess))
  /\ forall gs, run h (guesses Pr Tr guess smart_guess) = inr gs ->
                (length gs <= 13)%nat.
Proof.
  destruct (reordered_of_permutation guess) as (r & E & Hr).
  assert (Hb : _construct_guess_list_order guess = Some (list_set (guess :: r)))
    by (unfold _construct_guess_list_order; by rewrite E).
  pose proof (list_set_ladder_length guess r Hr) as Hlen.
  assert (length (list_set (guess :: r)) <= 11)%nat
    by (rewrite Hlen; destruct (existsb _ _); lia).
  destruct (guesses_run_log h Pr Tr _ _ Hb) as (Hoff & Hout & Hin).
  unfold calls, run. destruct smart_guess.
  - destruct (kareem_range Pr Tr) as [[] Hk].
    + rewrite (Hin Hk). simpl. split; [lia|]. split; [by repeat constructor|].
      intros gs. destruct (h float _) as [s|s]; [done|].
      intros [= <-]. simpl. lia.
    + rewrite (Hout Hk). simpl. split; [lia|]. split; [by constructor|].
      intros gs [= <-]. simpl. lia.
  - rewrite Hoff. simpl. split; [lia|]. split; [by constructor|].
    intros gs [= <-]. lia.
Qed.

Lemma filter_no_match {A} (p : A -> bool) l :
  Forall (fun x => p x = false) l -> List.filter p l = [].
Proof.
  induction 1 as [|x l Hx _ IH]; [done|]. simpl. by rewrite Hx.
Qed.

Lemma filter_all_match {A} (p : A -> bool) l :
  Forall (fun x => p x = true) l -> List.filter p l = l.
Proof.
  induction 1 as [|x l Hx _ IH]; [done|]. simpl. by rewrite Hx, IH.
Qed.

(** The helper makes at most fourteen calls: at most thirteen Newton
    attempts and at most one evaluation of a correlation. *)
Lemma helper_attempts Pr Tr f name guess newton_kwargs smart_guess :
  (length (calls h (_calc_z_explicit_implicit_helper Pr Tr f name guess newton_kwargs
                                                     smart_guess)) <= 14)%nat
  /\ (length (List.filter is_attempt
                (calls h (_calc_z_explicit_implicit_helper Pr Tr f name guess
                                                           newton_kwargs smart_guess)))
      <= 13)%nat
  /\ (length (List.filter is_evaluation
                (calls h (_calc_z_explicit_implicit_helper Pr Tr f name guess
                                                           newton_kwargs smart_guess)))
      <= 1)%nat.
Proof.
  unfold _calc_z_explicit_implicit_helper. destruct (py_in name ["kareem"]).
  - unfold calls. simpl. destruct (h float _); simpl; lia.
  - unfold mbind, prog_bind, calls. rewrite run_log_bind.
    destruct (guesses_size Pr Tr (default_guess Pr guess)
                           (default_smart_guess smart_guess)) as (Hl & Ha & Hgs).
    unfold calls, run in Hl, Ha, Hgs.
    destruct (run_log h (guesses _ _ _ _)) as [evs [e|gs]]; simpl in *.
    + rewrite filter_no_match by done.
      pose proof (List.filter_length_le is_evaluation evs). simpl. lia.
    + specialize (Hgs gs eq_refl).
      destruct (try_guesses_attempts f Pr Tr newton_kwargs gs) as [Hl' Ha'].
      unfold calls in Hl', Ha'.
      destruct (run_log h (try_guesses _ _ _ _ gs)) as [evs' r]. simpl in *.
      assert (He' : Forall (fun e => is_evaluation e = false) evs')
        by (eapply Forall_impl; [exact Ha' | apply attempt_no_evaluation]).
      pose proof (List.filter_length_le is_evaluation evs).
      rewrite !List.filter_app, !length_app, (filter_no_match _ evs),
        (filter_all_match _ evs'), (filter_no_match _ evs') by done.
      simpl. lia.
Qed.

Lemma reduce_calls sg P T H2S CO2 N2 Pr Tr pmodel ignore_conflict kwargs :
  (length (calls h (reduce sg P T H2S CO2 N2 Pr Tr pmodel ignore_conflict kwargs)) <= 1)%nat
  /\ Forall (fun e => is_attempt e = false /\ is_evaluation e = false)
            (calls h (reduce sg P T H2S CO2 N2 Pr Tr pmodel ignore_conflict kwargs)).
Proof.
  unfold reduce, calls. destruct (String.eqb pmodel "piper").
  - simpl. destruct (h pc_state _); simpl; (split; [lia | by repeat constructor]).
  - destruct (String.eqb pmodel "sutton"); [|by split; [simpl; lia | constructor]].
    destruct N2; [by split; [simpl; lia | constructor]|].
    simpl. destruct (h pc_state _); simpl; (split; [lia | by repeat constructor]).
Qed.

(** X4. Whatever the collaborators answer, one call of [calc_z] makes at
    most fifteen calls to them: at most one to a pseudo-critical model, at
    most one evaluation of a correlation, and at most thirteen Newton
    attempts (the smart-guess candidate, the guess, and the at most eleven
    candidates of [_construct_guess_list_order]).  A solve that does not
    converge therefore fails after a bounded number of attempts. *)
Theorem calc_z_call_bound :
  forall (sg P T H2S CO2 N2 Pr Tr : option float)
         (pmodel zmodel : string) (guess : option float)
         (newton_kwargs : option (gmap string pyval)) (smart_guess : option bool)
         (ps_props ignore_conflict : bool) (kwargs : gmap string pyval),
    (length (List.filter is_reduction
               (calls h (calc_z sg P T H2S CO2 N2 Pr Tr pmodel zmodel guess
                                newton_kwargs smart_guess ps_props ignore_conflict
                                kwargs))) <= 1)%nat
    /\ (length (List.filter is_evaluation
                  (calls h (calc_z sg P T H2S CO2 N2 Pr Tr pmodel zmodel guess
                                   newton_kwargs smart_guess ps_props ignore_conflict
                                   kwargs))) <= 1)%nat
    /\ (length (List.filter is_attempt
                  (calls h (calc_z sg P T H2S CO2 N2 Pr Tr pmodel zmodel guess
                                   newton_kwargs smart_guess ps_props ignore_conflict
                                   kwargs))) <= 13)%nat
    /\ (length (calls h (calc_z sg P T H2S CO2 N2 Pr Tr pmodel zmodel guess
                                newton_kwargs smart_guess ps_props ignore_conflict
                                kwargs)) <= 15)%nat.
Proof.
  intros.
  assert (Hcases : (exists pr tr, Pr = Some pr /\ Tr = Some tr) \/ (Pr = None \/ Tr = None)).
  { destruct Pr, Tr; eauto. }
  destruct Hcases as [(pr & tr & -> & ->)|Hmissing].
  - rewrite calc_z_given. unfold calls. rewrite run_log_bind.
    destruct (check_explicit_arguments_cases zmodel guess newton_kwargs smart_guess)
      as [->|[arg ->]]; [|simpl; lia].
    cbn [run_log]. rewrite run_log_bind.
    destruct (get_z_model_cases zmodel) as [(f & _ & Hf)|Hf]; rewrite Hf;
      [|simpl; lia].
    cbn [run_log]. rewrite run_log_bind.
    destruct (helper_attempts pr tr f zmodel guess newton_kwargs smart_guess)
      as (Hl & Ha & He).
    pose proof (helper_calls h pr tr f zmodel guess newton_kwargs smart_guess) as Hr.
    unfold calls in Hl, Ha, He, Hr.
    destruct (run_log h (_calc_z_explicit_implicit_helper _ _ _ _ _ _ _)) as [evs [e|Z]];
      simpl in *.
    + rewrite (filter_no_match is_reduction) by done. simpl. lia.
    + destruct ps_props; simpl; rewrite app_nil_r;
        rewrite (filter_no_match is_reduction) by done; simpl; lia.
  - rewrite calc_z_reduced by done. unfold calls. rewrite run_log_bind.
    destruct (check_explicit_arguments_cases zmodel guess newton_kwargs smart_guess)
      as [->|[arg ->]]; [|simpl; lia].
    cbn [run_log]. rewrite run_log_bind.
    destruct (get_z_model_cases zmodel) as [(f & _ & Hf)|Hf]; rewrite Hf;
      [|simpl; lia].
    cbn [run_log]. rewrite run_log_bind.
    destruct (reduce_calls sg P T H2S CO2 N2 Pr Tr pmodel ignore_conflict kwargs)
      as [Hrl Hrn].
    unfold calls in Hrl, Hrn.
    assert (Hra : Forall (fun e => is_attempt e = false)
                         (fst (run_log h (reduce sg P T H2S CO2 N2 Pr Tr pmodel
                                                 ignore_conflict kwargs))))
      by (eapply Forall_impl; [exact Hrn | by intros ? [? ?]]).
    assert (Hre : Forall (fun e => is_evaluation e = false)
                         (fst (run_log h (reduce sg P T H2S CO2 N2 Pr Tr pmodel
                                                 ignore_conflict kwargs))))
      by (eapply Forall_impl; [exact Hrn | by intros ? [? ?]]).
    clear Hrn.
    destruct (run_log h (reduce _ _ _ _ _ _ _ _ _ _ _)) as [revs [e|st]]; simpl in *.
    + rewrite (filter_no_match is_attempt), (filter_no_match is_evaluation) by done.
      pose proof (List.filter_length_le is_reduction revs). simpl. lia.
    + rewrite run_log_bind.
      destruct (helper_attempts (pc_Pr st) (pc_Tr st) f zmodel guess newton_kwargs
                                smart_guess) as (Hl & Ha & He).
      pose proof (helper_calls h (pc_Pr st) (pc_Tr st) f zmodel guess newton_kwargs
                               smart_guess) as Hr.
      unfold calls in Hl, Ha, He, Hr.
      pose proof (List.filter_length_le is_reduction revs).
      destruct (run_log h (_calc_z_explicit_implicit_helper _ _ _ _ _ _ _))
        as [evs [e|Z]]; simpl in *.
      * rewrite !List.filter_app, !length_app, (filter_no_match is_reduction evs),
          (filter_no_match is_attempt revs), (filter_no_match is_evaluation revs)
          by done.
        simpl. lia.
      * destruct ps_props; simpl; rewrite app_nil_r;
          rewrite !List.filter_app, !length_app, (filter_no_match is_reduction evs),
            (filter_no_match is_attempt revs), (filter_no_match is_evaluation revs)
            by done; simpl; lia.
Qed.

End attempts.

(** The bound of fifteen calls is reached: no attempt converges, the guess
    2 is no ladder value, and [Pr], [Tr] come from a pseudo-critical model
    and lie in the range of [kareem]. *)
Lemma calc_z_call_bound_reached :
  length (calls (answering (inr 0.86) (fun _ => inl "RuntimeError")
                           (inr {| pc_Tr := 1.5; pc_Pr := 1.4; pc_ps_props := ∅ |}))
                (calc_z (Some 0.7) (Some 2010) (Some 75) None None None None None
                        "piper" "DAK" (Some 2) None None false false ∅))
  = 15%nat.
Proof. by vm_compute. Qed.

(* ===================================================================== *)
(** ** The exceptions of a solve *)
(* ===================================================================== *)

Section failures.
Import PyFloat PySet.
Context (h : handler).

Lemma guesses_callee_error Pr Tr guess smart_guess s :
  run h (guesses Pr Tr guess smart_guess) = inl (CalleeError s) ->
  smart_guess = true
  /\ _check_working_Pr_Tr_range (Numpy.Scalar Pr) (Numpy.Scalar Tr) "kareem" = Ret true
  /\ h float (ZCorrelation kareem Pr Tr) = inl s.
Proof.
  destruct (construct_guess_list_order_block guess) as (block & Hb & _).
  destruct (guesses_run_log h Pr Tr _ _ Hb) as (Hoff & Hout & Hin).
  unfold run. destruct smart_guess.
  - destruct (kareem_range Pr Tr) as [[] Hr].
    + rewrite (Hin Hr). simpl. destruct (h float _) as [s'|?]; [|done].
      by intros [= <-].
    + by rewrite (Hout Hr).
  - by rewrite Hoff.
Qed.

(** X3. The helper of an implicit model fails in two ways only.  It
    raises [RuntimeError("Failed to converge")], or it lets through the
    exception of the one call that is outside the [try]: the evaluation of
    [kareem] for the smart guess, which happens only when smart guess is
    enabled and [(Pr, Tr)] is in the range of [kareem].  No exception of a
    Newton attempt ever leaves the helper. *)
Theorem helper_implicit_errors :
  forall (Pr Tr : float) (f : zfunc) (name : string) (guess : option float)
         (newton_kwargs : option (gmap string pyval)) (smart_guess : option bool)
         (e : exn),
    py_in name ["kareem"] = false ->
    run h (_calc_z_explicit_implicit_helper Pr Tr f name guess newton_kwargs smart_guess)
    = inl e ->
    e = RuntimeError "Failed to converge"
    \/ exists s,
        e = CalleeError s
        /\ default_smart_guess smart_guess = true
        /\ _check_working_Pr_Tr_range (Numpy.Scalar Pr) (Numpy.Scalar Tr) "kareem"
           = Ret true
        /\ h float (ZCorrelation kareem Pr Tr) = inl s.
Proof.
  intros * Hname. rewrite helper_implicit, run_bind by done.
  destruct (run h (guesses _ _ _ _)) as [e'|gs] eqn:Eg.
  - intros [= <-]. right. destruct (guesses_error h _ _ _ _ _ Eg) as [s ->].
    exists s. split; [done|]. by apply guesses_callee_error in Eg.
  - intros He. apply try_guesses_error in He as [-> _]. by left.
Qed.

(** X6. When the helper of an implicit model raises
    [RuntimeError("Failed to converge")], a Newton attempt was made, and
    failed, from the provided or defaulted guess and from each of the ten
    ladder values 0.1, ..., 1.0 (from a start equal to it). *)
Theorem helper_failure_exhausts_candidates :
  forall (Pr Tr : float) (f : zfunc) (name : string) (guess : option float)
         (newton_kwargs : option (gmap string pyval)) (smart_guess : option bool),
    py_in name ["kareem"] = false ->
    run h (_calc_z_explicit_implicit_helper Pr Tr f name guess newton_kwargs smart_guess)
    = inl (RuntimeError "Failed to converge") ->
    forall v, v = default_guess Pr guess \/ In v ladder ->
              exists y, py_eq y v = true
                        /\ attempt_fails h f Pr Tr newton_kwargs y.
Proof.
  intros * Hname. rewrite helper_implicit, run_bind by done.
  destruct (construct_guess_list_order_block (default_guess Pr guess))
    as (block & Hb & _ & Honce).
  destruct (guesses_run_log h Pr Tr _ _ Hb) as (Hoff & Hout & Hin).
  assert (Hblock : forall gs, (forall y, In y block -> In y gs) ->
            run h (try_guesses f Pr Tr newton_kwargs gs)
            = inl (RuntimeError "Failed to converge") ->
            forall v, v = default_guess Pr guess \/ In v ladder ->
              exists y, py_eq y v = true /\ attempt_fails h f Pr Tr newton_kwargs y).
  { intros gs Hsub He v Hv. apply try_guesses_error in He as [_ Hall].
    pose proof (Honce v Hv) as H1.
    assert (Hex : exists y, In y block /\ py_eq y v = true).
    { destruct (existsb (fun y => py_eq y v) block) eqn:Ex.
      - apply existsb_exists in Ex. exact Ex.
      - rewrite occurrences_zero in H1; [done|].
        by apply existsb_py_eq_false. }
    destruct Hex as (y & Hy & Ey). exists y. split; [done|].
    rewrite Forall_forall in Hall. apply Hall, list_elem_of_In, Hsub, Hy. }
  unfold run in *. destruct (default_smart_guess smart_guess).
  - destruct (kareem_range Pr Tr) as [[] Hr].
    + rewrite (Hin Hr). cbn [snd]. destruct (h float _) as [s|s]; [done|].
      apply Hblock. intros y Hy. by right; right.
    + rewrite (Hout Hr). cbn [snd]. apply Hblock. intros y Hy. by right.
  - rewrite Hoff. cbn [snd]. by apply Hblock.
Qed.

Lemma reduce_error sg P T H2S CO2 N2 Pr Tr pmodel ignore_conflict kwargs e :
  run h (reduce sg P T H2S CO2 N2 Pr Tr pmodel ignore_conflict kwargs) = inl e ->
  (pmodel = "sutton" /\ is_Some N2 /\ e = KeyError sutton_no_N2)
  \/ ((pmodel ∉ ["piper"; "sutton"]) /\ e = KeyError (pmodel_not_implemented pmodel))
  \/ exists s, e = CalleeError s.
Proof.
  unfold reduce. destruct (String.eqb_spec pmodel "piper") as [->|Hp].
  - rewrite run_call. destruct (h pc_state _) as [s|?]; [|done].
    intros [= <-]. right; right. by exists s.
  - destruct (String.eqb_spec pmodel "sutton") as [->|Hs].
    + destruct N2.
      * intros [= <-]. left. by eauto.
      * rewrite run_call. destruct (h pc_state _) as [s|?]; [|done].
        intros [= <-]. right; right. by exists s.
    + intros [= <-]. right; left. split; [|done].
      intros Hin. repeat (apply elem_of_cons in Hin as [->|Hin]; [done|]).
      by apply elem_of_nil in Hin.
Qed.

Lemma check_explicit_arguments_error zmodel guess newton_kwargs smart_guess e :
  run h (check_explicit_arguments zmodel guess newton_kwargs smart_guess) = inl e ->
  zmodel = "kareem"
  /\ exists arg, arg ∈ ["guess"; "newton_kwargs"; "smart_guess"]
                 /\ e = KeyError (unexpected_argument zmodel arg).
Proof.
  unfold check_explicit_arguments, py_in. simpl existsb.
  destruct (String.eqb_spec zmodel "kareem") as [->|_]; [|done].
  destruct guess;
    [intros [= <-]; split; [done|]; eexists; split; [|done];
     repeat ((by left) || right)|].
  destruct newton_kwargs;
    [intros [= <-]; split; [done|]; eexists; split; [|done];
     repeat ((by left) || right)|].
  destruct smart_guess;
    [intros [= <-]; split; [done|]; eexists; split; [|done];
     repeat ((by left) || right)|].
  done.
Qed.

(** X5. Every exception of [calc_z] on float inputs is one of six: the
    [KeyError] of an argument that the explicit model ['kareem'] does not
    take; the [KeyError] of a z-model name that is not registered; when
    [Pr] or [Tr] is missing, the [KeyError] of [pmodel='sutton'] with an
    [N2] or that of an unknown pseudo-critical model; an exception raised
    inside a collaborator; or [RuntimeError("Failed to converge")].  In
    particular no [ValueError] of [min] or [list.index] escapes. *)
Theorem calc_z_errors :
  forall (sg P T H2S CO2 N2 Pr Tr : option float)
         (pmodel zmodel : string) (guess : option float)
         (newton_kwargs : option (gmap string pyval)) (smart_guess : option bool)
         (ps_props ignore_conflict : bool) (kwargs : gmap string pyval) (e : exn),
    run h (calc_z sg P T H2S CO2 N2 Pr Tr pmodel zmodel guess newton_kwargs
                  smart_guess ps_props ignore_conflict kwargs) = inl e ->
    (zmodel = "kareem"
     /\ exists arg, arg ∈ ["guess"; "newton_kwargs"; "smart_guess"]
                    /\ e = KeyError (unexpected_argument zmodel arg))
    \/ (models !! zmodel = None /\ e = KeyError (zmodel_not_implemented zmodel))
    \/ ((Pr = None \/ Tr = None) /\ pmodel = "sutton" /\ is_Some N2
        /\ e = KeyError sutton_no_N2)
    \/ ((Pr = None \/ Tr = None) /\ (pmodel ∉ ["piper"; "sutton"])
        /\ e = KeyError (pmodel_not_implemented pmodel))
    \/ (exists s, e = CalleeError s)
    \/ e = RuntimeError "Failed to converge".
Proof.
  intros *.
  assert (Hcases : (exists pr tr, Pr = Some pr /\ Tr = Some tr) \/ (Pr = None \/ Tr = None)).
  { destruct Pr, Tr; eauto. }
  destruct Hcases as [(pr & tr & -> & ->)|Hmissing].
  - rewrite calc_z_given, run_bind.
    destruct (run h (check_explicit_arguments _ _ _ _)) as [e'|[]] eqn:Ec.
    { intros [= <-]. left. by eapply check_explicit_arguments_error. }
    rewrite run_bind.
    unfold _get_z_model. destruct (models !! zmodel) as [f|] eqn:Em.
    2:{ intros [= <-]. right; left. done. }
    rewrite run_ret, run_bind.
    destruct (run h (_calc_z_explicit_implicit_helper _ _ _ _ _ _ _)) as [e'|Z] eqn:EZ.
    + intros [= <-]. apply helper_error in EZ as [?| ->]; do 4 right; [by left | by right].
    + by destruct ps_props.
  - rewrite calc_z_reduced, run_bind by done.
    destruct (run h (check_explicit_arguments _ _ _ _)) as [e'|[]] eqn:Ec.
    { intros [= <-]. left. by eapply check_explicit_arguments_error. }
    rewrite run_bind.
    unfold _get_z_model. destruct (models !! zmodel) as [f|] eqn:Em.
    2:{ intros [= <-]. right; left. done. }
    rewrite run_ret, run_bind.
    destruct (run h (reduce _ _ _ _ _ _ _ _ _ _ _)) as [e'|st] eqn:Est.
    { intros [= <-].
      apply reduce_error in Est as [(? & ? & ?)|[(? & ?)|?]];
        [do 2 right; left | do 3 right; left | do 4 right; left]; done. }
    rewrite run_bind.
    destruct (run h (_calc_z_explicit_implicit_helper _ _ _ _ _ _ _)) as [e'|Z] eqn:EZ.
    + intros [= <-]. apply helper_error in EZ as [?| ->]; do 4 right; [by left | by right].
    + by destruct ps_props.
Qed.

End failures.

Lemma helper_implicit_errors_witness :
  py_in "DAK" ["kareem"] = false
  /\ run (answering (inl "ZeroDivisionError") (fun x0 => inr x0)
                    (inl "ZeroDivisionError"))
         (_calc_z_explicit_implicit_helper 1.5 1.5 DAK "DAK" None None None)
     = inl (CalleeError "ZeroDivisionError")
  /\ (CalleeError "ZeroDivisionError" = RuntimeError "Failed to converge"
      \/ exists s,
          CalleeError "ZeroDivisionError" = CalleeError s
          /\ default_smart_guess None = true
          /\ _check_working_Pr_Tr_range (Numpy.Scalar 1.5) (Numpy.Scalar 1.5) "kareem"
             = Ret true
          /\ answering (inl "ZeroDivisionError") (fun x0 => inr x0)
                       (inl "ZeroDivisionError") float (ZCorrelation kareem 1.5 1.5)
             = inl s).
Proof.
  assert (H1 : py_in "DAK" ["kareem"] = false) by reflexivity.
  assert (H2 : run (answering (inl "ZeroDivisionError") (fun x0 => inr x0)
                              (inl "ZeroDivisionError"))
                   (_calc_z_explicit_implicit_helper 1.5 1.5 DAK "DAK" None None None)
               = inl (CalleeError "ZeroDivisionError")) by (vm_compute; reflexivity).
  pose proof (helper_implicit_errors _ 1.5 1.5 DAK "DAK" None None None _ H1 H2) as H.
  split; [exact H1|]. split; [exact H2 | exact H].
Defined.

Lemma helper_failure_exhausts_candidates_witness :
  py_in "DAK" ["kareem"] = false
  /\ run (answering (inr 0.86) (fun _ => inl "RuntimeError") (inl "unused"))
         (_calc_z_explicit_implicit_helper 1.5 1.5 DAK "DAK" None None None)
     = inl (RuntimeError "Failed to converge")
  /\ forall v, v = default_guess 1.5 None \/ In v ladder ->
        exists y, PyFloat.py_eq y v = true
                  /\ attempt_fails (answering (inr 0.86) (fun _ => inl "RuntimeError")
                                              (inl "unused"))
                                   DAK 1.5 1.5 None y.
Proof.
  assert (H1 : py_in "DAK" ["kareem"] = false) by reflexivity.
  assert (H2 : run (answering (inr 0.86) (fun _ => inl "RuntimeError") (inl "unused"))
                   (_calc_z_explicit_implicit_helper 1.5 1.5 DAK "DAK" None None None)
               = inl (RuntimeError "Failed to converge")) by (vm_compute; reflexivity).
  pose proof (helper_failure_exhausts_candidates _ 1.5 1.5 DAK "DAK" None None None
                H1 H2) as H.
  split; [exact H1|]. split; [exact H2 | exact H].
Defined.

Lemma calc_z_errors_witness :
  run sample_handler
      (calc_z None None None None None (Some 0.05) (Some 1.5) None "sutton" "DAK"
              None None None false false ∅)
  = inl (KeyError sutton_no_N2)
  /\ (("DAK" = "kareem"
       /\ exists arg, arg ∈ ["guess"; "newton_kwargs"; "smart_guess"]
                      /\ KeyError sutton_no_N2 = KeyError (unexpected_argument "DAK" arg))
      \/ (models !! "DAK" = None
          /\ KeyError sutton_no_N2 = KeyError (zmodel_not_implemented "DAK"))
      \/ ((Some 1.5 = None \/ @None float = None) /\ "sutton" = "sutton"
          /\ is_Some (Some 0.05) /\ KeyError sutton_no_N2 = KeyError sutton_no_N2)
      \/ ((Some 1.5 = None \/ @None float = None) /\ ("sutton" ∉ ["piper"; "sutton"])
          /\ KeyError sutton_no_N2 = KeyError (pmodel_not_implemented "sutton"))
      \/ (exists s, KeyError sutton_no_N2 = CalleeError s)
      \/ KeyError sutton_no_N2 = RuntimeError "Failed to converge").
Proof.
  assert (H1 : run sample_handler
      (calc_z None None None None None (Some 0.05) (Some 1.5) None "sutton" "DAK"
              None None None false false ∅)
  = inl (KeyError sutton_no_N2)) by (vm_compute; reflexivity).
  pose proof (calc_z_errors sample_handler _ _ _ _ _ _ _ _ _ _ _ _ _ _ _ _ _ H1) as H.
  split; [exact H1 | exact H].
Defined.

(* ===================================================================== *)
(** ** The working ranges, once more *)
(* ===================================================================== *)

Section ranges.

Lemma check_working_Pr_Tr_range_value Pr Tr name rg :
  MODEL_RANGES !! name = Some rg ->
  exists b,
    _check_working_Pr_Tr_range Pr Tr name = Ret b
    /\ (b = true <->
        (forall x, x ∈ Numpy.elements Pr -> within (range_Pr rg) x)
        /\ (forall x, x ∈ Numpy.elements Tr -> within (range_Tr rg) x)).
Proof.
  intros Hrg. unfold _check_working_Pr_Tr_range. rewrite Hrg.
  eexists. split; [reflexivity|].
  destruct (range_Pr rg) as [plo phi], (range_Tr rg) as [tlo thi]. cbn [fst snd].
  by rewrite andb_true_iff, !all_within.
Qed.

(** Every registered range has the [Tr] bounds (1, 3) and the lower [Pr]
    bound 0.2. *)
Lemma MODEL_RANGES_shape name rg :
  MODEL_RANGES !! name = Some rg ->
  range_Tr rg = (1, 3) /\ fst (range_Pr rg) = 0.2.
Proof.
  rewrite MODEL_RANGES_lookup.
  repeat (destruct (String.eqb name _); [by intros [= <-]|]). done.
Qed.

(** X7. The two registries have the same names: for every name, either
    [_get_z_model] returns a function and [_check_working_Pr_Tr_range]
    returns a verdict, or both raise [KeyError].  So every model that can be
    selected has a working range, and no range is registered for a model
    that cannot be selected. *)
Theorem registries_agree :
  forall (name : string) (Pr Tr : Numpy.nd float),
    (exists f b,
        _get_z_model name = Ret f /\ _check_working_Pr_Tr_range Pr Tr name = Ret b)
    \/ (_get_z_model name = Raise (KeyError (zmodel_not_implemented name))
        /\ _check_working_Pr_Tr_range Pr Tr name = Raise (KeyError name)).
Proof.
  intros name Pr Tr. unfold _get_z_model, _check_working_Pr_Tr_range.
  rewrite models_lookup, MODEL_RANGES_lookup.
  repeat (destruct (String.eqb name _); [left; by eauto|]).
  by right.
Qed.

(** X8. The working ranges are nested by their upper [Pr] bound: scalars
    or arrays [(Pr, Tr)] that are in the range of one model are in the range
    of every model whose upper [Pr] bound is not smaller.  What is in the
    range of [kareem] (the smart-guess model, bound 15) is thus in the range
    of all four models, and what is in the range of [hall_yarborough]
    (20.5) is in the range of [DAK] and [londono] (30). *)
Theorem check_working_Pr_Tr_range_monotone :
  forall (Pr Tr : Numpy.nd float) (name name' : string) (rg rg' : model_range),
    MODEL_RANGES !! name = Some rg ->
    MODEL_RANGES !! name' = Some rg' ->
    PyFloat.le (snd (range_Pr rg)) (snd (range_Pr rg')) = true ->
    _check_working_Pr_Tr_range Pr Tr name = Ret true ->
    _check_working_Pr_Tr_range Pr Tr name' = Ret true.
Proof.
  intros * Hrg Hrg' Hle Hin.
  destruct (check_working_Pr_Tr_range_value Pr Tr _ _ Hrg) as (b & Eb & Hb).
  destruct (check_working_Pr_Tr_range_value Pr Tr _ _ Hrg') as (b' & Eb' & Hb').
  rewrite Eb in Hin. injection Hin as ->. rewrite Eb'. f_equal. apply Hb'.
  destruct (proj1 Hb eq_refl) as [HP HT].
  destruct (MODEL_RANGES_shape _ _ Hrg) as [ET EP].
  destruct (MODEL_RANGES_shape _ _ Hrg') as [ET' EP'].
  split.
  - intros x Hx. destruct (HP x Hx) as [Hlo Hhi]. split.
    + by rewrite EP', <- EP.
    + by eapply float_le_trans.
  - intros x Hx. rewrite ET', <- ET. by apply HT.
Qed.

Lemma check_working_Pr_Tr_range_monotone_witness :
  MODEL_RANGES !! "kareem" = Some {| range_Tr := (1, 3); range_Pr := (0.2, 15) |}
  /\ MODEL_RANGES !! "DAK" = Some {| range_Tr := (1, 3); range_Pr := (0.2, 30) |}
  /\ PyFloat.le 15 30 = true
  /\ _check_working_Pr_Tr_range (Numpy.Array [1.5; 14.9]) (Numpy.Scalar 1.5) "kareem"
     = Ret true
  /\ _check_working_Pr_Tr_range (Numpy.Array [1.5; 14.9]) (Numpy.Scalar 1.5) "DAK"
     = Ret true.
Proof.
  assert (H1 : MODEL_RANGES !! "kareem"
               = Some {| range_Tr := (1, 3); range_Pr := (0.2, 15) |})
    by (vm_compute; reflexivity).
  assert (H2 : MODEL_RANGES !! "DAK"
               = Some {| range_Tr := (1, 3); range_Pr := (0.2, 30) |})
    by (vm_compute; reflexivity).
  assert (H3 : PyFloat.le 15 30 = true) by (vm_compute; reflexivity).
  assert (H4 : _check_working_Pr_Tr_range (Numpy.Array [1.5; 14.9]) (Numpy.Scalar 1.5)
                                          "kareem" = Ret true)
    by (vm_compute; reflexivity).
  pose proof (check_working_Pr_Tr_range_monotone _ _ _ _ _ _ H1 H2 H3 H4) as H.
  split; [exact H1|]. split; [exact H2|]. split; [exact H3|].
  split; [exact H4 | exact H].
Defined.

(** X10. A NaN is in no range: if [Pr] or [Tr] is NaN, or an array with a
    NaN among its elements, [_check_working_Pr_Tr_range] returns false for
    every registered model (both comparisons with a bound are false). *)
Theorem check_working_Pr_Tr_range_nan :
  forall (Pr Tr : Numpy.nd float) (name : string),
    is_Some (MODEL_RANGES !! name) ->
    nan ∈ Numpy.elements Pr ++ Numpy.elements Tr ->
    _check_working_Pr_Tr_range Pr Tr name = Ret false.
Proof.
  intros Pr Tr name [rg Hrg] Hnan.
  destruct (check_working_Pr_Tr_range_value Pr Tr _ _ Hrg) as (b & Eb & Hb).
  rewrite Eb. f_equal. destruct b; [|done].
  destruct (proj1 Hb eq_refl) as [HP HT].
  apply elem_of_app in Hnan as [Hx|Hx]; [apply HP in Hx | apply HT in Hx];
    destruct Hx as [_ Hx]; apply float_le_number in Hx as [Hx _];
    by apply nan_is_no_number in Hx.
Qed.

Lemma check_working_Pr_Tr_range_nan_witness :
  is_Some (MODEL_RANGES !! "DAK")
  /\ nan ∈ Numpy.elements (Numpy.Array [1.5; nan]) ++ Numpy.elements (Numpy.Scalar 1.5)
  /\ _check_working_Pr_Tr_range (Numpy.Array [1.5; nan]) (Numpy.Scalar 1.5) "DAK"
     = Ret false.
Proof.
  assert (H1 : is_Some (MODEL_RANGES !! "DAK")) by (vm_compute; eauto).
  assert (H2 : nan ∈ Numpy.elements (Numpy.Array [1.5; nan])
                     ++ Numpy.elements (Numpy.Scalar 1.5)).
  { simpl. right. left. }
  pose proof (check_working_Pr_Tr_range_nan _ _ _ H1 H2) as H.
  split; [exact H1|]. split; [exact H2 | exact H].
Defined.

End ranges.

(* ===================================================================== *)
(** ** The dictionary returned with [ps_props=True] *)
(* ===================================================================== *)

Section bundle.
Context (h : handler).

(** X9. What the dictionary of [ps_props=True] holds.  When [Pr] and
    [Tr] are given it has the three keys ['z'], ['Pr'], ['Tr'] and no
    other.  When one is missing it is the property bag of the
    pseudo-critical model with ['Tr'] and ['Pr'] set to the reduced state
    (entries of the bag under these names are overwritten) and every other
    key of the bag kept with its value; ['z'] is the computed [Z] unless the
    bag has a ['z'] of its own, which then replaces it.  In both cases the
    same call with [ps_props=False] returns that [Z]. *)
Theorem calc_z_ps_props_bundle :
  forall (sg P T H2S CO2 N2 Pr Tr : option float)
         (pmodel zmodel : string) (guess : option float)
         (newton_kwargs : option (gmap string pyval)) (smart_guess : option bool)
         (ignore_conflict : bool) (kwargs : gmap string pyval) (r : calc_result),
    run h (calc_z sg P T H2S CO2 N2 Pr Tr pmodel zmodel guess newton_kwargs
                  smart_guess true ignore_conflict kwargs) = inr r ->
    exists d Z,
      r = Z_props d
      /\ run h (calc_z sg P T H2S CO2 N2 Pr Tr pmodel zmodel guess newton_kwargs
                       smart_guess false ignore_conflict kwargs) = inr (Z_value Z)
      /\ match Pr, Tr with
         | Some pr, Some tr =>
             d !! "Pr" = Some (PyFloat pr) /\ d !! "Tr" = Some (PyFloat tr)
             /\ d !! "z" = Some (PyFloat Z)
             /\ forall k, k ∉ ["Pr"; "Tr"; "z"] -> d !! k = None
         | _, _ =>
             exists st,
               run h (reduce sg P T H2S CO2 N2 Pr Tr pmodel ignore_conflict kwargs)
               = inr st
               /\ d !! "Pr" = Some (PyFloat (pc_Pr st))
               /\ d !! "Tr" = Some (PyFloat (pc_Tr st))
               /\ d !! "z" = Some (default (PyFloat Z) (pc_ps_props st !! "z"))
               /\ forall k, k ∉ ["Pr"; "Tr"; "z"] -> d !! k = pc_ps_props st !! k
         end.
Proof.
  intros *.
  assert (Hcases : (exists pr tr, Pr = Some pr /\ Tr = Some tr) \/ (Pr = None \/ Tr = None)).
  { destruct Pr, Tr; eauto. }
  assert (Hkeys : forall k : string,
             k ∉ ["Pr"; "Tr"; "z"] -> k <> "Pr" /\ k <> "Tr" /\ k <> "z").
  { intros k Hk. repeat split; intros ->; apply Hk; repeat ((by left) || right). }
  destruct Hcases as [(pr & tr & -> & ->)|Hmissing].
  - rewrite !calc_z_given, !run_bind.
    destruct (run h (check_explicit_arguments _ _ _ _)) as [e|[]]; [done|].
    cbv beta iota. rewrite ?run_bind.
    destruct (run h (_get_z_model zmodel)) as [e|f]; [done|].
    cbv beta iota. rewrite ?run_bind.
    destruct (run h (_calc_z_explicit_implicit_helper _ _ _ _ _ _ _)) as [e|Z]; [done|].
    cbv beta iota. rewrite ?run_ret. intros [= <-]. eexists. exists Z.
    split; [done|]. split; [done|].
    split; [|split; [|split]].
    + rewrite lookup_insert_ne by done. by rewrite lookup_insert_eq.
    + by rewrite lookup_insert_eq.
    + rewrite !lookup_insert_ne by done. by rewrite lookup_singleton_eq.
    + intros k Hk. destruct (Hkeys k Hk) as (? & ? & ?).
      rewrite !lookup_insert_ne by done. by rewrite lookup_singleton_ne.
  - assert (Hgoal :
      run h (calc_z sg P T H2S CO2 N2 Pr Tr pmodel zmodel guess newton_kwargs
                    smart_guess true ignore_conflict kwargs) = inr r ->
      exists d Z,
        r = Z_props d
        /\ run h (calc_z sg P T H2S CO2 N2 Pr Tr pmodel zmodel guess newton_kwargs
                         smart_guess false ignore_conflict kwargs) = inr (Z_value Z)
        /\ exists st,
            run h (reduce sg P T H2S CO2 N2 Pr Tr pmodel ignore_conflict kwargs)
            = inr st
            /\ d !! "Pr" = Some (PyFloat (pc_Pr st))
            /\ d !! "Tr" = Some (PyFloat (pc_Tr st))
            /\ d !! "z" = Some (default (PyFloat Z) (pc_ps_props st !! "z"))
            /\ forall k, k ∉ ["Pr"; "Tr"; "z"] -> d !! k = pc_ps_props st !! k).
    { rewrite !calc_z_reduced, !run_bind by done.
      destruct (run h (check_explicit_arguments _ _ _ _)) as [e|[]]; [done|].
      cbv beta iota. rewrite ?run_bind.
      destruct (run h (_get_z_model zmodel)) as [e|f]; [done|].
      cbv beta iota. rewrite ?run_bind.
      destruct (run h (reduce _ _ _ _ _ _ _ _ _ _ _)) as [e|st]; [done|].
      cbv beta iota. rewrite ?run_bind.
      destruct (run h (_calc_z_explicit_implicit_helper _ _ _ _ _ _ _)) as [e|Z];
        [done|].
      cbv beta iota. rewrite ?run_ret. intros [= <-]. eexists. exists Z.
      split; [done|]. split; [done|]. exists st. split; [done|].
      split; [|split; [|split]].
      - by rewrite lookup_insert_eq.
      - rewrite lookup_insert_ne by done. by rewrite lookup_insert_eq.
      - rewrite !lookup_insert_ne by done. rewrite lookup_union.
        rewrite lookup_singleton_eq. by destruct (pc_ps_props st !! "z").
      - intros k Hk. destruct (Hkeys k Hk) as (? & ? & ?).
        rewrite !lookup_insert_ne by done. rewrite lookup_union.
        rewrite lookup_singleton_ne by done.
        by destruct (pc_ps_props st !! k). }
    destruct Hmissing as [-> | ->]; [exact Hgoal|]. destruct Pr; exact Hgoal.
Qed.

End bundle.

Lemma calc_z_ps_props_bundle_witness :
  run (answering (inr 0.86) (fun x0 => inr x0)
         (inr {| pc_Tr := 1.5; pc_Pr := 1.4;
                 pc_ps_props := <["Tr" := PyFloat 9]> (<["z" := PyObj "stale"]>
                                  {[ "Tpc" := PyFloat 371.4 ]}) |}))
      (calc_z (Some 0.7) (Some 2010) (Some 75) None None None None None
              "piper" "kareem" None None None true false ∅)
  = inr (Z_props (<["Pr" := PyFloat 1.4]> (<["Tr" := PyFloat 1.5]>
                   (<["z" := PyObj "stale"]> {[ "Tpc" := PyFloat 371.4 ]}))))
  /\ exists d Z,
      Z_props (<["Pr" := PyFloat 1.4]> (<["Tr" := PyFloat 1.5]>
                 (<["z" := PyObj "stale"]> {[ "Tpc" := PyFloat 371.4 ]})))
      = Z_props d
      /\ run (answering (inr 0.86) (fun x0 => inr x0)
                (inr {| pc_Tr := 1.5; pc_Pr := 1.4;
                        pc_ps_props := <["Tr" := PyFloat 9]> (<["z" := PyObj "stale"]>
                                         {[ "Tpc" := PyFloat 371.4 ]}) |}))
             (calc_z (Some 0.7) (Some 2010) (Some 75) None None None None None
                     "piper" "kareem" None None None false false ∅)
         = inr (Z_value Z)
      /\ exists st,
          run (answering (inr 0.86) (fun x0 => inr x0)
                 (inr {| pc_Tr := 1.5; pc_Pr := 1.4;
                         pc_ps_props := <["Tr" := PyFloat 9]> (<["z" := PyObj "stale"]>
                                          {[ "Tpc" := PyFloat 371.4 ]}) |}))
              (reduce (Some 0.7) (Some 2010) (Some 75) None None None None None
                      "piper" false ∅)
          = inr st
          /\ d !! "Pr" = Some (PyFloat (pc_Pr st))
          /\ d !! "Tr" = Some (PyFloat (pc_Tr st))
          /\ d !! "z" = Some (default (PyFloat Z) (pc_ps_props st !! "z"))
          /\ forall k, k ∉ ["Pr"; "Tr"; "z"] -> d !! k = pc_ps_props st !! k.
Proof.
  assert (H1 :
    run (answering (inr 0.86) (fun x0 => inr x0)
           (inr {| pc_Tr := 1.5; pc_Pr := 1.4;
                   pc_ps_props := <["Tr" := PyFloat 9]> (<["z" := PyObj "stale"]>
                                    {[ "Tpc" := PyFloat 371.4 ]}) |}))
        (calc_z (Some 0.7) (Some 2010) (Some 75) None None None None None
                "piper" "kareem" None None None true false ∅)
    = inr (Z_props (<["Pr" := PyFloat 1.4]> (<["Tr" := PyFloat 1.5]>
                     (<["z" := PyObj "stale"]> {[ "Tpc" := PyFloat 371.4 ]})))))
    by (vm_compute; reflexivity).
  pose proof (calc_z_ps_props_bundle _ _ _ _ _ _ _ _ _ _ _ _ _ _ _ _ _ H1) as H.
  split; [exact H1 | exact H].
Defined.

(* ===================================================================== *)
(** ** The smart guess *)
(* ===================================================================== *)

Section smart_guess.
Context (h : handler).

(** X11. The smart guess of an implicit solve is the explicit answer:
    with smart guess enabled and [(Pr, Tr)] in the range of [kareem], the
    first Newton attempt starts from the value that
    [calc_z(Pr=Pr, Tr=Tr, zmodel='kareem')] returns.  When that attempt
    converges, the helper makes these two calls and no other and returns the
    attempt's value, whatever the guess is: neither the guess nor a ladder
    value is tried. *)
Theorem helper_smart_guess_converges :
  forall (Pr Tr : float) (f : zfunc) (name : string) (guess : option float)
         (newton_kwargs : option (gmap string pyval)) (smart_guess : option bool)
         (s Z : float),
    py_in name ["kareem"] = false ->
    default_smart_guess smart_guess = true ->
    _check_working_Pr_Tr_range (Numpy.Scalar Pr) (Numpy.Scalar Tr) "kareem" = Ret true ->
    run h (calc_z None None None None None None (Some Pr) (Some Tr) "piper" "kareem"
                  None None None false false ∅) = inr (Z_value s) ->
    h float (newton_call f s Pr Tr newton_kwargs) = inr Z ->
    run_log h (_calc_z_explicit_implicit_helper Pr Tr f name guess newton_kwargs
                                                smart_guess)
    = ([CalledZCorrelation kareem Pr Tr; newton_event f Pr Tr newton_kwargs s], inr Z).
Proof.
  intros * Hname Hsmart Hrange Hs HZ.
  assert (Hk : h float (ZCorrelation kareem Pr Tr) = inr s).
  { rewrite calc_z_given, run_bind in Hs.
    rewrite check_explicit_arguments_passes, run_ret in Hs by done.
    cbv beta iota in Hs. rewrite run_bind, kareem_registered, run_ret in Hs.
    cbv beta iota in Hs. rewrite run_bind in Hs.
    assert (Hh : run h (_calc_z_explicit_implicit_helper Pr Tr kareem "kareem"
                                                         None None None)
                 = match h float (ZCorrelation kareem Pr Tr) with
                   | inl e => inl (CalleeError e)
                   | inr Z => inr Z
                   end) by (unfold run; by rewrite helper_explicit).
    rewrite Hh in Hs.
    destruct (h float (ZCorrelation kareem Pr Tr)) as [e|s']; [done|].
    rewrite run_ret in Hs. congruence. }
  rewrite helper_implicit, run_log_bind, Hsmart by done.
  destruct (construct_guess_list_order_block (default_guess Pr guess))
    as (block & Hb & _).
  destruct (guesses_run_log h Pr Tr _ _ Hb) as (_ & _ & Hin).
  rewrite (Hin Hrange), Hk.
  by rewrite (try_guesses_cons_success h f Pr Tr newton_kwargs s _ Z HZ).
Qed.

End smart_guess.

Lemma helper_smart_guess_converges_witness :
  py_in "DAK" ["kareem"] = false
  /\ default_smart_guess None = true
  /\ _check_working_Pr_Tr_range (Numpy.Scalar 1.4) (Numpy.Scalar 1.5) "kareem" = Ret true
  /\ run (answering (inr 0.86) (fun x0 => inr x0) (inl "unused"))
         (calc_z None None None None None None (Some 1.4) (Some 1.5) "piper" "kareem"
                 None None None false false ∅) = inr (Z_value 0.86)
  /\ answering (inr 0.86) (fun x0 => inr x0) (inl "unused") float
               (newton_call DAK 0.86 1.4 1.5 None) = inr 0.86
  /\ run_log (answering (inr 0.86) (fun x0 => inr x0) (inl "unused"))
             (_calc_z_explicit_implicit_helper 1.4 1.5 DAK "DAK" (Some 0.3) None None)
     = ([CalledZCorrelation kareem 1.4 1.5; newton_event DAK 1.4 1.5 None 0.86],
        inr 0.86).
Proof.
  assert (H1 : py_in "DAK" ["kareem"] = false) by reflexivity.
  assert (H2 : default_smart_guess None = true) by reflexivity.
  assert (H3 : _check_working_Pr_Tr_range (Numpy.Scalar 1.4) (Numpy.Scalar 1.5) "kareem"
               = Ret true) by (vm_compute; reflexivity).
  assert (H4 : run (answering (inr 0.86) (fun x0 => inr x0) (inl "unused"))
         (calc_z None None None None None None (Some 1.4) (Some 1.5) "piper" "kareem"
                 None None None false false ∅) = inr (Z_value 0.86))
    by (vm_compute; reflexivity).
  assert (H5 : answering (inr 0.86) (fun x0 => inr x0) (inl "unused") float
               (newton_call DAK 0.86 1.4 1.5 None) = inr 0.86) by reflexivity.
  pose proof (helper_smart_guess_converges _ 1.4 1.5 DAK "DAK" (Some 0.3) None None
                0.86 0.86 H1 H2 H3 H4 H5) as H.
  split; [exact H1|]. split; [exact H2|]. split; [exact H3|]. split; [exact H4|].
  split; [exact H5 | exact H].
Defined.

(* ===================================================================== *)
(** ** Where the value of an implicit solve comes from *)
(* ===================================================================== *)

Section provenance.
Import PyFloat PySet.
Context (h : handler).

(** The candidates are the smart guess, the guess and ladder values. *)
Lemma guesses_members Pr Tr guess smart_guess gs x0 :
  run h (guesses Pr Tr guess smart_guess) = inr gs -> In x0 gs ->
  x0 = guess \/ In x0 ladder
  \/ (smart_guess = true
      /\ _check_working_Pr_Tr_range (Numpy.Scalar Pr) (Numpy.Scalar Tr) "kareem"
         = Ret true
      /\ h float (ZCorrelation kareem Pr Tr) = inr x0).
Proof.
  destruct (construct_guess_list_order_block guess) as (block & Hb & Hfrom & _).
  destruct (guesses_run_log h Pr Tr _ _ Hb) as (Hoff & Hout & Hin).
  assert (Hblock : In x0 block -> x0 = guess \/ In x0 ladder
            \/ (smart_guess = true
                /\ _check_working_Pr_Tr_range (Numpy.Scalar Pr) (Numpy.Scalar Tr)
                                              "kareem" = Ret true
                /\ h float (ZCorrelation kareem Pr Tr) = inr x0)).
  { intros Hx. destruct (Hfrom x0 Hx); [by left | by right; left]. }
  unfold run. destruct smart_guess.
  - destruct (kareem_range Pr Tr) as [[] Hk].
    + rewrite (Hin Hk). cbn [snd]. destruct (h float _) as [s|s] eqn:Es; [done|].
      intros [= <-] [<-|[<-|Hx]]; [by right; right | by left | by apply Hblock].
    + rewrite (Hout Hk). intros [= <-] [<-|Hx]; [by left | by apply Hblock].
  - rewrite Hoff. intros [= <-]. apply Hblock.
Qed.

(** X12. The value an implicit solve returns is the value returned by
    one Newton attempt with the selected correlation at [(Pr, Tr)], started
    from one of the candidates: the provided or defaulted guess, a ladder
    value, or (with smart guess enabled and [(Pr, Tr)] in the range of
    [kareem]) the value of [kareem].  The helper never returns a guess
    itself or a value of its own making. *)
Theorem helper_value_provenance :
  forall (Pr Tr : float) (f : zfunc) (name : string) (guess : option float)
         (newton_kwargs : option (gmap string pyval)) (smart_guess : option bool)
         (Z : float),
    py_in name ["kareem"] = false ->
    run h (_calc_z_explicit_implicit_helper Pr Tr f name guess newton_kwargs smart_guess)
    = inr Z ->
    exists x0,
      h float (newton_call f x0 Pr Tr newton_kwargs) = inr Z
      /\ (x0 = default_guess Pr guess \/ In x0 ladder
          \/ (default_smart_guess smart_guess = true
              /\ _check_working_Pr_Tr_range (Numpy.Scalar Pr) (Numpy.Scalar Tr) "kareem"
                 = Ret true
              /\ h float (ZCorrelation kareem Pr Tr) = inr x0)).
Proof.
  intros * Hname. rewrite helper_implicit, run_bind by done.
  destruct (run h (guesses _ _ _ _)) as [e|gs] eqn:Eg; [done|].
  intros HZ. apply try_guesses_value in HZ as (pre & x0 & post & -> & _ & Hx).
  exists x0. split; [done|].
  apply (guesses_members _ _ _ _ _ x0 Eg), in_or_app. right. by left.
Qed.

(** X13. An implicit solve evaluates [kareem] only inside its working
    range: with smart guess disabled, or with [(Pr, Tr)] outside the range
    of [kareem], every call the helper makes is a Newton attempt, and there
    are at most twelve of them. *)
Theorem helper_no_evaluation_out_of_range :
  forall (Pr Tr : float) (f : zfunc) (name : string) (guess : option float)
         (newton_kwargs : option (gmap string pyval)) (smart_guess : option bool),
    py_in name ["kareem"] = false ->
    default_smart_guess smart_guess = false
    \/ _check_working_Pr_Tr_range (Numpy.Scalar Pr) (Numpy.Scalar Tr) "kareem"
       = Ret false ->
    Forall (fun e => is_attempt e = true)
           (calls h (_calc_z_explicit_implicit_helper Pr Tr f name guess newton_kwargs
                                                      smart_guess))
    /\ (length (calls h (_calc_z_explicit_implicit_helper Pr Tr f name guess
                                                          newton_kwargs smart_guess))
        <= 12)%nat.
Proof.
  intros * Hname Hout. rewrite helper_implicit by done.
  unfold calls. rewrite run_log_bind.
  destruct (reordered_of_permutation (default_guess Pr guess)) as (r & E & Hr).
  assert (Hb : _construct_guess_list_order (default_guess Pr guess)
               = Some (list_set (default_guess Pr guess :: r)))
    by (unfold _construct_guess_list_order; by rewrite E).
  pose proof (list_set_ladder_length (default_guess Pr guess) r Hr) as Hlen.
  assert (length (list_set (default_guess Pr guess :: r)) <= 11)%nat
    by (rewrite Hlen; destruct (existsb _ _); lia).
  destruct (guesses_run_log h Pr Tr _ _ Hb) as (Hoff & Hno & _).
  assert (Hgs : exists gs,
             run_log h (guesses Pr Tr (default_guess Pr guess)
                                (default_smart_guess smart_guess)) = ([], inr gs)
             /\ (length gs <= 12)%nat).
  { destruct (default_smart_guess smart_guess).
    - destruct Hout as [?|Hk]; [done|]. rewrite (Hno Hk). eexists. split; [done|].
      simpl. lia.
    - rewrite Hoff. eexists. split; [done|]. lia. }
  destruct Hgs as (gs & -> & Hl).
  destruct (try_guesses_attempts h f Pr Tr newton_kwargs gs) as [Hl' Ha'].
  unfold calls in Hl', Ha'.
  destruct (run_log h (try_guesses _ _ _ _ gs)) as [evs' res]. simpl in *.
  split; [done | lia].
Qed.

End provenance.

Lemma helper_value_provenance_witness :
  py_in "DAK" ["kareem"] = false
  /\ run sample_handler
         (_calc_z_explicit_implicit_helper 1.4 1.5 DAK "DAK" None None None)
     = inr 0.8
  /\ exists x0,
      sample_handler float (newton_call DAK x0 1.4 1.5 None) = inr 0.8
      /\ (x0 = default_guess 1.4 None \/ In x0 ladder
          \/ (default_smart_guess None = true
              /\ _check_working_Pr_Tr_range (Numpy.Scalar 1.4) (Numpy.Scalar 1.5)
                                            "kareem" = Ret true
              /\ sample_handler float (ZCorrelation kareem 1.4 1.5) = inr x0)).
Proof.
  assert (H1 : py_in "DAK" ["kareem"] = false) by reflexivity.
  assert (H2 : run sample_handler
                   (_calc_z_explicit_implicit_helper 1.4 1.5 DAK "DAK" None None None)
               = inr 0.8) by (vm_compute; reflexivity).
  pose proof (helper_value_provenance sample_handler 1.4 1.5 DAK "DAK" None None None
                0.8 H1 H2) as H.
  split; [exact H1|]. split; [exact H2 | exact H].
Defined.

Lemma helper_no_evaluation_out_of_range_witness :
  py_in "DAK" ["kareem"] = false
  /\ (default_smart_guess None = false
      \/ _check_working_Pr_Tr_range (Numpy.Scalar 20) (Numpy.Scalar 1.5) "kareem"
         = Ret false)
  /\ Forall (fun e => is_attempt e = true)
            (calls sample_handler
                   (_calc_z_explicit_implicit_helper 20 1.5 DAK "DAK" None None None))
  /\ (length (calls sample_handler
                    (_calc_z_explicit_implicit_helper 20 1.5 DAK "DAK" None None None))
      <= 12)%nat.
Proof.
  assert (H1 : py_in "DAK" ["kareem"] = false) by reflexivity.
  assert (H2 : default_smart_guess None = false
               \/ _check_working_Pr_Tr_range (Numpy.Scalar 20) (Numpy.Scalar 1.5)
                                             "kareem" = Ret false)
    by (right; vm_compute; reflexivity).
  pose proof (helper_no_evaluation_out_of_range sample_handler 20 1.5 DAK "DAK" None
                None None H1 H2) as H.
  split; [exact H1|]. split; [exact H2 | exact H].
Defined.
